(** * Pitch-kit generator: model invocation and structured-output extraction

  A shallow embedding of the resilient model-invocation layer
  ([pollStatus], [executeModelRequest], [generateImage], [generateVideo]),
  of the structured-output extraction ([generateBrandResearch],
  [generateScriptContent], [generateScript]), of [generateMediaPrompts], of
  [saveAssetsToDrive] and of the two pipeline handlers
  [POST /generate/research] and [POST /generate/script] of index.js; and,
  around them, of the two [extractMediaElements], of the histories of the
  two generators with [getMediaPrompts] and [getStoredScript], of
  [createOrGetFolder], of the handlers [POST /generate/media] and
  [GET /generate/media-prompts] of index.js and of the route of
  routes/mediaPrompts.js.

  JavaScript strings are sequences of UTF-16 code units; they are modelled
  as lists of code units.  The JavaScript runtime primitives the program
  calls but does not define ([JSON.parse], [JSON.stringify], string
  conversion, [String.prototype.toLowerCase]) and the remote services (text
  model, media model, status endpoint, drive) are parameters of the
  development.  Logging is left out.

  The first part holds the definitions, the second part the properties. *)

From stdpp Require Import base option list gmap.
From Stdlib Require Import ZArith NArith Ascii String Lia.

Local Open Scope Z_scope.
Set Warnings "-register-all".
Local Abbreviation length := List.length (only parsing).

(** ** JavaScript values and strings *)

Module JS.

(** A string is the list of its UTF-16 code units. *)
Definition jsstring : Type := list N.

(** A literal of the source, written as a Rocq string (ASCII only). *)
Definition lit (s : string) : jsstring :=
  N_of_ascii <$> list_ascii_of_string s.
#[global] Arguments lit : simpl never.

Definition LF : N := 10%N.
Definition BACKTICK : N := 96%N.

(** The values the program handles: what [JSON.parse] can build, plus
    [undefined].  Numbers are carried as data only (the program inspects
    nothing but their truthiness), so integer payloads suffice.  An object
    lists its own properties, each key once. *)
Inductive value : Type :=
| VUndefined
| VNull
| VBool (b : bool)
| VNum (n : Z)
| VStr (s : jsstring)
| VArr (items : list value)
| VObj (fields : list (jsstring * value)).

(** [ToBoolean]. *)
Definition truthy (v : value) : bool :=
  match v with
  | VUndefined | VNull => false
  | VBool b => b
  | VNum n => negb (n =? 0)
  | VStr s => match s with [] => false | _ => true end
  | VArr _ | VObj _ => true
  end.

(** [Array.isArray]. *)
Definition isArray (v : value) : bool :=
  match v with VArr _ => true | _ => false end.

Fixpoint assoc (k : jsstring) (fs : list (jsstring * value)) : option value :=
  match fs with
  | [] => None
  | (k', v) :: fs' => if bool_decide (k' = k) then Some v else assoc k fs'
  end.

(** Property read [o.k] for the data keys the program uses (none of them
    names a built-in property of strings, numbers or arrays): [None] is the
    [TypeError] raised on [null] and [undefined]. *)
Definition get (k : jsstring) (o : value) : option value :=
  match o with
  | VUndefined | VNull => None
  | VObj fs => Some (default VUndefined (assoc k fs))
  | _ => Some VUndefined
  end.

(** Optional chaining [o?.k]. *)
Definition get_opt (k : jsstring) (o : value) : value :=
  default VUndefined (get k o).

(** [a || b]. *)
Definition or_else (a b : value) : value := if truthy a then a else b.

(** [v === 'literal']. *)
Definition is_str (s : jsstring) (v : value) : bool :=
  match v with VStr t => bool_decide (t = s) | _ => false end.

(** *** String primitives *)

Fixpoint strip_prefix (p s : jsstring) : option jsstring :=
  match p, s with
  | [], _ => Some s
  | a :: p', b :: s' => if (a =? b)%N then strip_prefix p' s' else None
  | _ :: _, [] => None
  end.

(** [split_first p s]: the text before and after the leftmost occurrence
    of [p] in [s]. *)
Fixpoint split_first (p s : jsstring) : option (jsstring * jsstring) :=
  match strip_prefix p s with
  | Some rest => Some ([], rest)
  | None =>
      match s with
      | [] => None
      | c :: s' =>
          match split_first p s' with
          | Some (before, after) => Some (c :: before, after)
          | None => None
          end
      end
  end.

(** [s.includes(p)]. *)
Definition includes (p s : jsstring) : bool :=
  match split_first p s with Some _ => true | None => false end.

(** White space and line terminators of ECMAScript: the class [\s] of
    regular expressions and what [trim] removes. *)
Definition is_space (c : N) : bool :=
  ((9 <=? c) && (c <=? 13) || (c =? 32) || (c =? 160) || (c =? 5760)
   || (8192 <=? c) && (c <=? 8202) || (c =? 8232) || (c =? 8233)
   || (c =? 8239) || (c =? 8287) || (c =? 12288) || (c =? 65279))%N.

Fixpoint trimStart (s : jsstring) : jsstring :=
  match s with
  | c :: s' => if is_space c then trimStart s' else s
  | [] => []
  end.

Definition trimEnd (s : jsstring) : jsstring :=
  reverse (trimStart (reverse s)).

Definition trim (s : jsstring) : jsstring := trimEnd (trimStart s).

(** [s.replace(/re/g, repl)] for a regular expression whose match at a
    position depends on the text from that position on only, and is never
    empty: [m s] is the length of the match anchored at the head of [s].
    Matches are found left to right and do not overlap. *)
Fixpoint replace_from (m : jsstring → option nat) (repl : jsstring)
    (skip : nat) (s : jsstring) : jsstring :=
  match s with
  | [] => []
  | c :: s' =>
      match skip with
      | S k => replace_from m repl k s'
      | O =>
          match m s with
          | Some (S k) => repl ++ replace_from m repl k s'
          | _ => c :: replace_from m repl O s'
          end
      end
  end.

Definition replace_all (m : jsstring → option nat) (repl s : jsstring) : jsstring :=
  replace_from m repl O s.

(** [s.split(' ')[0]]. *)
Fixpoint first_word (s : jsstring) : jsstring :=
  match s with
  | [] => []
  | c :: s' => if (c =? 32)%N then [] else c :: first_word s'
  end.

(** [v?.length]: arrays and strings have a length, an object has the one it
    lists, if any. *)
Definition length_of (v : value) : value :=
  match v with
  | VArr items => VNum (Z.of_nat (length items))
  | VStr s => VNum (Z.of_nat (length s))
  | VObj fs => default VUndefined (assoc (lit "length") fs)
  | _ => VUndefined
  end.

(** What iterating over a string yields: its code points, each as a string.
    A lead surrogate followed by a trail surrogate makes one code point. *)
Definition is_lead (c : N) : bool := ((55296 <=? c) && (c <=? 56319))%N.
Definition is_trail (c : N) : bool := ((56320 <=? c) && (c <=? 57343))%N.

Fixpoint code_points (s : jsstring) : list value :=
  match s with
  | [] => []
  | c :: s' =>
      match s' with
      | d :: s'' =>
          if is_lead c && is_trail d then VStr [c; d] :: code_points s''
          else VStr [c] :: code_points s'
      | [] => [VStr [c]]
      end
  end.

(** A value in a template literal: a string stands for itself, [undefined],
    [null] and the booleans for their names; [ToString] converts the
    rest (numbers, arrays, objects). *)
Definition template (ToString : value → jsstring) (v : value) : jsstring :=
  match v with
  | VStr s => s
  | VUndefined => lit "undefined"
  | VNull => lit "null"
  | VBool true => lit "true"
  | VBool false => lit "false"
  | _ => ToString v
  end.

End JS.
Import JS.

(** ** Exceptions and results *)

Module Exn.

(** The errors the program raises or lets through.  A rejected call to a
    remote service carries the HTTP status when the service answered
    ([error.response?.status]). *)
Inductive exn : Type :=
| TypeError                         (* property read on null/undefined, call of a non-function *)
| SyntaxError                       (* JSON.parse, response.json() *)
| Rejected (status : option Z)      (* axios / fetch / fal client rejection *)
| RequestFailed (detail : value)    (* `Request failed: ${error || 'Unknown error'}` *)
| RequestTimedOut                   (* 'Request timed out' *)
| NoDataReceived                    (* 'No data received from Fal.ai' *)
| ImageUrlNotFound                  (* 'Image URL not found in response' *)
| VideoUrlNotFound                  (* 'Video URL not found in response' *)
| FailedToGenerateImage (cause : exn)
| FailedToGenerateVideo (cause : exn)
| ApiRequestFailed (status : Z)     (* `API request failed with status ${status}` *)
| InvalidResponseFormat             (* 'Invalid response format from API' *)
| InvalidScriptStructure            (* 'Invalid script structure in response' *)
| FailedToParseScript (cause : exn) (* `Failed to parse script content: ${message}` *)
| BrandNameRequired                 (* 'Brand name is required' *)
| ResearchDataRequired.             (* 'Research data is required' *)

Inductive result (A : Type) : Type :=
| Ok (a : A)
| Throw (e : exn).
Arguments Ok {A} a.
Arguments Throw {A} e.

#[global] Instance result_ret : MRet result := λ A a, Ok a.
#[global] Instance result_bind : MBind result := λ A B f r,
  match r with Ok a => f a | Throw e => Throw e end.

(** [try { body } catch (e) { handler e }]. *)
Definition try_catch {A} (body : result A) (handler : exn → result A) : result A :=
  match body with Ok a => Ok a | Throw e => handler e end.

(** A property read that raises [TypeError] on [null] and [undefined]. *)
Definition read (k : jsstring) (o : value) : result value :=
  match get k o with Some v => Ok v | None => Throw TypeError end.

(** [o[0]]. *)
Definition read0 (o : value) : result value :=
  match o with
  | VUndefined | VNull => Throw TypeError
  | VArr (x :: _) => Ok x
  | VStr (c :: _) => Ok (VStr [c])
  | VObj fs => Ok (default VUndefined (assoc (lit "0") fs))
  | _ => Ok VUndefined
  end.

(** [o?.[0]]. *)
Definition read0_opt (o : value) : value :=
  match read0 o with Ok v => v | Throw _ => VUndefined end.

(** [...v] in an argument list: the elements of an array, the code points
    of a string; no other value at hand is iterable. *)
Definition spread (v : value) : result (list value) :=
  match v with
  | VArr items => Ok items
  | VStr s => Ok (code_points s)
  | _ => Throw TypeError
  end.

(** [if (section.k?.length) acc.push(...section.k)] *)
Definition push_spread (k : string) (section : value) (acc : list value)
    : result (list value) :=
  let field := get_opt (lit k) section in
  if truthy (length_of field) then items ← spread field; Ok (acc ++ items) else Ok acc.

(** [if (section.k) acc.push(section.k)] *)
Definition push_truthy (k : string) (section : value) (acc : list value) : list value :=
  let field := get_opt (lit k) section in
  if truthy field then acc ++ [field] else acc.

End Exn.
Import Exn.

(** ** Calls to the outside world

    The remote services are deterministic functions of an abstract world
    state [W], which every call may change.  The program's calls are recorded,
    in the order in which they are made. *)

Module Effects.

(** What the text model is asked: the prompt is a fixed template filled
    with these values. *)
Inductive prompt : Type :=
| ResearchPrompt (brandInfo : value)
| ScriptPrompt (brandInfo research campaignGoals targetAudience
                creativeDirection model : value).

Inductive call : Type :=
| TextModel (p : prompt)                       (* POST to the Gemini endpoint *)
| FalRequest (modelId input : value)           (* fal.request *)
| FalSubscribe (modelId input : value)         (* fal.subscribe *)
| StatusCheck (statusUrl : value) (at_ms : Z)  (* axios.get(statusUrl) *)
| GenerateImage (prompt style mood : value)    (* generateImage, called by a handler *)
| GenerateVideo (prompt style : value)         (* generateVideo, called by a handler *)
| SaveAssets (count : nat).                    (* saveAssetsToDrive *)

Record sys (W : Type) : Type := {
  world : W;
  calls : list call
}.
Arguments world {W} s.
Arguments calls {W} s.

(** The outcome of a call to a remote service: its answer, or a rejection
    with the HTTP status when the service answered with one. *)
Inductive remote (A : Type) : Type :=
| Answer (a : A)
| Reject (status : option Z).
Arguments Answer {A} a.
Arguments Reject {A} status.

Definition of_remote {A} (r : remote A) : result A :=
  match r with Answer a => Ok a | Reject status => Throw (Rejected status) end.

(** One recorded call to a remote service [f]. *)
Definition perform {W A} (c : call) (f : W → W * A) (s : sys W) : sys W * A :=
  let '(w', a) := f (world s) in
  ({| world := w'; calls := calls s ++ [c] |}, a).

End Effects.
Import Effects.

(** ** Structured-output extraction: services/ai/scriptGenerator.mcp.js

    The source of this module follows that of the media generator in the
    listing of services/media/mediaGenerator.js; the line numbers are those
    of that listing. *)

Module ScriptGenerator.

Definition FENCE : jsstring := [BACKTICK; BACKTICK; BACKTICK].
Definition JSON_TAG : jsstring := lit "json".

(** The opening [```(?:json)?\n] anchored at the head of [s]: what follows
    it.  The two alternatives exclude each other, since the text after the
    three backquotes starts with [j] or with a line feed. *)
Definition fence_open (s : jsstring) : option jsstring :=
  r ← strip_prefix FENCE s;
  match strip_prefix (JSON_TAG ++ [LF]) r with
  | Some body => Some body
  | None => strip_prefix [LF] r
  end.

(** The capture group of [/```(?:json)?\n([\s\S]*?)\n```/] anchored at the
    head of [s]: the lazy group stops at the leftmost line feed followed by
    three backquotes. *)
Definition fence_at (s : jsstring) : option jsstring :=
  body ← fence_open s; fst <$> split_first (LF :: FENCE) body.

(** [text.match(/```(?:json)?\n([\s\S]*?)\n```/)]: group 1 of the leftmost
    match. *)
Fixpoint match_fence (s : jsstring) : option jsstring :=
  match fence_at s with
  | Some captured => Some captured
  | None => match s with [] => None | _ :: s' => match_fence s' end
  end.

(** Anchored matches of the clean-up expressions. *)
Definition optional_LF (r : jsstring) : nat :=
  match r with c :: _ => if (c =? LF)%N then 1%nat else 0%nat | [] => 0%nat end.

(** [/```json\n?/] *)
Definition m_fence_json (s : jsstring) : option nat :=
  r ← strip_prefix (FENCE ++ JSON_TAG) s; Some (7 + optional_LF r)%nat.

(** [/```\n?/] *)
Definition m_fence (s : jsstring) : option nat :=
  r ← strip_prefix FENCE s; Some (3 + optional_LF r)%nat.

(** [/[\u0000-\u001F\u007F-\u009F]/] *)
Definition is_control (c : N) : bool := ((c <=? 31) || (127 <=? c) && (c <=? 159))%N.

Fixpoint span_space (s : jsstring) : jsstring :=
  match s with
  | c :: s' => if is_space c then c :: span_space s' else []
  | [] => []
  end.

Fixpoint last_LF (ws : jsstring) : option nat :=
  match ws with
  | [] => None
  | c :: ws' =>
      match last_LF ws' with
      | Some j => Some (S j)
      | None => if (c =? LF)%N then Some O else None
      end
  end.

(** [/\n\s*\n/]: a line feed, the longest run of white space that still
    ends before a line feed, and that line feed. *)
Definition m_blank_lines (s : jsstring) : option nat :=
  match s with
  | c :: rest =>
      if (c =? LF)%N then j ← last_LF (span_space rest); Some (S (S j)) else None
  | [] => None
  end.

Definition strip_fences (text : jsstring) : jsstring :=
  replace_all m_fence [] (replace_all m_fence_json [] text).

Definition SEE_ABOVE : value := VStr (lit "See full response above").

Definition section3 (a b c : string) (first : value) : value :=
  VObj [(lit a, first); (lit b, SEE_ABOVE); (lit c, SEE_ABOVE)].

(** The object built when no JSON can be recovered (lines 470-497). *)
Definition placeholder (researchText : value) : value :=
  VObj [
    (lit "brandEssence",
       section3 "coreStory" "emotionalAppeal" "audienceInsights" researchText);
    (lit "creativeOpportunities",
       section3 "storytellingAngles" "visualPossibilities" "brandExpression" SEE_ABOVE);
    (lit "strategicContext",
       section3 "marketPosition" "industryTrends" "growthOpportunities" SEE_ABOVE);
    (lit "brandVoice",
       section3 "tone" "visualLanguage" "communicationStyle" SEE_ABOVE);
    (lit "implementation",
       section3 "keyTouchpoints" "challenges" "opportunities" SEE_ABOVE);
    (lit "rawResponse", researchText) ].

Section WithRuntime.

(** [JSON.parse]; [None] is its [SyntaxError]. *)
Variable JSON_parse : jsstring → option value.

Definition JSON_parse_or_throw (s : jsstring) : result value :=
  match JSON_parse s with Some v => Ok v | None => Throw SyntaxError end.

(** A method call [text.match(..)], [text.replace(..)]: a [TypeError] when
    the receiver is not a string. *)
Definition as_string (v : value) : result jsstring :=
  match v with VStr s => Ok s | _ => Throw TypeError end.

(** Lines 449-455: the fenced block, or else the whole text. *)
Definition research_fenced (researchText : value) : result value :=
  text ← as_string researchText;
  let jsonStr := trim (default text (match_fence text)) in
  JSON_parse_or_throw jsonStr.

(** Lines 458-466: fence markers removed. *)
Definition research_cleaned (researchText : value) : result value :=
  text ← as_string researchText;
  let cleanedText := trim (strip_fences text) in
  JSON_parse_or_throw cleanedText.

(** Lines 448-499. *)
Definition parse_research (researchText : value) : result value :=
  try_catch (research_fenced researchText) (λ parseError,
    try_catch (research_cleaned researchText) (λ secondError,
      Ok (placeholder researchText))).

Record research_result : Type := {
  research : value;
  metadata : value
}.

(** [response.data.candidates[0].content.parts[0].text] *)
Definition candidate_text (data : value) : result value :=
  c ← read (lit "candidates") data; c0 ← read0 c;
  content ← read (lit "content") c0; parts ← read (lit "parts") content;
  p0 ← read0 parts; read (lit "text") p0.

(** Lines 445-515, from the answer of the text model on. *)
Definition research_of_reply (reply : result value) (model timestamp : value)
    : result research_result :=
  data ← reply;
  researchText ← candidate_text data;
  research ← parse_research researchText;
  Ok {| research := research;
        metadata := VObj [(lit "model", model); (lit "timestamp", timestamp);
                          (lit "mcp", VBool true)] |}.

(** The outcome of [fetch] followed by [response.json()]. *)
Inductive fetch_reply : Type :=
| FetchRejected (status : option Z)
| FetchResponse (ok : bool) (status : Z) (body : result value).

(** [data.candidates?.[0]?.content?.parts?.[0]?.text] *)
Definition candidate_text_opt (data : value) : result value :=
  c ← read (lit "candidates") data;
  Ok (get_opt (lit "text") (read0_opt (get_opt (lit "parts")
        (get_opt (lit "content") (read0_opt c))))).

(** Lines 563-568. *)
Definition clean_script (content : jsstring) : jsstring :=
  trim (replace_all m_blank_lines [LF]
          (filter (λ c, is_control c = false) (strip_fences content))).

(** Lines 570-585. *)
Definition parse_script (cleanedContent : jsstring) : result value :=
  try_catch
    (parsedContent ← JSON_parse_or_throw cleanedContent;
     sections ← read (lit "sections") parsedContent;
     if negb (truthy sections) || negb (isArray sections)
     then Throw InvalidScriptStructure
     else Ok parsedContent)
    (λ parseError, Throw (FailedToParseScript parseError)).

(** Lines 550-585, from the answer of the text model on. *)
Definition script_of_reply (reply : fetch_reply) : result value :=
  match reply with
  | FetchRejected status => Throw (Rejected status)
  | FetchResponse ok status body =>
      if negb ok then Throw (ApiRequestFailed status)
      else
        data ← body;
        text ← candidate_text_opt data;
        if negb (truthy text) then Throw InvalidResponseFormat
        else
          content ← as_string text;
          parse_script (clean_script content)
  end.

(** The text model and the clock. *)
Variable W : Type.
Variable axios_post : prompt → W → W * remote value.
Variable fetch : prompt → W → W * fetch_reply.
Variable toISOString : W → value.

(** [generateBrandResearch(brandInfo, model)].  (The module also files the
    result in a conversation history that nothing reads back.) *)
Definition generateBrandResearch (brandInfo model : value) (s : sys W)
    : sys W * result research_result :=
  let '(s1, reply) := perform (TextModel (ResearchPrompt brandInfo))
                        (axios_post (ResearchPrompt brandInfo)) s in
  (s1, try_catch (research_of_reply (of_remote reply) model (toISOString (world s1)))
         (λ error, Throw error)).

(** [generateScriptContent(prompt, model)]. *)
Definition generateScriptContent (p : prompt) (s : sys W) : sys W * result value :=
  let '(s1, reply) := perform (TextModel p) (fetch p) s in
  (s1, try_catch (script_of_reply reply) (λ error, Throw error)).

(** The inputs of [generateScript]. *)
Record script_inputs : Type := {
  brandInfo : value;
  research_in : value;
  campaignGoals : value;
  targetAudience : value;
  creativeDirection : value;
  model : value
}.

Definition script_prompt (inputs : script_inputs) : prompt :=
  ScriptPrompt (brandInfo inputs) (research_in inputs) (campaignGoals inputs)
    (targetAudience inputs) (creativeDirection inputs) (model inputs).

(** [generateScript(inputs)]. *)
Definition generateScript (inputs : script_inputs) (s : sys W) : sys W * result value :=
  if negb (truthy (get_opt (lit "name") (brandInfo inputs)))
  then (s, Throw BrandNameRequired)
  else if negb (truthy (research_in inputs))
  then (s, Throw ResearchDataRequired)
  else generateScriptContent (script_prompt inputs) s.

End WithRuntime.

(** *** [extractMediaElements] (lines 600-627) *)

Record media_elements : Type := {
  visualElements : list value;
  motionTransitions : list value
}.

Definition no_elements : media_elements :=
  {| visualElements := []; motionTransitions := [] |}.

(** Lines 613-623: one section. *)
Definition extract_section (me : media_elements) (section : value) : result media_elements :=
  if negb (truthy section) then Ok me
  else
    visual ← push_spread "visualElements" section (visualElements me);
    Ok {| visualElements := visual;
          motionTransitions :=
            push_truthy "motionTransitions" section (motionTransitions me) |}.

Fixpoint extract_sections (me : media_elements) (sections : list value)
    : result media_elements :=
  match sections with
  | [] => Ok me
  | section :: rest => me' ← extract_section me section; extract_sections me' rest
  end.

(** [extractMediaElements(sections)]. *)
Definition extractMediaElements (sections : value) : result media_elements :=
  match sections with
  | VArr items => extract_sections no_elements items
  | _ => Ok no_elements
  end.

End ScriptGenerator.

(** ** Media-model invocation: services/media/mediaGenerator.js *)

Module MediaGenerator.

Definition DEFAULT_INTERVAL : Z := 20000.
Definition DEFAULT_TIMEOUT : Z := 300000.

(** [MODEL_CONFIGS.image.model] and [MODEL_CONFIGS.video.model]. *)
Definition MODEL_IMAGE : value := VStr (lit "fal-ai/flux-pro/v1.1-ultra").
Definition MODEL_VIDEO : value := VStr (lit "fal-ai/fast-animatediff/turbo/text-to-video").

Definition COMPLETED : jsstring := lit "COMPLETED".
Definition FAILED : jsstring := lit "FAILED".

(** The record [{ data, requestId }] built after polling. *)
Definition normalized (data requestId : value) : value :=
  VObj [(lit "data", data); (lit "requestId", requestId)].

Section WithProvider.

Variable W : Type.
(** [Date.now()], in milliseconds. *)
Variable now : W → Z.
(** [await new Promise(resolve => setTimeout(resolve, interval))]. *)
Variable sleep : Z → W → W.
(** [axios.get(statusUrl, ..)]: [response.data], or a rejection. *)
Variable axios_get : value → W → W * remote value.
(** [fal.request(modelId, { input })] and [fal.subscribe(modelId, { input, .. })]. *)
Variable fal_request : value → value → W → W * remote value.
Variable fal_subscribe : value → value → W → W * remote value.

Definition sleeping (interval : Z) (s : sys W) : sys W :=
  {| world := sleep interval (world s); calls := calls s |}.

(** What one status check decides (lines 56-63). *)
Inductive verdict : Type :=
| Done (outcome : result value)
| Again.

Definition check_status (response : result value) : verdict :=
  match (data ← response; status ← read (lit "status") data; Ok (data, status)) with
  | Throw error => Done (Throw error)
  | Ok (data, status) =>
      if is_str COMPLETED status then Done (Ok data)
      else if is_str FAILED status then
        Done (Throw (RequestFailed
                (or_else (get_opt (lit "error") data) (VStr (lit "Unknown error")))))
      else Again
  end.

(** Lines 45-49: one status check, recorded with the time at which it is
    issued. *)
Definition status_check (statusUrl : value) (s : sys W) : sys W * remote value :=
  perform (StatusCheck statusUrl (now (world s))) (axios_get statusUrl) s.

(** The loop of [pollStatus]; [fuel] bounds the number of iterations and
    [None] means that the bound was reached. *)
Fixpoint poll_loop (fuel : nat) (statusUrl : value) (interval timeout startTime : Z)
    (s : sys W) : option (sys W * result value) :=
  match fuel with
  | O => None
  | S fuel' =>
      if now (world s) - startTime <? timeout then
        let '(s1, response) := status_check statusUrl s in
        match check_status (of_remote response) with
        | Done outcome => Some (s1, outcome)
        | Again => poll_loop fuel' statusUrl interval timeout startTime (sleeping interval s1)
        end
      else Some (s, Throw RequestTimedOut)
  end.

(** [pollStatus(statusUrl, interval, timeout)]. *)
Definition pollStatus (fuel : nat) (statusUrl : value) (interval timeout : Z)
    (s : sys W) : option (sys W * result value) :=
  poll_loop fuel statusUrl interval timeout (now (world s)) s.

(** Lines 86-99 and 138-151: what is made of a provider response. *)
Definition settle (fuel : nat) (r : result value) (s : sys W)
    : option (sys W * result value) :=
  match (response ← r; url ← read (lit "status_url") response; Ok (response, url)) with
  | Throw error => Some (s, Throw error)
  | Ok (response, url) =>
      if truthy url then
        '(s', polled) ← pollStatus fuel url DEFAULT_INTERVAL DEFAULT_TIMEOUT s;
        Some (s', finalStatus ← polled;
                  output ← read (lit "output") finalStatus;
                  request_id ← read (lit "request_id") response;
                  Ok (normalized output request_id))
      else Some (s, Ok response)
  end.

(** The [try] block of [executeModelRequest]. *)
Definition immediate (fuel : nat) (modelId input : value) (s : sys W)
    : option (sys W * result value) :=
  let '(s1, r) := perform (FalRequest modelId input) (fal_request modelId input) s in
  settle fuel (of_remote r) s1.

(** The [catch] block of [executeModelRequest]. *)
Definition queued (fuel : nat) (modelId input : value) (s : sys W)
    : option (sys W * result value) :=
  let '(s1, r) := perform (FalSubscribe modelId input) (fal_subscribe modelId input) s in
  settle fuel (of_remote r) s1.

(** [executeModelRequest(modelId, input)]. *)
Definition executeModelRequest (fuel : nat) (modelId input : value) (s : sys W)
    : option (sys W * result value) :=
  match immediate fuel modelId input s with
  | None => None
  | Some (s1, Ok response) => Some (s1, Ok response)
  | Some (s1, Throw error) => queued fuel modelId input s1
  end.

(** String conversion in a template literal, and [JSON.stringify]. *)
Variable ToString : value → jsstring.
Variable JSON_stringify : value → jsstring.

(** A parameter with a default value. *)
Definition param (v : value) (dflt : string) : value :=
  match v with VUndefined => VStr (lit dflt) | _ => v end.

(** [generateImage({ prompt, style, mood, technicalSpecs })]. *)
Definition generateImage (fuel : nat) (prompt style mood technicalSpecs : value)
    (s : sys W) : option (sys W * result value) :=
  let style := param style "photorealistic" in
  let mood := param mood "professional" in
  let technicalSpecs := param technicalSpecs "high quality, detailed" in
  let fullPrompt :=
    ToString prompt ++ lit " Style: " ++ ToString style ++ lit ". Mood: "
    ++ ToString mood ++ lit ". " ++ ToString technicalSpecs in
  '(s1, r) ← executeModelRequest fuel MODEL_IMAGE (VObj [(lit "prompt", VStr fullPrompt)]) s;
  Some (s1,
    try_catch
      (result ← r;
       data ← read (lit "data") result;
       if negb (truthy data) then Throw NoDataReceived
       else
         let imageUrl := get_opt (lit "url") (read0_opt (get_opt (lit "images") data)) in
         if negb (truthy imageUrl) then Throw ImageUrlNotFound
         else Ok (VObj [(lit "url", imageUrl);
                        (lit "metadata",
                           VObj [(lit "style", style); (lit "mood", mood);
                                 (lit "technicalSpecs", technicalSpecs)])]))
      (λ error, Throw (FailedToGenerateImage error))).

(** [generateVideo({ prompt, style, duration, transition })]. *)
Definition generateVideo (fuel : nat) (prompt style duration transition : value)
    (s : sys W) : option (sys W * result value) :=
  let style := param style "cinematic" in
  let duration := match duration with VUndefined => VNum 5 | _ => duration end in
  let transition := param transition "smooth fade" in
  let motion :=
    VObj [(lit "style", style); (lit "duration", duration);
          (lit "transition", transition)] in
  let fullPrompt :=
    ToString prompt ++ lit " Style: " ++ ToString style ++ lit ". Motion: "
    ++ JSON_stringify motion in
  let videoParams :=
    VObj [(lit "prompt", VStr fullPrompt); (lit "num_frames", VNum 16);
          (lit "fps", VNum 8); (lit "video_size", VStr (lit "landscape_16_9"))] in
  '(s1, r) ← executeModelRequest fuel MODEL_VIDEO videoParams s;
  Some (s1,
    try_catch
      (result ← r;
       data ← read (lit "data") result;
       if negb (truthy data) then Throw NoDataReceived
       else
         let videoUrl :=
           or_else (get_opt (lit "video_url") data)
             (get_opt (lit "url") (get_opt (lit "video") data)) in
         if negb (truthy videoUrl) then Throw VideoUrlNotFound
         else Ok (VObj [(lit "url", videoUrl);
                        (lit "metadata",
                           VObj [(lit "style", style); (lit "duration", duration);
                                 (lit "transition", transition)])]))
      (λ error, Throw (FailedToGenerateVideo error))).

End WithProvider.

End MediaGenerator.

(** ** Media prompts: services/ai/mediaPromptGenerator.mcp.js *)

Module MediaPromptGenerator.

Definition str (s : string) : value := VStr (lit s).

Record visual_prompts : Type := {
  images : list value;
  animations : list value
}.

Definition no_prompts : visual_prompts := {| images := []; animations := [] |}.

Definition push_image (p : value) (vp : visual_prompts) : visual_prompts :=
  {| images := images vp ++ [p]; animations := animations vp |}.

Definition push_animation (p : value) (vp : visual_prompts) : visual_prompts :=
  {| images := images vp; animations := animations vp ++ [p] |}.

Definition image_prompt (prompt style mood : value) : value :=
  VObj [(lit "prompt", prompt); (lit "style", style); (lit "mood", mood);
        (lit "technicalSpecs", str "high quality, detailed, 4k resolution")].

Definition animation_prompt (prompt style transition : value) : value :=
  VObj [(lit "prompt", prompt); (lit "style", style);
        (lit "duration", str "5 seconds"); (lit "transition", transition)].

Record media_prompts : Type := {
  visualPrompts : visual_prompts;
  craftGuidelines : value
}.

(** What [generateMediaPrompts] resolves to: it never rejects. *)
Inductive media_reply : Type :=
| MediaOk (mediaPrompts : media_prompts) (metadata : value)   (* { ok: true, .. } *)
| MediaFailed (error : exn).                                   (* { ok: false, .. } *)

Definition ok (r : media_reply) : bool :=
  match r with MediaOk _ _ => true | MediaFailed _ => false end.

Section WithRuntime.

(** [String.prototype.toLowerCase]. *)
Variable toLowerCase : jsstring → jsstring.

Definition mentions_motion (element : jsstring) : bool :=
  includes (lit "animation") (toLowerCase element)
  || includes (lit "motion") (toLowerCase element)
  || includes (lit "transition") (toLowerCase element).

(** Lines 164-184: one visual element of a section. *)
Definition add_element (section : value) (vp : visual_prompts) (element : value)
    : visual_prompts :=
  match element with
  | VStr text =>
      let details := get_opt (lit "craftAndDesignDetails") section in
      if mentions_motion text then
        push_animation
          (animation_prompt element
             (or_else (get_opt (lit "style") details) (str "cinematic"))
             (or_else (get_opt (lit "motionTransitions") section) (str "smooth fade")))
          vp
      else
        push_image
          (image_prompt element
             (or_else (get_opt (lit "style") details) (str "modern"))
             (or_else (get_opt (lit "mood") details) (str "professional")))
          vp
  | _ => vp
  end.

(** Lines 161-186: one section.  Reading a property of a [null] section,
    or calling [forEach] on visual elements that are not an array, raises
    [TypeError]. *)
Definition add_section (vp : visual_prompts) (section : value) : result visual_prompts :=
  visualElements ← read (lit "visualElements") section;
  if truthy visualElements then
    match visualElements with
    | VArr elements => Ok (foldl (add_element section) vp elements)
    | _ => Throw TypeError
    end
  else Ok vp.

Fixpoint add_sections (vp : visual_prompts) (sections : list value) : result visual_prompts :=
  match sections with
  | [] => Ok vp
  | section :: rest => vp' ← add_section vp section; add_sections vp' rest
  end.

Definition default_prompts : visual_prompts :=
  {| images := [image_prompt (str "Dynamic shot showcasing brand identity and values")
                  (str "modern") (str "professional")];
     animations := [animation_prompt
                      (str "Smooth brand logo animation with dynamic transitions")
                      (str "cinematic") (str "smooth fade")] |}.

(** Lines 145-187. *)
Definition extract_prompts (script : value) : result visual_prompts :=
  match get_opt (lit "sections") script with
  | VArr sections => add_sections no_prompts sections
  | _ => Ok default_prompts
  end.

(** Lines 190-205. *)
Definition ensure_one_each (vp : visual_prompts) : visual_prompts :=
  let vp1 :=
    if bool_decide (length (images vp) = 0%nat) then
      push_image (image_prompt (str "Dynamic brand showcase with modern aesthetic")
                    (str "modern") (str "professional")) vp
    else vp in
  if bool_decide (length (animations vp1) = 0%nat) then
    push_animation (animation_prompt (str "Smooth brand logo animation")
                      (str "cinematic") (str "smooth fade")) vp1
  else vp1.

(** Lines 208-217. *)
Definition craft_guidelines (script : value) : value :=
  let first := read0_opt (get_opt (lit "sections") script) in
  let details := get_opt (lit "craftAndDesignDetails") first in
  VObj [
    (lit "visualStyle", or_else (get_opt (lit "style") details)
       (str "Clean, modern, and professional. Emphasis on brand consistency and visual impact."));
    (lit "colorPalette", or_else (get_opt (lit "colors") details)
       (str "Brand colors with complementary accents. High contrast for readability."));
    (lit "typography", or_else (get_opt (lit "typography") details)
       (str "Modern sans-serif fonts. Clear hierarchy and excellent readability."));
    (lit "animationStyle", or_else (get_opt (lit "motionTransitions") first)
       (str "Smooth, purposeful motion with professional transitions.")) ].

(** [generateMediaPrompts(script, model, brandName)], run at [timestamp].
    (The module also files the prompts in its own history, for the
    [GET /generate/media-prompts] route.) *)
Definition generateMediaPrompts (script model timestamp : value) : media_reply :=
  match extract_prompts script with
  | Throw error => MediaFailed error
  | Ok extracted =>
      let vp := ensure_one_each extracted in
      MediaOk {| visualPrompts := vp; craftGuidelines := craft_guidelines script |}
        (VObj [(lit "model", model); (lit "timestamp", timestamp);
               (lit "mcp", VBool true);
               (lit "stats",
                  VObj [(lit "images", VNum (Z.of_nat (length (images vp))));
                        (lit "animations", VNum (Z.of_nat (length (animations vp))))])])
  end.

End WithRuntime.

(** *** [extractMediaElements] (lines 62-101) *)

Record media_elements : Type := {
  visualElements : list value;
  experientialElements : list value;
  motionTransitions : list value;
  craftAndDesign : list value;
  brandAlignmentNotes : list value
}.

Definition no_elements : media_elements :=
  {| visualElements := []; experientialElements := []; motionTransitions := [];
     craftAndDesign := []; brandAlignmentNotes := [] |}.

(** Lines 79-98: one section. *)
Definition extract_section (me : media_elements) (section : value) : result media_elements :=
  if negb (truthy section) then Ok me
  else
    visual ← push_spread "visualElements" section (visualElements me);
    experiential ← push_spread "experientialElements" section (experientialElements me);
    Ok {| visualElements := visual;
          experientialElements := experiential;
          motionTransitions :=
            push_truthy "motionTransitions" section (motionTransitions me);
          craftAndDesign := push_truthy "craftAndDesign" section (craftAndDesign me);
          brandAlignmentNotes :=
            push_truthy "brandAlignmentNotes" section (brandAlignmentNotes me) |}.

Fixpoint extract_sections (me : media_elements) (sections : list value)
    : result media_elements :=
  match sections with
  | [] => Ok me
  | section :: rest => me' ← extract_section me section; extract_sections me' rest
  end.

(** [extractMediaElements(sections)]. *)
Definition extractMediaElements (sections : value) : result media_elements :=
  match sections with
  | VArr items => extract_sections no_elements items
  | _ => Ok no_elements
  end.

(** *** The history of the module: [conversationHistory] *)

(** An entry: the prompts, the time at which they were filed and the brand
    name as it was given. *)
Record history_entry : Type := {
  mediaElements : media_prompts;
  entry_timestamp : value;
  entry_brandName : value
}.

Definition history : Type := gmap jsstring history_entry.

Section WithHistory.

Variable toLowerCase : jsstring → jsstring.
Variable ToString : value → jsstring.

(** Line 225. *)
Definition storageKey (brandName : value) : jsstring :=
  lit "media_prompts_" ++ template ToString (or_else brandName (str "default")).

(** [generateMediaPrompts(script, model, brandName)] with its history: the
    prompts are filed (lines 225-230, at [filed_at]) once they have been
    built, and not when building them fails. *)
Definition generateMediaPrompts_filing (script model brandName filed_at timestamp : value)
    (h : history) : history * media_reply :=
  match generateMediaPrompts toLowerCase script model timestamp with
  | MediaOk mp metadata =>
      (<[storageKey brandName :=
           {| mediaElements := mp; entry_timestamp := filed_at;
              entry_brandName := brandName |}]> h,
       MediaOk mp metadata)
  | MediaFailed error => (h, MediaFailed error)
  end.

(** [getMediaPrompts(brandName)]: [None] is [null]. *)
Definition getMediaPrompts (brandName : value) (h : history) : option media_prompts :=
  mediaElements <$> h !! (lit "media_prompts_" ++ template ToString brandName).

End WithHistory.

End MediaPromptGenerator.

(** ** Storage: services/storage/storageService.js *)

Module StorageService.

Inductive asset_kind : Type := Image | Animation.

(** An entry of the handler's [assets] array. *)
Record asset : Type := {
  kind : asset_kind;
  url : value;
  prompt : value;
  asset_metadata : value
}.

(** An entry of [savedAssets]: the uploaded file ([id], [url], [name]), the
    type of the asset and the folder it was put in. *)
Record saved_asset : Type := {
  file : value;
  saved_kind : asset_kind;
  folder : value
}.

Section WithDrive.

Variable W : Type.
(** [createOrGetFolder(brand, sessionId)]. *)
Variable createOrGetFolder : value → value → W → W * remote value.
(** Lines 264-303: download of the asset and upload into the folder. *)
Variable upload : asset → value → W → W * remote value.

(** Lines 262-331: an asset that cannot be saved is logged and left out. *)
Fixpoint save_each (folder : value) (assets : list asset) (w : W) : W * list saved_asset :=
  match assets with
  | [] => (w, [])
  | a :: rest =>
      let '(w1, r) := upload a folder w in
      let '(w2, saved) := save_each folder rest w1 in
      match r with
      | Answer f => (w2, {| file := f; saved_kind := kind a; folder := folder |} :: saved)
      | Reject _ => (w2, saved)
      end
  end.

(** [saveAssetsToDrive(assets, brand, sessionId)]. *)
Definition saveAssetsToDrive (assets : list asset) (brand sessionId : value) (w : W)
    : W * result (list saved_asset) :=
  let '(w1, r) := createOrGetFolder brand sessionId w in
  match of_remote r with
  | Throw error => (w1, Throw error)
  | Ok folder => let '(w2, saved) := save_each folder assets w1 in (w2, Ok saved)
  end.

End WithDrive.

(** *** [createOrGetFolder] (lines 56-137) *)

(** [sessionFolders]: the folder of a session, under the key
    [`${brand}_${sessionId}`]. *)
Definition folders : Type := gmap jsstring value.

Record drive_state (W : Type) : Type := {
  drive : W;
  sessionFolders : folders
}.
Arguments drive {W} d.
Arguments sessionFolders {W} d.

(** [timestamp.replace(/[:.]/g, '-')] *)
Definition dashed (s : jsstring) : jsstring :=
  (λ c, if ((c =? 58) || (c =? 46))%N then 45%N else c) <$> s.

Section WithDriveApi.

Variable W : Type.
Variable ToString : value → jsstring.
(** [new Date().toISOString()]. *)
Variable toISOString : W → jsstring.
(** [drive.files.list] for a folder name: [response.data.files]. *)
Variable files_list : jsstring → W → W * remote (list value).
(** [drive.files.create] of a folder of that name: [folderResponse.data]. *)
Variable files_create : jsstring → W → W * remote value.
(** [drive.permissions.create] for a file id. *)
Variable permissions_create : value → W → W * remote unit.

Definition on_drive (d : drive_state W) (w : W) : drive_state W :=
  {| drive := w; sessionFolders := sessionFolders d |}.

Definition sessionKey (brand sessionId : value) : jsstring :=
  template ToString brand ++ lit "_" ++ template ToString sessionId.

(** Lines 78-102: the folder of that name, found or else created. *)
Definition find_or_create (folderName : jsstring) (w : W) : W * result value :=
  let '(w1, listed) := files_list folderName w in
  match listed with
  | Reject status => (w1, Throw (Rejected status))
  | Answer (first :: _) => (w1, Ok first)
  | Answer [] =>
      let '(w2, created) := files_create folderName w1 in
      (w2,
       data ← of_remote created;
       id ← read (lit "id") data;
       webViewLink ← read (lit "webViewLink") data;
       Ok (VObj [(lit "id", id); (lit "webViewLink", webViewLink);
                 (lit "name", VStr folderName)]))
  end.

(** [createOrGetFolder(brand, sessionId)]. *)
Definition createOrGetFolder (brand sessionId : value) (d : drive_state W)
    : drive_state W * result value :=
  match sessionFolders d !! sessionKey brand sessionId with
  | Some folder => (d, Ok folder)
  | None =>
      let folderName := template ToString brand ++ lit "_" ++ dashed (toISOString (drive d)) in
      let '(w2, found) := find_or_create folderName (drive d) in
      match (folder ← found; id ← read (lit "id") folder; Ok (folder, id)) with
      | Throw error => (on_drive d w2, Throw error)
      | Ok (folder, id) =>
          let '(w3, granted) := permissions_create id w2 in
          match granted with
          | Reject status => (on_drive d w3, Throw (Rejected status))
          | Answer _ =>
              let folderInfo :=
                VObj [(lit "id", id);
                      (lit "url", get_opt (lit "webViewLink") folder);
                      (lit "name", VStr folderName)] in
              ({| drive := w3;
                  sessionFolders :=
                    <[sessionKey brand sessionId := folderInfo]> (sessionFolders d) |},
               Ok folderInfo)
          end
      end
  end.

End WithDriveApi.

End StorageService.

(** ** The pipeline handlers: index.js *)

Module Server.

Import StorageService MediaPromptGenerator.

(** Everything the handlers reach outside the process, and the runtime
    primitives of the modules they call. *)
Record env (W : Type) : Type := {
  JSON_parse : jsstring → option value;
  toLowerCase : jsstring → jsstring;
  toISOString : W → value;                       (* new Date().toISOString() *)
  axios_post : Effects.prompt → W → W * remote value;
  fetch : Effects.prompt → W → W * ScriptGenerator.fetch_reply;
  generateImage : value → value → value → W → W * result value;
  generateVideo : value → value → W → W * result value;
  createOrGetFolder : value → value → W → W * remote value;
  upload : asset → value → W → W * remote value
}.
Arguments JSON_parse {W} e.
Arguments toLowerCase {W} e.
Arguments toISOString {W} e.
Arguments axios_post {W} e.
Arguments fetch {W} e.
Arguments generateImage {W} e.
Arguments generateVideo {W} e.
Arguments createOrGetFolder {W} e.
Arguments upload {W} e.

(** A value of [researchStore]. *)
Record stored : Type := {
  stored_research : value;
  stored_brandInfo : value;
  stored_timestamp : value
}.

(** Key equality of a [Map] (SameValueZero).  Objects and arrays are equal
    only to themselves, and two requests never share one. *)
Definition same_key (a b : value) : bool :=
  match a, b with
  | VUndefined, VUndefined | VNull, VNull => true
  | VBool x, VBool y => bool_decide (x = y)
  | VNum x, VNum y => x =? y
  | VStr x, VStr y => bool_decide (x = y)
  | _, _ => false
  end.

(** [researchStore]: the latest entry for a key comes first. *)
Definition store : Type := list (value * stored).

Fixpoint Map_get (k : value) (m : store) : option stored :=
  match m with
  | [] => None
  | (k', e) :: m' => if same_key k' k then Some e else Map_get k m'
  end.

Definition Map_set (k : value) (e : stored) (m : store) : store := (k, e) :: m.

(** The process: the outside world with the calls made so far, and
    [researchStore]. *)
Record server (W : Type) : Type := {
  outside : sys W;
  researchStore : store
}.
Arguments outside {W} s.
Arguments researchStore {W} s.

Inductive response : Type :=
| BadRequest (error : jsstring)                  (* status 400 *)
| InternalError (error : option exn)             (* status 500; the caught error, if any *)
| ResearchDone (research sessionId metadata : value)
| ScriptDone (script : value) (mediaPrompts : media_prompts)
    (assets : list saved_asset) (metadata : value).

Definition status (r : response) : Z :=
  match r with
  | BadRequest _ => 400
  | InternalError _ => 500
  | ResearchDone _ _ _ | ScriptDone _ _ _ _ => 200
  end.

Definition DEFAULT_MODEL : value := str "gemini-2.0-flash".

(** A destructured field with a default value. *)
Definition field_or (k : jsstring) (dflt body : value) : value :=
  match get_opt k body with VUndefined => dflt | v => v end.

Section WithEnv.

Context {W : Type} (E : env W).

Definition with_outside (s : server W) (o : sys W) : server W :=
  {| outside := o; researchStore := researchStore s |}.

(** Line 155: the key under which the research is stored. *)
Definition researchKey (brandInfo : value) : result value :=
  match brandInfo with
  | VObj _ | VArr _ | VNull => read (lit "name") brandInfo
  | VStr text => Ok (VStr (first_word text))
  | _ => Throw TypeError
  end.

(** [POST /generate/research]. *)
Definition post_research (body : value) (s : server W) : server W * response :=
  match get (lit "brandInfo") body with
  | None => (s, InternalError (Some TypeError))
  | Some brandInfo =>
      let model := field_or (lit "model") DEFAULT_MODEL body in
      if negb (truthy brandInfo) then (s, BadRequest (lit "Brand information is required"))
      else
        match researchKey brandInfo with
        | Throw error => (s, InternalError (Some error))
        | Ok key =>
            let '(o1, r) :=
              ScriptGenerator.generateBrandResearch (JSON_parse E) W (axios_post E)
                (toISOString E) brandInfo model (outside s) in
            match r with
            | Throw error => (with_outside s o1, InternalError (Some error))
            | Ok result =>
                ({| outside := o1;
                    researchStore :=
                      Map_set key
                        {| stored_research := ScriptGenerator.research result;
                           stored_brandInfo := brandInfo;
                           stored_timestamp := toISOString E (world o1) |}
                        (researchStore s) |},
                 ResearchDone (ScriptGenerator.research result) key
                   (ScriptGenerator.metadata result))
            end
        end
  end.

(** Lines 288-313: one image prompt.  A failure is logged and the loop goes
    on. *)
Definition image_step (guidelines : value) (acc : sys W * list asset) (p : value)
    : sys W * list asset :=
  let '(o, assets) := acc in
  let style := get_opt (lit "visualStyle") guidelines in
  let '(o1, r) :=
    perform (GenerateImage (get_opt (lit "prompt") p) style (str "professional"))
      (generateImage E (get_opt (lit "prompt") p) style (str "professional")) o in
  match r with
  | Ok image =>
      if truthy image then
        (o1, assets ++ [{| kind := Image; url := get_opt (lit "url") image; prompt := p;
                           asset_metadata :=
                             VObj [(lit "style", style);
                                   (lit "colorPalette",
                                      get_opt (lit "colorPalette") guidelines)] |}])
      else (o1, assets)
  | Throw _ => (o1, assets)
  end.

(** Lines 316-343: one animation prompt. *)
Definition animation_step (guidelines : value) (acc : sys W * list asset) (p : value)
    : sys W * list asset :=
  let '(o, assets) := acc in
  let style := get_opt (lit "animationStyle") guidelines in
  let '(o1, r) :=
    perform (GenerateVideo (get_opt (lit "prompt") p) style)
      (generateVideo E (get_opt (lit "prompt") p) style) o in
  match r with
  | Ok animation =>
      if truthy animation then
        (o1, assets ++ [{| kind := Animation; url := get_opt (lit "url") animation;
                           prompt := p;
                           asset_metadata :=
                             VObj [(lit "style", style); (lit "duration", VNum 5);
                                   (lit "transition", str "smooth fade")] |}])
      else (o1, assets)
  | Throw _ => (o1, assets)
  end.

(** Lines 285-343: [slice(0, 2)] of the image prompts, then [slice(0, 1)]
    of the animation prompts. *)
Definition generate_assets (mp : media_prompts) (o : sys W) : sys W * list asset :=
  let acc1 :=
    foldl (image_step (craftGuidelines mp)) (o, [])
      (take 2 (images (visualPrompts mp))) in
  foldl (animation_step (craftGuidelines mp)) acc1
    (take 1 (animations (visualPrompts mp))).

Definition kind_name (k : asset_kind) : value :=
  match k with Image => str "image" | Animation => str "animation" end.

(** [[...new Set(savedAssets.map(asset => asset.type))]]. *)
Fixpoint distinct_kinds (seen_image seen_animation : bool) (l : list saved_asset)
    : list value :=
  match l with
  | [] => []
  | a :: rest =>
      match saved_kind a with
      | Image =>
          if seen_image then distinct_kinds true seen_animation rest
          else kind_name Image :: distinct_kinds true seen_animation rest
      | Animation =>
          if seen_animation then distinct_kinds seen_image true rest
          else kind_name Animation :: distinct_kinds seen_image true rest
      end
  end.

(** Lines 382-388. *)
Definition script_metadata (model timestamp : value) (savedAssets : list saved_asset)
    : value :=
  VObj [
    (lit "model", model);
    (lit "timestamp", timestamp);
    (lit "totalAssets", VNum (Z.of_nat (length savedAssets)));
    (lit "assetTypes", VArr (distinct_kinds false false savedAssets));
    (lit "folderUrls",
       match savedAssets with
       | first :: _ =>
           if truthy (get_opt (lit "id") (folder first))
           then VArr [get_opt (lit "url") (folder first)] else VArr []
       | [] => VArr []
       end) ].

(** [POST /generate/script]. *)
Definition post_script (body : value) (s : server W) : server W * response :=
  match get (lit "sessionId") body with
  | None => (s, InternalError (Some TypeError))
  | Some sessionId =>
      let campaignGoals := get_opt (lit "campaignGoals") body in
      let targetAudience := get_opt (lit "targetAudience") body in
      let creativeDirection := get_opt (lit "creativeDirection") body in
      let model := field_or (lit "model") DEFAULT_MODEL body in
      if negb (truthy sessionId) || negb (truthy campaignGoals)
         || negb (truthy targetAudience)
      then (s, BadRequest (lit "Missing required fields"))
      else
        match Map_get sessionId (researchStore s) with
        | None => (s, BadRequest (lit "No research found"))
        | Some research =>
            let '(o1, r) :=
              ScriptGenerator.generateScript (JSON_parse E) W (fetch E)
                {| ScriptGenerator.brandInfo := stored_brandInfo research;
                   ScriptGenerator.research_in := stored_research research;
                   ScriptGenerator.campaignGoals := campaignGoals;
                   ScriptGenerator.targetAudience := targetAudience;
                   ScriptGenerator.creativeDirection := creativeDirection;
                   ScriptGenerator.model := model |} (outside s) in
            match r with
            | Throw error => (with_outside s o1, InternalError (Some error))
            | Ok script =>
                if negb (truthy script) then (with_outside s o1, InternalError None)
                else
                  match generateMediaPrompts (toLowerCase E) script model
                          (toISOString E (world o1)) with
                  | MediaFailed _ => (with_outside s o1, InternalError None)
                  | MediaOk mp _ =>
                      let '(o2, assets) := generate_assets mp o1 in
                      let '(o3, saved) :=
                        perform (SaveAssets (length assets))
                          (saveAssetsToDrive W (createOrGetFolder E) (upload E) assets
                             (get_opt (lit "name") (stored_brandInfo research)) sessionId)
                          o2 in
                      match saved with
                      | Throw error => (with_outside s o3, InternalError (Some error))
                      | Ok savedAssets =>
                          (with_outside s o3,
                           ScriptDone script mp savedAssets
                             (script_metadata model (toISOString E (world o3))
                                savedAssets))
                      end
                  end
            end
        end
  end.

End WithEnv.

(** *** [POST /generate/media] (lines 436-529) *)

(** What the handler asks of the generators. *)
Inductive generation : Type :=
| ImageRequest (prompt style mood technicalSpecs : value)
| VideoRequest (params : value).

(** An entry of the [assets] array of this handler: its type, the result of
    the generator, and what it was generated from, the prompt object of an
    image or the parameters of a video; its metadata are made of that. *)
Record generated : Type := {
  generated_type : value;
  generated_url : value;
  generated_from : value
}.

Inductive media_refusal : Type :=
| TypeAndParamsRequired        (* 'Type and params are required' *)
| PromptsArrayRequired         (* 'Prompts array is required for image generation' *)
| InvalidMediaType.            (* 'Invalid media type. Use image or video' *)

Inductive media_response : Type :=
| MediaRefused (error : media_refusal)           (* status 400 *)
| MediaFailure (error : option exn)              (* status 500: the caught error, or no asset *)
| MediaGenerated (assets : list generated) (metadata : value).

Definition media_status (r : media_response) : Z :=
  match r with
  | MediaRefused _ => 400
  | MediaFailure _ => 500
  | MediaGenerated _ _ => 200
  end.

(** [[...new Set(values)]]. *)
Fixpoint distinct (seen values : list value) : list value :=
  match values with
  | [] => []
  | v :: rest =>
      if existsb (same_key v) seen then distinct seen rest
      else v :: distinct (v :: seen) rest
  end.

(** A parameter that the spread [...prompt] overrides when the prompt object
    has it. *)
Definition own_or (k : string) (prompt base : value) : value :=
  match prompt with VObj fs => default base (assoc (lit k) fs) | _ => base end.

Section MediaHandler.

Context {W : Type}.
(** [generateImage({ prompt, style, mood, technicalSpecs })] and
    [generateVideo(params)]. *)
Variable generateImage : value → value → value → value → W → W * result value.
Variable generateVideo : value → W → W * result value.
Variable toISOString : W → value.

(** The world, the requests made of the generators and the assets so far. *)
Record media_run : Type := {
  media_world : W;
  requested : list generation;
  assets_so_far : list generated
}.

(** The request made for an image prompt (lines 466-472). *)
Definition image_request (params p : value) : generation :=
  ImageRequest (get_opt (lit "prompt") p)
    (own_or "style" p (or_else (get_opt (lit "style") params) (str "modern")))
    (own_or "mood" p (str "professional"))
    (own_or "technicalSpecs" p (str "high quality, detailed")).

Definition perform_generation (g : generation) (w : W) : W * result value :=
  match g with
  | ImageRequest prompt style mood technicalSpecs =>
      generateImage prompt style mood technicalSpecs w
  | VideoRequest params => generateVideo params w
  end.

(** Lines 464-493.  A generation that fails is logged and the loop goes on.
    Reading the text of a prompt that is [null] raises a type error, in the
    [try] block and again in the [catch] block that logs it: that one leaves
    the loop. *)
Fixpoint media_images (params : value) (prompts : list value) (run : media_run)
    : media_run * result unit :=
  match prompts with
  | [] => (run, Ok ())
  | p :: rest =>
      match read (lit "prompt") p with
      | Throw error => (run, Throw error)
      | Ok _ =>
          let '(w1, r) := perform_generation (image_request params p) (media_world run) in
          media_images params rest
            {| media_world := w1;
               requested := requested run ++ [image_request params p];
               assets_so_far :=
                 match r with
                 | Ok imageUrl =>
                     assets_so_far run
                     ++ [{| generated_type := str "image"; generated_url := imageUrl;
                            generated_from := p |}]
                 | Throw _ => assets_so_far run
                 end |}
      end
  end.

(** Lines 505-520. *)
Definition media_answer (run : media_run) : media_response :=
  match assets_so_far run with
  | [] => MediaFailure None
  | assets =>
      MediaGenerated assets
        (VObj [(lit "timestamp", toISOString (media_world run));
               (lit "totalGenerated", VNum (Z.of_nat (length assets)));
               (lit "types", VArr (distinct [] (generated_type <$> assets)))])
  end.

(** [POST /generate/media]. *)
Definition post_media (body : value) (w : W) : media_run * media_response :=
  let start := {| media_world := w; requested := []; assets_so_far := [] |} in
  match get (lit "type") body with
  | None => (start, MediaFailure (Some TypeError))
  | Some type =>
      let params := get_opt (lit "params") body in
      if negb (truthy type) || negb (truthy params)
      then (start, MediaRefused TypeAndParamsRequired)
      else if is_str (lit "image") type then
        match get_opt (lit "prompts") params with
        | VArr prompts =>
            let '(run, r) := media_images params prompts start in
            match r with
            | Throw error => (run, MediaFailure (Some error))
            | Ok _ => (run, media_answer run)
            end
        | _ => (start, MediaRefused PromptsArrayRequired)
        end
      else if is_str (lit "video") type then
        let '(w1, r) := perform_generation (VideoRequest params) w in
        let run := {| media_world := w1; requested := [VideoRequest params];
                      assets_so_far := [] |} in
        match r with
        | Throw error => (run, MediaFailure (Some error))
        | Ok videoUrl =>
            let run' :=
              {| media_world := w1; requested := [VideoRequest params];
                 assets_so_far :=
                   [{| generated_type := str "video"; generated_url := videoUrl;
                       generated_from := params |}] |} in
            (run', media_answer run')
        end
      else (start, MediaRefused InvalidMediaType)
  end.

End MediaHandler.

End Server.

(** ** The history of the script generator and the retrieval of prompts

    [conversationHistory] and [getStoredScript] of
    services/ai/scriptGenerator.mcp.js (lines 502-505, 677-681 and 693-727 of
    the listing), the route [GET /] of routes/mediaPrompts.js and the handler
    [GET /generate/media-prompts] of index.js. *)

Module Retrieval.

Import MediaPromptGenerator.

(** [conversationHistory] of the script generator: the latest entry for a
    key comes first.  The keys are compared as those of [researchStore]. *)
Definition history : Type := list (value * value).

(** [conversationHistory.get(k)]. *)
Fixpoint Map_get (k : value) (h : history) : value :=
  match h with
  | [] => VUndefined
  | (k', entry) :: h' => if Server.same_key k' k then entry else Map_get k h'
  end.

(** Lines 502-505. *)
Definition file_research (brandInfo research timestamp : value) (h : history) : history :=
  (brandInfo, VObj [(lit "research", research); (lit "timestamp", timestamp)]) :: h.

Section WithConversion.

Variable ToString : value → jsstring.

(** Lines 677-681. *)
Definition file_script (name script timestamp : value) (h : history) : history :=
  (VStr (lit "script_" ++ template ToString name),
   VObj [(lit "script", script); (lit "timestamp", timestamp)]) :: h.

(** The histories that the module can build: nothing else writes to it. *)
Inductive built : history → Prop :=
| built_empty : built []
| built_research brandInfo research timestamp h :
    built h → built (file_research brandInfo research timestamp h)
| built_script name script timestamp h :
    built h → built (file_script name script timestamp h).

(** [getStoredScript(brandName)]. *)
Definition getStoredScript (brandName : value) (h : history) : value :=
  if negb (truthy brandName) then VNull
  else
    let scriptData := Map_get (VStr (lit "script_" ++ template ToString brandName)) h in
    let mediaPromptsData :=
      Map_get (VStr (lit "media_prompts_" ++ template ToString brandName)) h in
    if negb (truthy scriptData) && negb (truthy mediaPromptsData) then VNull
    else
      VObj [(lit "script", get_opt (lit "script") scriptData);
            (lit "mediaPrompts", get_opt (lit "mediaElements") mediaPromptsData);
            (lit "timestamp",
               or_else (get_opt (lit "timestamp") mediaPromptsData)
                 (get_opt (lit "timestamp") scriptData));
            (lit "brandName", brandName)].

Section WithTextModel.

Variable JSON_parse : jsstring → option value.
Variable W : Type.
Variable axios_post : prompt → W → W * remote value.
Variable fetch : prompt → W → W * ScriptGenerator.fetch_reply.
Variable toISOString : W → value.

(** [generateBrandResearch] and [generateScript] with the history: a result
    is filed before it is returned, and nothing is filed on an error. *)
Definition generateBrandResearch_filing (brandInfo model : value) (s : sys W) (h : history)
    : sys W * history * result ScriptGenerator.research_result :=
  let '(s1, r) :=
    ScriptGenerator.generateBrandResearch JSON_parse W axios_post toISOString
      brandInfo model s in
  match r with
  | Ok found =>
      (s1, file_research brandInfo (ScriptGenerator.research found)
             (toISOString (world s1)) h, Ok found)
  | Throw error => (s1, h, Throw error)
  end.

Definition generateScript_filing (inputs : ScriptGenerator.script_inputs) (s : sys W)
    (h : history) : sys W * history * result value :=
  let '(s1, r) := ScriptGenerator.generateScript JSON_parse W fetch inputs s in
  match r with
  | Ok script =>
      (s1, file_script (get_opt (lit "name") (ScriptGenerator.brandInfo inputs)) script
             (toISOString (world s1)) h, Ok script)
  | Throw error => (s1, h, Throw error)
  end.

End WithTextModel.

(** The answers of the two retrieval endpoints.  The metadata of a success
    that comes from [getMediaPrompts] (a fixed model name and the time of the
    answer) are the same in both and are left out. *)
Inductive prompts_response : Type :=
| BrandRequired                                        (* status 400 *)
| NoPromptsFound                                       (* status 404 *)
| PromptsFromScript (mediaPrompts timestamp : value)   (* status 200, from the stored script *)
| PromptsFound (mediaPrompts : media_prompts).         (* status 200 *)

(** [GET /generate/media-prompts] of index.js (lines 404-434). *)
Definition get_media_prompts (brand : value) (prompts : MediaPromptGenerator.history)
    : prompts_response :=
  if negb (truthy brand) then BrandRequired
  else
    match getMediaPrompts ToString brand prompts with
    | None => NoPromptsFound
    | Some mp => PromptsFound mp
    end.

(** [GET /] of routes/mediaPrompts.js: the stored script first, then the
    prompts. *)
Definition route_media_prompts (brand : value) (scripts : history)
    (prompts : MediaPromptGenerator.history) : prompts_response :=
  if negb (truthy brand) then BrandRequired
  else
    let storedData := getStoredScript brand scripts in
    if truthy (get_opt (lit "mediaPrompts") storedData) then
      PromptsFromScript (get_opt (lit "mediaPrompts") storedData)
        (get_opt (lit "timestamp") storedData)
    else
      match getMediaPrompts ToString brand prompts with
      | None => NoPromptsFound
      | Some mp => PromptsFound mp
      end.

End WithConversion.

End Retrieval.

(** ** A reference runtime

    Executable instances of the runtime primitives, used to run the model
    on concrete inputs: a parser for JSON texts whose numbers are integers,
    and the lower-casing of ASCII letters. *)

Module Reference.

Definition is_json_space (c : N) : bool :=
  ((c =? 32) || (c =? 9) || (c =? 10) || (c =? 13))%N.

Fixpoint skip_ws (s : jsstring) : jsstring :=
  match s with
  | c :: s' => if is_json_space c then skip_ws s' else s
  | [] => []
  end.

Definition digit (c : N) : option Z :=
  if ((48 <=? c) && (c <=? 57))%N then Some (Z.of_N c - 48) else None.

Definition hex_digit (c : N) : option N :=
  if ((48 <=? c) && (c <=? 57))%N then Some (c - 48)%N
  else if ((97 <=? c) && (c <=? 102))%N then Some (c - 87)%N
  else if ((65 <=? c) && (c <=? 70))%N then Some (c - 55)%N
  else None.

Fixpoint digits (acc : Z) (s : jsstring) : Z * jsstring :=
  match s with
  | c :: s' => match digit c with Some d => digits (10 * acc + d) s' | None => (acc, s) end
  | [] => (acc, [])
  end.

(** An integer: an optional minus sign and at least one digit. *)
Definition number (s : jsstring) : option (Z * jsstring) :=
  let '(negative, r) :=
    match s with c :: s' => if (c =? 45)%N then (true, s') else (false, s) | [] => (false, s) end in
  match r with
  | c :: _ =>
      match digit c with
      | Some _ => let '(n, rest) := digits 0 r in Some (if negative then - n else n, rest)
      | None => None
      end
  | [] => None
  end.

Definition escape (c : N) : option N :=
  if (c =? 34)%N then Some 34%N else if (c =? 92)%N then Some 92%N
  else if (c =? 47)%N then Some 47%N else if (c =? 98)%N then Some 8%N
  else if (c =? 102)%N then Some 12%N else if (c =? 110)%N then Some 10%N
  else if (c =? 114)%N then Some 13%N else if (c =? 116)%N then Some 9%N
  else None.

(** The characters of a string literal, after its opening quote. *)
Fixpoint string_body (fuel : nat) (s : jsstring) : option (jsstring * jsstring) :=
  match fuel with
  | O => None
  | S fuel' =>
      match s with
      | [] => None
      | c :: r =>
          if (c =? 34)%N then Some ([], r)
          else if (c <? 32)%N then None
          else if (c =? 92)%N then
            match r with
            | e :: r1 =>
                if (e =? 117)%N then
                  match r1 with
                  | h1 :: h2 :: h3 :: h4 :: r2 =>
                      a ← hex_digit h1; b ← hex_digit h2;
                      c' ← hex_digit h3; d ← hex_digit h4;
                      '(t, rest) ← string_body fuel' r2;
                      Some ((((a * 16 + b) * 16 + c') * 16 + d)%N :: t, rest)
                  | _ => None
                  end
                else
                  x ← escape e; '(t, rest) ← string_body fuel' r1; Some (x :: t, rest)
            | [] => None
            end
          else '(t, rest) ← string_body fuel' r; Some (c :: t, rest)
      end
  end.

Definition upsert (k : jsstring) (v : value) (fs : list (jsstring * value))
    : list (jsstring * value) :=
  filter (λ kv, kv.1 ≠ k) fs ++ [(k, v)].

Inductive mode : Type :=
| AValue
| Elements (acc : list value)
| Members (acc : list (jsstring * value)).

Fixpoint parse (fuel : nat) (m : mode) (s : jsstring) : option (value * jsstring) :=
  match fuel with
  | O => None
  | S fuel' =>
      match m with
      | AValue =>
          match skip_ws s with
          | [] => None
          | c :: r =>
              if (c =? 123)%N then
                match skip_ws r with
                | c' :: r' => if (c' =? 125)%N then Some (VObj [], r')
                              else parse fuel' (Members []) r
                | [] => None
                end
              else if (c =? 91)%N then
                match skip_ws r with
                | c' :: r' => if (c' =? 93)%N then Some (VArr [], r')
                              else parse fuel' (Elements []) r
                | [] => None
                end
              else if (c =? 34)%N then
                '(t, rest) ← string_body (S (length r)) r; Some (VStr t, rest)
              else
                match strip_prefix (lit "true") (c :: r),
                      strip_prefix (lit "false") (c :: r),
                      strip_prefix (lit "null") (c :: r) with
                | Some rest, _, _ => Some (VBool true, rest)
                | _, Some rest, _ => Some (VBool false, rest)
                | _, _, Some rest => Some (VNull, rest)
                | _, _, _ => '(n, rest) ← number (c :: r); Some (VNum n, rest)
                end
          end
      | Elements acc =>
          '(v, r1) ← parse fuel' AValue s;
          match skip_ws r1 with
          | c :: r2 =>
              if (c =? 44)%N then parse fuel' (Elements (acc ++ [v])) r2
              else if (c =? 93)%N then Some (VArr (acc ++ [v]), r2)
              else None
          | [] => None
          end
      | Members acc =>
          match skip_ws s with
          | q :: r =>
              if (q =? 34)%N then
                '(k, r1) ← string_body (S (length r)) r;
                match skip_ws r1 with
                | colon :: r2 =>
                    if (colon =? 58)%N then
                      '(v, r3) ← parse fuel' AValue r2;
                      match skip_ws r3 with
                      | c :: r4 =>
                          if (c =? 44)%N then parse fuel' (Members (upsert k v acc)) r4
                          else if (c =? 125)%N then Some (VObj (upsert k v acc), r4)
                          else None
                      | [] => None
                      end
                    else None
                | [] => None
                end
              else None
          | [] => None
          end
      end
  end.

(** [JSON.parse]. *)
Definition JSON_parse (s : jsstring) : option value :=
  '(v, rest) ← parse (S (length s)) AValue s;
  match skip_ws rest with [] => Some v | _ => None end.

(** [toLowerCase] on ASCII letters. *)
Definition toLowerCase (s : jsstring) : jsstring :=
  (λ c, if ((65 <=? c) && (c <=? 90))%N then (c + 32)%N else c) <$> s.

(** A Rocq string in which ['] stands for a double quote and [|] for a
    line feed. *)
Definition text (s : string) : jsstring :=
  (λ c, if (c =? 124)%N then LF else if (c =? 39)%N then 34%N else c) <$> lit s.

End Reference.

(** ** The vocabulary of the properties *)

Module Spec.

Import ScriptGenerator MediaGenerator MediaPromptGenerator.

(** A model response that is the text [J] in a fenced block: the opening
    marker, optionally tagged [json], a line feed, [J], a line feed and the
    closing marker. *)
Definition fenced (tagged : bool) (J : jsstring) : jsstring :=
  FENCE ++ (if tagged then JSON_TAG else []) ++ [LF] ++ J ++ LF :: FENCE.

(** The five sections of a research result. *)
Definition required_sections : list jsstring :=
  [lit "brandEssence"; lit "creativeOpportunities"; lit "strategicContext";
   lit "brandVoice"; lit "implementation"].

(** [o] has the property [k], and its value is an object. *)
Definition has_section (o : value) (k : jsstring) : Prop :=
  ∃ fields, get k o = Some (VObj fields).

Section Polling.

Context {W : Type}.
Variable now : W → Z.
Variable sleep : Z → W → W.
Variable axios_get : value → W → W * remote value.

(** The timer fires no earlier than asked, and the clock does not run
    backwards while a status check is in flight. *)
Definition timer_waits : Prop := ∀ d w, now w + d ≤ now (sleep d w).
Definition clock_monotone : Prop := ∀ u w, now w ≤ now (axios_get u w).1.

(** A status source that never reports [COMPLETED] or [FAILED]: every check
    is answered, with another status. *)
Definition never_settles (statusUrl : value) : Prop :=
  ∀ w, check_status (of_remote (axios_get statusUrl w).2) = Again.

(** The number of turns the loop can still take: each turn lasts at least
    [interval]. *)
Definition turns_left (interval timeout start : Z) (s : sys W) : nat :=
  Z.to_nat ((timeout - (now (world s) - start) + interval - 1) / interval).

(** The state in which the next turn of the loop starts, after a check
    that did not settle. *)
Definition next_turn (u : value) (interval : Z) (s : sys W) : sys W :=
  sleeping W sleep interval (status_check W now axios_get u s).1.

End Polling.

(** A status check made before the deadline. *)
Definition check_before (statusUrl : value) (deadline : Z) (c : call) : Prop :=
  ∃ t, c = StatusCheck statusUrl t ∧ t < deadline.

Definition is_status_check (c : call) : Prop := ∃ u t, c = StatusCheck u t.

Definition is_subscribe (c : call) : Prop := ∃ m i, c = FalSubscribe m i.

(** A section the loop can read: it is not [null], and its visual elements
    are absent (or falsy) or an array. *)
Definition readable_section (section : value) : Prop :=
  ∃ visualElements,
    get (lit "visualElements") section = Some visualElements
    ∧ (truthy visualElements = false ∨ isArray visualElements = true).

(** A script whose sections, when it has an array of them, are all
    readable.  A [null] script and a script without an array of sections
    qualify. *)
Definition readable_script (script : value) : Prop :=
  match get_opt (lit "sections") script with
  | VArr sections => Forall readable_section sections
  | _ => True
  end.

(** The calls the asset loops make for a prompt. *)
Definition image_call (guidelines p : value) : call :=
  GenerateImage (get_opt (lit "prompt") p) (get_opt (lit "visualStyle") guidelines)
    (str "professional").

Definition video_call (guidelines p : value) : call :=
  GenerateVideo (get_opt (lit "prompt") p) (get_opt (lit "animationStyle") guidelines).

(** Status checks issued no earlier than [earliest], each of them at least
    [interval] after the one before. *)
Fixpoint spaced (interval earliest : Z) (cs : list call) : Prop :=
  match cs with
  | [] => True
  | StatusCheck _ t :: cs' => earliest ≤ t ∧ spaced interval (t + interval) cs'
  | _ :: _ => False
  end.

(** The visual elements of a section that are strings, and whether one of
    them asks for motion. *)
Definition is_string (v : value) : bool :=
  match v with VStr _ => true | _ => false end.

Definition string_elements (section : value) : list value :=
  match get_opt (lit "visualElements") section with
  | VArr elements => filter (λ e, is_string e = true) elements
  | _ => []
  end.

Definition moving (toLowerCase : jsstring → jsstring) (element : value) : bool :=
  match element with VStr text => mentions_motion toLowerCase text | _ => false end.

(** The texts of a list of prompts. *)
Definition prompt_texts (prompts : list value) : list value :=
  get_opt (lit "prompt") <$> prompts.

(** A call to one of the two generators. *)
Definition is_generation (c : call) : Prop :=
  (∃ p st m, c = GenerateImage p st m) ∨ (∃ p st, c = GenerateVideo p st).

(** What a section contributes to a list that is filled by spreading the
    field [k], and to one that is filled with the field itself. *)
Definition items_of (k : string) (section : value) : list value :=
  match get_opt (lit k) section with
  | VArr items => items
  | VStr s => code_points s
  | _ => []
  end.

Definition truthy_field (k : string) (section : value) : list value :=
  if truthy (get_opt (lit k) section) then [get_opt (lit k) section] else [].

(** A field that can be spread: not an object that claims a length. *)
Definition spreadable (v : value) : Prop :=
  match v with VObj _ => truthy (length_of v) = false | _ => True end.

Definition tidy_section (section : value) : Prop :=
  spreadable (get_opt (lit "visualElements") section)
  ∧ spreadable (get_opt (lit "experientialElements") section).

(** The two lists that the extractor of the script generator keeps. *)
Definition shared_fields (me : MediaPromptGenerator.media_elements)
    : ScriptGenerator.media_elements :=
  {| ScriptGenerator.visualElements := MediaPromptGenerator.visualElements me;
     ScriptGenerator.motionTransitions := MediaPromptGenerator.motionTransitions me |}.

(** *** Batches

    The loops over the prompts and over the assets serve the items of a
    list one after the other, and keep what succeeded. *)

Section Batches.

Context {W A B : Type}.
Variable serve : A → W → W * B.

(** The outcomes of serving the items in turn, each in the world that the
    one before it has left. *)
Fixpoint outcomes (items : list A) (w : W) : list B :=
  match items with
  | [] => []
  | x :: rest => (serve x w).2 :: outcomes rest (serve x w).1
  end.

(** The world that the last of them leaves. *)
Fixpoint world_after (items : list A) (w : W) : W :=
  match items with
  | [] => w
  | x :: rest => world_after rest (serve x w).1
  end.

(** What is kept of the batch, [keep] saying what is kept of an item given
    its outcome: an entry for every item that has one, in the order of the
    items. *)
Definition kept {C : Type} (keep : A → B → option C) (items : list A) (w : W) : list C :=
  omap (λ served, keep served.1 served.2) (zip items (outcomes items w)).

End Batches.

Definition succeeded {A : Type} (r : result A) : Prop := ∃ v, r = Ok v.

(** What the script handler keeps of a generation: for a result that is
    truthy, an asset with the [url] of the result and the prompt object. *)
Definition generated_asset (k : StorageService.asset_kind) (metadata p : value)
    (outcome : result value) : option StorageService.asset :=
  match outcome with
  | Ok v =>
      if truthy v
      then Some {| StorageService.kind := k;
                   StorageService.url := get_opt (lit "url") v;
                   StorageService.prompt := p;
                   StorageService.asset_metadata := metadata |}
      else None
  | Throw _ => None
  end.

Definition image_metadata (guidelines : value) : value :=
  VObj [(lit "style", get_opt (lit "visualStyle") guidelines);
        (lit "colorPalette", get_opt (lit "colorPalette") guidelines)].

Definition animation_metadata (guidelines : value) : value :=
  VObj [(lit "style", get_opt (lit "animationStyle") guidelines);
        (lit "duration", VNum 5); (lit "transition", str "smooth fade")].

(** What the drive keeps of an upload: the uploaded file, with the type of
    the asset and the folder. *)
Definition saved_upload (target : value) (a : StorageService.asset)
    (outcome : remote value) : option StorageService.saved_asset :=
  match outcome with
  | Answer f =>
      Some {| StorageService.file := f;
              StorageService.saved_kind := StorageService.kind a;
              StorageService.folder := target |}
  | Reject _ => None
  end.

(** What the media handler keeps of the generation of an image. *)
Definition generated_image (p : value) (outcome : result value)
    : option Server.generated :=
  match outcome with
  | Ok imageUrl =>
      Some {| Server.generated_type := str "image";
              Server.generated_url := imageUrl;
              Server.generated_from := p |}
  | Throw _ => None
  end.

End Spec.

(** ** Scripted services

    Concrete services on which the model is run: a clock with a scripted
    status endpoint, scripted media-model entry points, and a text model,
    generators and a drive that always answer. *)

Module Demo.

Import MediaPromptGenerator StorageService.

Record timeline : Type := {
  clock : Z;       (* milliseconds *)
  checks : nat     (* status checks answered so far *)
}.

Definition now (w : timeline) : Z := clock w.

Definition sleep (d : Z) (w : timeline) : timeline :=
  {| clock := clock w + d; checks := checks w |}.

Definition initial : sys timeline :=
  {| world := {| clock := 0; checks := 0 |}; calls := [] |}.

Definition status_body (st : string) : value := VObj [(lit "status", str st)].

Definition output : value :=
  VObj [(lit "images", VArr [VObj [(lit "url", str "https://fal.media/files/a.png")]])].

Definition completed_body : value :=
  VObj [(lit "status", str "COMPLETED"); (lit "output", output)].

Definition failed_body : value :=
  VObj [(lit "status", str "FAILED"); (lit "error", str "out of capacity")].

(** A status endpoint that answers its successive checks from a list, and
    [IN_PROGRESS] after that; an answer takes no time. *)
Definition scripted (answers : list (remote value)) (statusUrl : value) (w : timeline)
    : timeline * remote value :=
  ({| clock := clock w; checks := S (checks w) |},
   default (Answer (status_body "IN_PROGRESS")) (answers !! checks w)).

Definition statusUrl : value := str "https://queue.fal.run/requests/1/status".

(** A media-model entry point with a fixed outcome. *)
Definition always (r : remote value) (modelId input : value) (w : timeline)
    : timeline * remote value := (w, r).

Definition handle : value :=
  VObj [(lit "status_url", statusUrl); (lit "request_id", str "req-1")].

Definition raw_output : value := VObj [(lit "output", output)].

Definition queued_result : value :=
  VObj [(lit "data", output); (lit "requestId", str "req-2")].

Definition modelId : value := str "fal-ai/flux-pro/v1.1-ultra".
Definition input : value := VObj [(lit "prompt", str "Skyline at dawn")].

(** The process after a request, one failed status check and a queued
    submission. *)
Definition after_fallback : sys timeline :=
  {| world := {| clock := 0; checks := 1 |};
     calls := [FalRequest modelId input; StatusCheck statusUrl 0;
               FalSubscribe modelId input] |}.

(** The process after a request and three status checks 20 s apart. *)
Definition after_three_checks : sys timeline :=
  {| world := {| clock := 40000; checks := 3 |};
     calls := [FalRequest modelId input; StatusCheck statusUrl 0;
               StatusCheck statusUrl 20000; StatusCheck statusUrl 40000] |}.

(** The body of an answer of the text model whose text is [t]. *)
Definition candidates (t : jsstring) : value :=
  VObj [(lit "candidates",
     VArr [VObj [(lit "content",
        VObj [(lit "parts", VArr [VObj [(lit "text", VStr t)]])])]])].

Definition prose : jsstring :=
  lit "Acme is a challenger brand with a loyal following.".

Definition research_json : jsstring :=
  Reference.text "{'brandEssence': {'coreStory': 'Built to last'}, 'score': 7}".

Definition script_without_sections : jsstring :=
  Reference.text "```json|{'title': 'Acme pitch', 'sections': 'none'}|```".

(** A script with five still visuals and two moving ones. *)
Definition script_text : jsstring :=
  Reference.text
    "```json|{'sections': [{'sectionTitle': 'Opening', 'visualElements': ['Skyline at dawn', 'Team at work', 'Product close-up', 'Customer smiling', 'Logo on a wall', 'Logo animation reveal', 'Slow motion pour']}], 'transitions': ['fade']}|```".

Definition fetch_text (t : jsstring) (p : Effects.prompt) (w : timeline)
    : timeline * ScriptGenerator.fetch_reply :=
  (w, ScriptGenerator.FetchResponse true 200 (Ok (candidates t))).

Definition folder_1 : value :=
  VObj [(lit "id", str "folder-1"); (lit "name", str "Acme");
        (lit "url", str "https://drive.google.com/drive/folders/folder-1")].

Definition env : Server.env timeline := {|
  Server.JSON_parse := Reference.JSON_parse;
  Server.toLowerCase := Reference.toLowerCase;
  Server.toISOString := λ _, str "2025-01-01T00:00:00.000Z";
  Server.axios_post := λ _ w, (w, Answer (candidates prose));
  Server.fetch := fetch_text script_text;
  Server.generateImage := λ _ _ _ w,
    (w, Ok (VObj [(lit "url", str "https://fal.media/files/a.png")]));
  Server.generateVideo := λ _ _ w,
    (w, Ok (VObj [(lit "url", str "https://fal.media/files/b.mp4")]));
  Server.createOrGetFolder := λ _ _ w, (w, Answer folder_1);
  Server.upload := λ _ _ w, (w, Answer (VObj [(lit "id", str "file-1")]))
|}.

Definition server0 : Server.server timeline :=
  {| Server.outside := initial; Server.researchStore := [] |}.

Definition acme : list (jsstring * value) :=
  [(lit "name", str "Acme"); (lit "description", str "Anvils and more");
   (lit "values", VArr [str "A"; str "B"])].

Definition research_body : value := VObj [(lit "brandInfo", VObj acme)].

Definition script_fields (sessionId : string) : list (jsstring * value) :=
  [(lit "sessionId", str sessionId); (lit "campaignGoals", str "Awareness");
   (lit "targetAudience", str "Coyotes")].

(** The process after research has been run for Acme. *)
Definition after_research : Server.server timeline :=
  (Server.post_research env research_body server0).1.

(** A script whose only section lists one visual element. *)
Definition script_with_one_visual : value :=
  VObj [(lit "sections",
     VArr [VObj [(lit "sectionTitle", str "Opening");
                 (lit "visualElements", VArr [str "Skyline at dawn"])]])].

(** A script whose only section gives its visual elements as one string. *)
Definition script_with_string_visuals : value :=
  VObj [(lit "sections",
     VArr [VObj [(lit "sectionTitle", str "Opening");
                 (lit "visualElements", str "Hero shot of the product")]])].

Definition script_with_null_section : value :=
  VObj [(lit "sections", VArr [VNull])].

(** A status source that reports [COMPLETED] on the third check. *)
Definition three_answers : list (remote value) :=
  [Answer (status_body "PENDING"); Answer (status_body "IN_PROGRESS");
   Answer completed_body].

(** The script request for Acme, after research for Acme. *)
Definition acme_run : Server.server timeline * Server.response :=
  Server.post_script env (VObj (script_fields "Acme")) after_research.

(** A provider response without a status handle and without [data]. *)
Definition direct_images : value :=
  VObj [(lit "images", VArr [VObj [(lit "url", str "https://fal.media/files/a.png")]])].

(** Stand-ins for string conversion and [JSON.stringify]: they only shape
    the prompt text sent to the media model. *)
Definition ToString (v : value) : jsstring :=
  match v with VStr s => s | _ => lit "[object Object]" end.

Definition JSON_stringify (v : value) : jsstring := lit "{}".

(** The process after one status check. *)
Definition after_one_check : sys timeline :=
  {| world := {| clock := 0; checks := 1 |}; calls := [StatusCheck statusUrl 0] |}.

(** The services of [env], with generators that always fail. *)
Definition env_failing : Server.env timeline := {|
  Server.JSON_parse := Reference.JSON_parse;
  Server.toLowerCase := Reference.toLowerCase;
  Server.toISOString := λ _, str "2025-01-01T00:00:00.000Z";
  Server.axios_post := λ _ w, (w, Answer (candidates prose));
  Server.fetch := fetch_text script_text;
  Server.generateImage := λ _ _ _ w, (w, Throw (FailedToGenerateImage NoDataReceived));
  Server.generateVideo := λ _ _ w, (w, Throw (FailedToGenerateVideo NoDataReceived));
  Server.createOrGetFolder := λ _ _ w, (w, Answer folder_1);
  Server.upload := λ _ _ w, (w, Answer (VObj [(lit "id", str "file-1")]))
|}.

(** The script request for Acme when every generation fails. *)
Definition failing_run : Server.server timeline * Server.response :=
  Server.post_script env_failing (VObj (script_fields "Acme")) after_research.

(** A research request for a brand described in free text. *)
Definition free_text : jsstring := lit "Test Brand - A modern tech company".

Definition free_text_body : value := VObj [(lit "brandInfo", VStr free_text)].

Definition after_free_text : Server.server timeline :=
  (Server.post_research env free_text_body server0).1.

(** Sections for the extractors: a [null] section, one whose visual
    elements are an array, and one that gives them as a string. *)
Definition sections : list value :=
  [VNull;
   VObj [(lit "visualElements", VArr [str "Skyline at dawn"; VNum 3]);
         (lit "motionTransitions", str "fade")];
   VObj [(lit "visualElements", str "ab");
         (lit "craftAndDesign", str "hand-drawn")]].

Definition stamp : value := str "2025-01-01T00:00:00.000Z".

(** The history of prompts after a run for Acme and after a run without a
    brand name, each from an empty history. *)
Definition filed_for_acme : MediaPromptGenerator.history * media_reply :=
  generateMediaPrompts_filing Reference.toLowerCase ToString script_with_one_visual
    (str "gemini-2.0-flash") (str "Acme") stamp stamp ∅.

Definition filed_unnamed : MediaPromptGenerator.history * media_reply :=
  generateMediaPrompts_filing Reference.toLowerCase ToString script_with_one_visual
    (str "gemini-2.0-flash") VUndefined stamp stamp ∅.

(** Generators for the media handler: the image generator fails on the
    prompt [Team at work] and succeeds on every other. *)
Definition generateImage (prompt style mood technicalSpecs : value) (w : timeline)
    : timeline * result value :=
  (w, if is_str (lit "Team at work") prompt
      then Throw (FailedToGenerateImage NoDataReceived)
      else Ok (VObj [(lit "url", str "https://fal.media/files/a.png")])).

Definition generateVideo (params : value) (w : timeline) : timeline * result value :=
  (w, Ok (VObj [(lit "url", str "https://fal.media/files/b.mp4")])).

Definition image_prompts : list value :=
  [VObj [(lit "prompt", str "Skyline at dawn")];
   VObj [(lit "prompt", str "Team at work")];
   VObj [(lit "prompt", str "Product close-up"); (lit "style", str "noir")]].

Definition prompts_with_null : list value :=
  [VObj [(lit "prompt", str "Skyline at dawn")]; VNull;
   VObj [(lit "prompt", str "Product close-up")]].

Definition media_params (prompts : list value) : value :=
  VObj [(lit "prompts", VArr prompts); (lit "style", str "bold")].

Definition media_body (prompts : list value) : value :=
  VObj [(lit "type", str "image"); (lit "params", media_params prompts)].

(** The inputs of a script for Acme. *)
Definition acme_inputs : ScriptGenerator.script_inputs :=
  {| ScriptGenerator.brandInfo := VObj acme;
     ScriptGenerator.research_in := VObj [(lit "score", VNum 7)];
     ScriptGenerator.campaignGoals := str "Awareness";
     ScriptGenerator.targetAudience := str "Coyotes";
     ScriptGenerator.creativeDirection := VUndefined;
     ScriptGenerator.model := str "gemini-2.0-flash" |}.

(** The history of the script generator after research for Acme. *)
Definition researched : Retrieval.history :=
  Retrieval.file_research (VObj acme) (VObj [(lit "score", VNum 7)]) stamp [].

(** A script for Acme, filed after the research. *)
Definition script_filed : sys timeline * Retrieval.history * result value :=
  Retrieval.generateScript_filing ToString Reference.JSON_parse timeline
    (fetch_text script_text) (λ _, stamp) acme_inputs initial researched.

(** A research request for a brand record without a name. *)
Definition nameless_body : value :=
  VObj [(lit "brandInfo", VObj [(lit "description", str "Anvils and more")])].

Definition after_nameless : Server.server timeline :=
  (Server.post_research env nameless_body server0).1.

(** The services of [env], with a text model that answers the research
    request with the text [null]. *)
Definition env_null : Server.env timeline := {|
  Server.JSON_parse := Reference.JSON_parse;
  Server.toLowerCase := Reference.toLowerCase;
  Server.toISOString := λ _, str "2025-01-01T00:00:00.000Z";
  Server.axios_post := λ _ w, (w, Answer (candidates (lit "null")));
  Server.fetch := fetch_text script_text;
  Server.generateImage := λ _ _ _ w,
    (w, Ok (VObj [(lit "url", str "https://fal.media/files/a.png")]));
  Server.generateVideo := λ _ _ w,
    (w, Ok (VObj [(lit "url", str "https://fal.media/files/b.mp4")]));
  Server.createOrGetFolder := λ _ _ w, (w, Answer folder_1);
  Server.upload := λ _ _ w, (w, Answer (VObj [(lit "id", str "file-1")]))
|}.

(** The process after research has been run for Acme with that text model. *)
Definition after_null_research : Server.server timeline :=
  (Server.post_research env_null research_body server0).1.

(** A brand record whose name is the empty string. *)
Definition unnamed : list (jsstring * value) :=
  [(lit "name", VStr []); (lit "description", str "Anvils and more")].

Definition after_unnamed : Server.server timeline :=
  (Server.post_research env (VObj [(lit "brandInfo", VObj unnamed)]) server0).1.

(** The script of [script_text], parsed. *)
Definition pitch_script : value :=
  default VNull (Reference.JSON_parse (ScriptGenerator.clean_script script_text)).

(** Three image prompts and two animation prompts. *)
Definition pitch_prompts : media_prompts :=
  {| visualPrompts :=
       {| images :=
            [image_prompt (str "Skyline at dawn") (str "modern") (str "professional");
             image_prompt (str "Team at work") (str "modern") (str "professional");
             image_prompt (str "Product close-up") (str "modern") (str "professional")];
          animations :=
            [animation_prompt (str "Logo animation reveal") (str "cinematic")
               (str "smooth fade");
             animation_prompt (str "Slow motion pour") (str "cinematic")
               (str "smooth fade")] |};
     craftGuidelines :=
       VObj [(lit "visualStyle", str "Clean"); (lit "colorPalette", str "Brand colors");
             (lit "animationStyle", str "Smooth")] |}.

(** Generators that number their calls; the image generator fails on the
    prompt [Skyline at dawn]. *)
Definition numbered (w : timeline) : timeline :=
  {| clock := clock w; checks := S (checks w) |}.

Definition numbered_url (w : timeline) : value :=
  VObj [(lit "url", VNum (Z.of_nat (checks w)))].

Definition env_flaky : Server.env timeline := {|
  Server.JSON_parse := Reference.JSON_parse;
  Server.toLowerCase := Reference.toLowerCase;
  Server.toISOString := λ _, str "2025-01-01T00:00:00.000Z";
  Server.axios_post := λ _ w, (w, Answer (candidates prose));
  Server.fetch := fetch_text script_text;
  Server.generateImage := λ prompt _ _ w,
    (numbered w,
     if is_str (lit "Skyline at dawn") prompt
     then Throw (FailedToGenerateImage NoDataReceived)
     else Ok (numbered_url w));
  Server.generateVideo := λ _ _ w, (numbered w, Ok (numbered_url w));
  Server.createOrGetFolder := λ _ _ w, (w, Answer folder_1);
  Server.upload := λ _ _ w, (w, Answer (VObj [(lit "id", str "file-1")]))
|}.

(** A drive whose uploads are numbered, and which rejects animations. *)
Definition numbered_upload (a : asset) (target : value) (w : timeline)
    : timeline * remote value :=
  (numbered w,
   match kind a with
   | Animation => Reject (Some 403)
   | Image => Answer (VObj [(lit "id", VNum (Z.of_nat (checks w)))])
   end).

Definition batch : list asset :=
  [{| kind := Image; url := str "https://fal.media/files/a.png";
      prompt := str "Skyline at dawn"; asset_metadata := VObj [] |};
   {| kind := Animation; url := str "https://fal.media/files/b.mp4";
      prompt := str "Logo animation reveal"; asset_metadata := VObj [] |};
   {| kind := Image; url := str "https://fal.media/files/c.png";
      prompt := str "Team at work"; asset_metadata := VObj [] |}].

End Demo.

(** * Properties *)

Import Spec.

(** ** The string primitives on examples *)

Section StringExamples.

Import ScriptGenerator.
Local Abbreviation text := Reference.text.

Example match_fence_finds_block :
  match_fence (text "Here you go:|```json|{'a': 1}|```|Anything else?")
  = Some (text "{'a': 1}").
Proof. reflexivity. Qed.

Example match_fence_untagged :
  match_fence (text "```|[1, 2]|```") = Some (text "[1, 2]").
Proof. reflexivity. Qed.

(** The markers must stand on lines of their own. *)
Example match_fence_needs_lines :
  match_fence (text "```json {'a': 1} ```") = None.
Proof. reflexivity. Qed.

Example strip_fences_removes_markers :
  strip_fences (text "```json|{'a': 1}|```") = text "{'a': 1}|".
Proof. reflexivity. Qed.

(** Line feeds are control characters: the cleaned script has none. *)
Example clean_script_joins_lines :
  clean_script (text "```json|{'sections':||  []}|```|") = text "{'sections':  []}".
Proof. reflexivity. Qed.

Example blank_lines_collapse :
  replace_all m_blank_lines [LF] (text "a|| |b|c") = text "a|b|c".
Proof. reflexivity. Qed.

Example trim_both_ends : trim (text " | {} |") = text "{}".
Proof. reflexivity. Qed.

Example first_word_of_brand : first_word (lit "Test Brand - A modern tech company") = lit "Test".
Proof. reflexivity. Qed.

Example reference_parser_reads_json :
  Reference.JSON_parse (text "{ 'a': [1, -2, true, null], |'b': {'c': 'x\ny'} }")
  = Some (VObj [(lit "a", VArr [VNum 1; VNum (-2); VBool true; VNull]);
                (lit "b", VObj [(lit "c", VStr (text "x|y"))])]).
Proof. reflexivity. Qed.

Example reference_parser_rejects_prose :
  Reference.JSON_parse (lit "Acme is a challenger brand.") = None.
Proof. reflexivity. Qed.

End StringExamples.

(** ** Structured-output extraction *)

Section ExtractionFacts.

Import ScriptGenerator.

Variable JSON_parse : jsstring → option value.

Lemma fence_open_fenced tagged J :
  fence_open (fenced tagged J) = Some (J ++ LF :: FENCE).
Proof. destruct tagged; reflexivity. Qed.

Lemma split_first_cons (p : jsstring) c s :
  split_first p (c :: s) =
    match strip_prefix p (c :: s) with
    | Some rest => Some ([], rest)
    | None =>
        match split_first p s with
        | Some (before, after) => Some (c :: before, after)
        | None => None
        end
    end.
Proof. reflexivity. Qed.

(** The closing marker cannot start inside [J] and run over its end: its
    first character is a line feed and the others are backquotes. *)
Lemma strip_closing_fence_short c (J : jsstring) :
  strip_prefix (LF :: FENCE) (c :: J) = None →
  strip_prefix (LF :: FENCE) ((c :: J) ++ LF :: FENCE) = None.
Proof.
  destruct J as [|b [|d [|e J']]]; cbn -[N.eqb]; intros H;
    repeat (case_match; try done).
Qed.

Lemma includes_cons (p : jsstring) c s :
  includes p (c :: s) = false →
  strip_prefix p (c :: s) = None ∧ includes p s = false.
Proof.
  unfold includes. rewrite split_first_cons.
  destruct (strip_prefix p (c :: s)); [done|].
  destruct (split_first p s) as [[? ?]|]; done.
Qed.

Lemma split_first_closing (J : jsstring) :
  includes (LF :: FENCE) J = false →
  split_first (LF :: FENCE) (J ++ LF :: FENCE) = Some (J, []).
Proof.
  induction J as [|c J IH]; intros H; [reflexivity|].
  apply includes_cons in H as [Hhead Htail].
  change ((c :: J) ++ LF :: FENCE) with (c :: (J ++ LF :: FENCE)).
  rewrite split_first_cons.
  change (c :: (J ++ LF :: FENCE)) with ((c :: J) ++ LF :: FENCE).
  rewrite (strip_closing_fence_short _ _ Hhead), (IH Htail). reflexivity.
Qed.

Lemma match_fence_fenced tagged (J : jsstring) :
  includes (LF :: FENCE) J = false → match_fence (fenced tagged J) = Some J.
Proof.
  intros H.
  assert (fence_at (fenced tagged J) = Some J) as Hat.
  { unfold fence_at. rewrite fence_open_fenced. cbn [mbind option_bind].
    rewrite (split_first_closing _ H). reflexivity. }
  destruct (fenced tagged J) eqn:E.
  - destruct tagged; discriminate.
  - cbn [match_fence]. rewrite Hat. reflexivity.
Qed.

(** C5. Lossless extraction from a fenced block: when the model response is
    a JSON text [J] of the value [v] wrapped in a fenced code block (tagged
    [json] or not), research parsing returns exactly [v].  That [J] is a JSON
    text of [v] is [JSON.parse] accepting it as [v]; a JSON text never holds a
    line feed followed by three backquotes (backquotes occur in string
    literals only, where a raw line feed is not allowed). *)
Theorem fenced_json_round_trip (tagged : bool) (J : jsstring) (v : value) :
  JSON_parse (trim J) = Some v →
  includes (LF :: FENCE) J = false →
  parse_research JSON_parse (VStr (fenced tagged J)) = Ok v.
Proof.
  intros Hparse Hclean.
  unfold parse_research, research_fenced, JSON_parse_or_throw.
  cbn [as_string mbind result_bind].
  rewrite (match_fence_fenced tagged J Hclean). cbn [default from_option id].
  rewrite Hparse. reflexivity.
Qed.

Lemma placeholder_sections (t : value) :
  Forall (has_section (placeholder t)) required_sections.
Proof. repeat constructor; eexists; reflexivity. Qed.

Lemma placeholder_rawResponse (t : value) :
  get (lit "rawResponse") (placeholder t) = Some t.
Proof. reflexivity. Qed.

(** Research parsing never raises, whatever the text model sent. *)
Lemma parse_research_total (researchText : value) :
  ∃ research, parse_research JSON_parse researchText = Ok research.
Proof.
  unfold parse_research, try_catch.
  destruct (research_fenced _ _); [eauto|].
  destruct (research_cleaned _ _); eauto.
Qed.

(** C1. Graceful degradation of research parsing: when neither the fenced
    block (or else the whole text) nor the text without its fence markers is
    valid JSON, research parsing raises no error and returns an object that
    has the five required sections and whose [rawResponse] is the response
    text, unchanged. *)
Theorem research_parse_degrades (text : jsstring) :
  JSON_parse (trim (default text (match_fence text))) = None →
  JSON_parse (trim (strip_fences text)) = None →
  ∃ research,
    parse_research JSON_parse (VStr text) = Ok research
    ∧ Forall (has_section research) required_sections
    ∧ get (lit "rawResponse") research = Some (VStr text).
Proof.
  intros Hfenced Hcleaned. exists (placeholder (VStr text)).
  split; [|split; [apply placeholder_sections | apply placeholder_rawResponse]].
  unfold parse_research, research_fenced, research_cleaned, JSON_parse_or_throw.
  cbn [as_string mbind result_bind]. rewrite Hfenced. cbn [try_catch].
  rewrite Hcleaned. reflexivity.
Qed.

Lemma parse_script_ok (cleaned : jsstring) (script : value) :
  parse_script JSON_parse cleaned = Ok script ↔
  JSON_parse cleaned = Some script ∧ isArray (get_opt (lit "sections") script) = true.
Proof.
  unfold parse_script, JSON_parse_or_throw, read, get_opt.
  destruct (JSON_parse cleaned) as [parsed|]; cbn [mbind result_bind try_catch];
    [|split; [done | intros [? _]; done]].
  destruct (get (lit "sections") parsed) as [sections|] eqn:Hget;
    cbn [mbind result_bind try_catch default from_option].
  - assert (negb (truthy sections) || negb (isArray sections) = negb (isArray sections))
      as -> by (destruct sections; cbn; rewrite ?orb_true_r, ?orb_false_r; done).
    destruct (isArray sections) eqn:Harr; cbn; split; intros H; try done.
    + injection H as ->. rewrite Hget. done.
    + destruct H; congruence.
    + destruct H as [[= ->] H]. rewrite Hget in H. cbn in H. congruence.
  - split; [done|]. intros [[= ->] H]. rewrite Hget in H. done.
Qed.

Lemma parse_script_error (cleaned : jsstring) (e : exn) :
  parse_script JSON_parse cleaned = Throw e → ∃ cause, e = FailedToParseScript cause.
Proof.
  unfold parse_script, try_catch.
  destruct (_ ≫= _); [done|]. intros [= <-]. eauto.
Qed.

Lemma try_catch_rethrow {A} (r : result A) : try_catch r (λ error, Throw error) = r.
Proof. destruct r; reflexivity. Qed.

Variable W : Type.
Variable fetch : prompt → W → W * fetch_reply.

(** When the text model answers with a non-empty text, the outcome of
    [generateScriptContent] is that of parsing the cleaned text. *)
Lemma generateScriptContent_text p (s : sys W) w' status data content :
  fetch p (world s) = (w', FetchResponse true status (Ok data)) →
  candidate_text_opt data = Ok (VStr content) →
  content ≠ [] →
  (generateScriptContent JSON_parse W fetch p s).2
  = parse_script JSON_parse (clean_script content).
Proof.
  intros Hfetch Htext Hne.
  unfold generateScriptContent, perform. rewrite Hfetch. cbn [snd].
  rewrite try_catch_rethrow. unfold script_of_reply.
  cbn [negb mbind result_bind]. rewrite Htext. cbn [mbind result_bind].
  destruct content; [done|]. reflexivity.
Qed.

(** C4. Script parsing has no placeholder: when the text model answers
    with a text, [generateScriptContent] returns a script exactly when the
    cleaned text is JSON with an array-typed [sections] field, and then
    returns the parsed object itself; when the cleaned text is not JSON or
    the parsed result lacks an array-typed [sections] field it raises the
    parse error [Failed to parse script content], which reaches the
    caller. *)
Theorem script_without_sections_is_rejected p (s : sys W) w' status data content :
  fetch p (world s) = (w', FetchResponse true status (Ok data)) →
  candidate_text_opt data = Ok (VStr content) →
  content ≠ [] →
  let outcome := (generateScriptContent JSON_parse W fetch p s).2 in
  (JSON_parse (clean_script content) = None
   ∨ (∃ parsed, JSON_parse (clean_script content) = Some parsed
                ∧ isArray (get_opt (lit "sections") parsed) = false)
   → ∃ cause, outcome = Throw (FailedToParseScript cause))
  ∧ (∀ script, outcome = Ok script →
       JSON_parse (clean_script content) = Some script
       ∧ isArray (get_opt (lit "sections") script) = true).
Proof.
  intros Hfetch Htext Hne outcome. subst outcome.
  rewrite (generateScriptContent_text _ _ _ _ _ _ Hfetch Htext Hne).
  split.
  - intros Hbad.
    destruct (parse_script JSON_parse (clean_script content)) as [script|e] eqn:Hp.
    + apply parse_script_ok in Hp as [Hparse Harr].
      destruct Hbad as [Hnone | (parsed & Hsome & Hno)]; congruence.
    + destruct (parse_script_error _ _ Hp) as [cause ->]. eauto.
  - intros script Hok. by apply parse_script_ok.
Qed.

End ExtractionFacts.

(** ** The clean-up of model responses *)

Section CleanupFacts.

Import ScriptGenerator.

Variable JSON_parse : jsstring → option value.

Lemma includes_cons_false (p : jsstring) c s :
  strip_prefix p (c :: s) = None → includes p s = false → includes p (c :: s) = false.
Proof.
  unfold includes. rewrite split_first_cons. intros -> Hs.
  destruct (split_first p s) as [[? ?]|]; done.
Qed.

Lemma strip_prefix_other (p : jsstring) a c s :
  c ≠ a → strip_prefix (a :: p) (c :: s) = None.
Proof. intros Hc. cbn -[N.eqb]. destruct (N.eqb_spec a c); [congruence|done]. Qed.

Lemma m_fence_None s : m_fence s = None ↔ strip_prefix FENCE s = None.
Proof. unfold m_fence. destruct (strip_prefix FENCE s); done. Qed.

Lemma m_fence_positive s : m_fence s ≠ Some O.
Proof. unfold m_fence. destruct (strip_prefix FENCE s); done. Qed.

(** Where no marker starts, two backquotes at the head of the result were
    two backquotes at the head of the text. *)
Lemma replace_m_fence_head s :
  strip_prefix [BACKTICK; BACKTICK] s = None →
  strip_prefix [BACKTICK; BACKTICK] (replace_all m_fence [] s) = None.
Proof.
  unfold replace_all. destruct s as [|a [|b t]]; [done| |].
  - intros _. cbn [replace_from].
    assert (m_fence [a] = None) as ->.
    { apply m_fence_None. cbn -[N.eqb]. by case_match. }
    cbn -[N.eqb]. by case_match.
  - intros H. cbn [replace_from].
    assert (m_fence (a :: b :: t) = None) as ->.
    { apply m_fence_None. cbn -[N.eqb] in *. repeat (case_match; try done). }
    destruct (N.eq_dec a BACKTICK) as [->|Ha]; [|by apply strip_prefix_other].
    assert (b ≠ BACKTICK) as Hb.
    { intros ->. cbn -[N.eqb] in H. by rewrite N.eqb_refl in H. }
    assert (m_fence (b :: t) = None) as ->
      by (by apply m_fence_None, strip_prefix_other).
    cbn -[N.eqb]. rewrite N.eqb_refl. destruct (N.eqb_spec BACKTICK b); [congruence|done].
Qed.

Lemma replace_m_fence_no_fence s skip :
  includes FENCE (replace_from m_fence [] skip s) = false.
Proof.
  revert skip. induction s as [|c s IH]; intros skip; [done|].
  cbn [replace_from]. destruct skip as [|k]; [|apply IH].
  destruct (m_fence (c :: s)) as [[|k]|] eqn:Hm.
  - by apply m_fence_positive in Hm.
  - apply IH.
  - apply includes_cons_false; [|apply IH].
    apply m_fence_None in Hm.
    destruct (N.eq_dec c BACKTICK) as [->|Hc]; [|by apply strip_prefix_other].
    assert (strip_prefix [BACKTICK; BACKTICK] s = None) as Hs.
    { cbn -[N.eqb] in Hm. by rewrite N.eqb_refl in Hm. }
    apply replace_m_fence_head in Hs. unfold replace_all in Hs.
    unfold FENCE. cbn -[N.eqb] in Hs |- *. by rewrite N.eqb_refl.
Qed.

(** X8. The text left by the removal of the fence markers holds no run of
    three backquotes, whatever the text was: the markers next to each other,
    and those that come together once a [json] marker between them is gone,
    are removed as well. *)
Theorem strip_fences_leaves_no_fence (text : jsstring) :
  includes FENCE (strip_fences text) = false.
Proof. apply replace_m_fence_no_fence. Qed.

Lemma Forall_trimStart (P : N → Prop) s : Forall P s → Forall P (trimStart s).
Proof.
  induction 1 as [|c s Hc Hs IH]; [done|]. cbn. destruct (is_space c); [done|by constructor].
Qed.

Lemma Forall_trim (P : N → Prop) s : Forall P s → Forall P (trim s).
Proof.
  intros H. unfold trim, trimEnd.
  by apply Forall_reverse, Forall_trimStart, Forall_reverse, Forall_trimStart.
Qed.

Lemma blank_lines_need_LF s :
  Forall (λ c, is_control c = false) s → replace_all m_blank_lines [LF] s = s.
Proof.
  unfold replace_all. induction 1 as [|c s Hc Hs IH]; [done|].
  cbn [replace_from m_blank_lines].
  destruct (N.eqb_spec c LF) as [->|_]; [done|]. by rewrite IH.
Qed.

(** X9. The cleaned script text holds no control character, and so no line
    feed, carriage return or tab: the removal of the control characters has
    taken the line feeds, and the collapse of blank lines that follows it
    finds nothing to do. *)
Theorem clean_script_has_no_control (content : jsstring) :
  Forall (λ c, is_control c = false) (clean_script content)
  ∧ clean_script content
    = trim (filter (λ c, is_control c = false) (strip_fences content)).
Proof.
  assert (Forall (λ c, is_control c = false)
            (filter (λ c, is_control c = false) (strip_fences content))) as Hclean.
  { apply Forall_forall. intros c Hc. by apply list_elem_of_filter in Hc as [Hc _]. }
  unfold clean_script. rewrite (blank_lines_need_LF _ Hclean).
  split; [by apply Forall_trim|done].
Qed.

Lemma match_fence_skips (before rest : jsstring) :
  Forall (λ c, c ≠ BACKTICK) before → match_fence (before ++ rest) = match_fence rest.
Proof.
  induction 1 as [|c before Hc _ IH]; [done|].
  cbn [app match_fence].
  assert (fence_at (c :: before ++ rest) = None) as ->; [|exact IH].
  unfold fence_at, fence_open, FENCE. by rewrite (strip_prefix_other _ _ _ _ Hc).
Qed.

Lemma strip_closing_fence_short_more c (J after : jsstring) :
  strip_prefix (LF :: FENCE) (c :: J) = None →
  strip_prefix (LF :: FENCE) ((c :: J) ++ LF :: FENCE ++ after) = None.
Proof.
  destruct J as [|b [|d [|e J']]]; cbn -[N.eqb]; intros H;
    repeat (case_match; try done).
Qed.

Lemma split_first_closing_more (J after : jsstring) :
  includes (LF :: FENCE) J = false →
  split_first (LF :: FENCE) (J ++ LF :: FENCE ++ after) = Some (J, after).
Proof.
  induction J as [|c J IH]; intros H; [reflexivity|].
  apply includes_cons in H as [Hhead Htail].
  change ((c :: J) ++ LF :: FENCE ++ after) with (c :: (J ++ LF :: FENCE ++ after)).
  rewrite split_first_cons.
  change (c :: (J ++ LF :: FENCE ++ after)) with ((c :: J) ++ LF :: FENCE ++ after).
  rewrite (strip_closing_fence_short_more _ _ _ Hhead), (IH Htail). reflexivity.
Qed.

Lemma match_fence_inside tagged (before J after : jsstring) :
  Forall (λ c, c ≠ BACKTICK) before →
  includes (LF :: FENCE) J = false →
  match_fence (before ++ fenced tagged J ++ after) = Some J.
Proof.
  intros Hbefore HJ. rewrite (match_fence_skips _ _ Hbefore).
  assert (fence_at (fenced tagged J ++ after) = Some J) as Hat.
  { unfold fence_at.
    assert (fence_open (fenced tagged J ++ after) = Some (J ++ LF :: FENCE ++ after)) as ->.
    { assert (fenced tagged J ++ after
              = FENCE ++ (if tagged then JSON_TAG else []) ++ [LF]
                ++ (J ++ LF :: FENCE ++ after)) as ->
        by (unfold fenced; by rewrite <- !app_assoc).
      by destruct tagged. }
    cbn [mbind option_bind]. by rewrite (split_first_closing_more _ _ HJ). }
  destruct (fenced tagged J ++ after) eqn:E.
  - destruct tagged; discriminate.
  - cbn [match_fence]. by rewrite Hat.
Qed.

(** X10. What surrounds a fenced block is ignored: when the model response
    is a JSON text [J] of the value [v] in a fenced code block, preceded by
    any text without a backquote and followed by any text at all, research
    parsing returns exactly [v]. *)
Theorem text_around_fence_is_ignored tagged (before J after : jsstring) (v : value) :
  Forall (λ c, c ≠ BACKTICK) before →
  includes (LF :: FENCE) J = false →
  JSON_parse (trim J) = Some v →
  parse_research JSON_parse (VStr (before ++ fenced tagged J ++ after)) = Ok v.
Proof.
  intros Hbefore HJ Hparse.
  unfold parse_research, research_fenced, JSON_parse_or_throw.
  cbn [as_string mbind result_bind].
  rewrite (match_fence_inside tagged _ _ _ Hbefore HJ). cbn [default from_option id].
  by rewrite Hparse.
Qed.

Lemma replace_from_none (m : jsstring → option nat) repl (s : jsstring) :
  (∀ c t, c ∈ s → m (c :: t) = None) → replace_from m repl O s = s.
Proof.
  induction s as [|c s IH]; intros Hm; [done|].
  cbn [replace_from]. rewrite (Hm c s) by apply list_elem_of_here.
  rewrite IH; [done|]. intros c' t Hc'. apply Hm. by apply list_elem_of_further.
Qed.

Lemma match_fence_no_backquote (s : jsstring) :
  Forall (λ c, c ≠ BACKTICK) s → match_fence s = None.
Proof.
  intros Hs. rewrite <- (app_nil_r s). by rewrite (match_fence_skips _ _ Hs).
Qed.

(** A marker that is followed by neither a line feed nor [json] and a line
    feed opens no fenced block. *)
Lemma match_fence_inline (J : jsstring) :
  Forall (λ c, c ≠ BACKTICK ∧ c ≠ LF) J →
  match_fence (FENCE ++ JSON_TAG ++ J ++ FENCE) = None.
Proof.
  intros HJ.
  assert (match_fence (J ++ FENCE) = None) as Htail.
  { rewrite match_fence_skips by (eapply Forall_impl; [exact HJ|]; by intros c [? _]).
    reflexivity. }
  assert (∀ t : jsstring, t ≠ [] → Forall (λ c, c ≠ LF) t → strip_prefix [LF] t = None) as HnoLF.
  { intros [|c t] Hne Ht; [done|]. apply Forall_cons in Ht as [Hc _].
    by apply strip_prefix_other. }
  assert (Forall (λ c, c ≠ LF) (J ++ FENCE)) as HLF.
  { apply Forall_app. split; [eapply Forall_impl; [exact HJ|]; by intros c [_ ?]|].
    repeat constructor; done. }
  assert (strip_prefix [LF] (J ++ FENCE) = None) as Hnl.
  { apply HnoLF; [|done]. by destruct J. }
  change (FENCE ++ JSON_TAG ++ J ++ FENCE)
    with (BACKTICK :: BACKTICK :: BACKTICK :: 106%N :: 115%N :: 111%N :: 110%N
            :: (J ++ FENCE)).
  cbn [match_fence]. unfold fence_at, fence_open.
  change (strip_prefix FENCE
            (BACKTICK :: BACKTICK :: BACKTICK :: 106%N :: 115%N :: 111%N :: 110%N
               :: (J ++ FENCE)))
    with (Some (106%N :: 115%N :: 111%N :: 110%N :: (J ++ FENCE))).
  cbn [mbind option_bind].
  change (strip_prefix (JSON_TAG ++ [LF])
            (106%N :: 115%N :: 111%N :: 110%N :: (J ++ FENCE)))
    with (strip_prefix [LF] (J ++ FENCE)).
  rewrite Hnl. cbn [strip_prefix N.eqb Pos.eqb LF fmap option_fmap option_map].
  change (strip_prefix FENCE
            (BACKTICK :: BACKTICK :: 106%N :: 115%N :: 111%N :: 110%N :: (J ++ FENCE)))
    with (@None jsstring).
  change (strip_prefix FENCE
            (BACKTICK :: 106%N :: 115%N :: 111%N :: 110%N :: (J ++ FENCE)))
    with (@None jsstring).
  cbn [mbind option_bind].
  change (strip_prefix FENCE (106%N :: 115%N :: 111%N :: 110%N :: (J ++ FENCE)))
    with (@None jsstring).
  change (strip_prefix FENCE (115%N :: 111%N :: 110%N :: (J ++ FENCE)))
    with (@None jsstring).
  change (strip_prefix FENCE (111%N :: 110%N :: (J ++ FENCE))) with (@None jsstring).
  change (strip_prefix FENCE (110%N :: (J ++ FENCE))) with (@None jsstring).
  cbn [mbind option_bind]. exact Htail.
Qed.

Lemma replace_from_app_none (m : jsstring → option nat) repl (s rest : jsstring) :
  (∀ c t, c ∈ s → m (c :: t) = None) →
  replace_from m repl O (s ++ rest) = s ++ replace_from m repl O rest.
Proof.
  induction s as [|c s IH]; intros Hm; [done|].
  cbn [app replace_from]. rewrite (Hm c (s ++ rest)) by apply list_elem_of_here.
  rewrite IH; [done|]. intros c' t Hc'. apply Hm. by apply list_elem_of_further.
Qed.

Lemma strip_fences_inline (J : jsstring) :
  Forall (λ c, c ≠ BACKTICK ∧ c ≠ LF) J →
  strip_fences (FENCE ++ JSON_TAG ++ J ++ FENCE) = J.
Proof.
  intros HJ.
  assert (∀ c t, c ∈ J → m_fence_json (c :: t) = None) as Hjson.
  { intros c t Hc. rewrite Forall_forall in HJ. destruct (HJ c Hc) as [Hb _].
    unfold m_fence_json, FENCE. cbn [app]. by rewrite strip_prefix_other. }
  assert (∀ c t, c ∈ J → m_fence (c :: t) = None) as Hplain.
  { intros c t Hc. rewrite Forall_forall in HJ. destruct (HJ c Hc) as [Hb _].
    by apply m_fence_None, strip_prefix_other. }
  assert (optional_LF (J ++ FENCE) = 0%nat) as Hopt.
  { destruct J as [|c J]; [reflexivity|]. apply Forall_cons in HJ as [[_ Hc] _].
    cbn -[N.eqb]. destruct (N.eqb_spec c LF); [congruence|done]. }
  unfold strip_fences, replace_all.
  assert (replace_from m_fence_json [] 0 (FENCE ++ JSON_TAG ++ J ++ FENCE) = J ++ FENCE) as ->.
  { change (FENCE ++ JSON_TAG ++ J ++ FENCE)
      with (BACKTICK :: BACKTICK :: BACKTICK :: 106%N :: 115%N :: 111%N :: 110%N
              :: (J ++ FENCE)).
    cbn [replace_from].
    assert (m_fence_json
              (BACKTICK :: BACKTICK :: BACKTICK :: 106%N :: 115%N :: 111%N :: 110%N
                 :: (J ++ FENCE)) = Some 7%nat) as ->.
    { unfold m_fence_json.
      change (strip_prefix (FENCE ++ JSON_TAG)
                (BACKTICK :: BACKTICK :: BACKTICK :: 106%N :: 115%N :: 111%N :: 110%N
                   :: (J ++ FENCE)))
        with (Some (J ++ FENCE)).
      cbn [mbind option_bind]. by rewrite Hopt. }
    cbn [replace_from app].
    rewrite (replace_from_app_none _ _ _ _ Hjson). by rewrite app_nil_r || reflexivity. }
  rewrite (replace_from_app_none _ _ _ _ Hplain). cbn. by rewrite app_nil_r.
Qed.

(** X11. Fence markers on the line of the JSON text are recovered by the
    second attempt: a response that is the marker, [json], a JSON text [J] of
    the value [v] on one line and the marker again is no fenced block for the
    first attempt, which parses the whole response and fails on its
    backquotes; research parsing then removes the markers and returns
    exactly [v]. *)
Theorem inline_fence_is_recovered (J : jsstring) (v : value) :
  Forall (λ c, c ≠ BACKTICK ∧ c ≠ LF) J →
  JSON_parse (trim (FENCE ++ JSON_TAG ++ J ++ FENCE)) = None →
  JSON_parse (trim J) = Some v →
  parse_research JSON_parse (VStr (FENCE ++ JSON_TAG ++ J ++ FENCE)) = Ok v.
Proof.
  intros HJ Hwhole Hparse.
  unfold parse_research, research_fenced, research_cleaned, JSON_parse_or_throw.
  cbn [as_string mbind result_bind].
  rewrite (match_fence_inline J HJ). cbn [default from_option id].
  rewrite Hwhole. cbn [try_catch].
  rewrite (strip_fences_inline J HJ), Hparse. reflexivity.
Qed.

Lemma fence_at_includes s captured : fence_at s = Some captured → includes FENCE s = true.
Proof.
  unfold fence_at, fence_open, includes. destruct s as [|c s]; [done|].
  rewrite split_first_cons. destruct (strip_prefix FENCE (c :: s)); done.
Qed.

Lemma match_fence_needs_fence s : includes FENCE s = false → match_fence s = None.
Proof.
  induction s as [|c s IH]; intros H; [done|].
  cbn [match_fence]. destruct (fence_at (c :: s)) as [captured|] eqn:Hat.
  - apply fence_at_includes in Hat. congruence.
  - apply includes_cons in H as [_ H]. by apply IH.
Qed.

(** X12. A response without fence markers is parsed as it stands: when the
    response holds no run of three backquotes and is, once trimmed, a JSON
    text of the value [v], research parsing returns exactly [v]. *)
Theorem unfenced_json_is_parsed (text : jsstring) (v : value) :
  includes FENCE text = false →
  JSON_parse (trim text) = Some v →
  parse_research JSON_parse (VStr text) = Ok v.
Proof.
  intros Hfence Hparse.
  unfold parse_research, research_fenced, JSON_parse_or_throw.
  cbn [as_string mbind result_bind].
  rewrite (match_fence_needs_fence _ Hfence). cbn [default from_option id].
  by rewrite Hparse.
Qed.

End CleanupFacts.

(** ** Research generation *)

Section ResearchFacts.

Import ScriptGenerator.

Variable JSON_parse : jsstring → option value.
Variable W : Type.
Variable axios_post : prompt → W → W * remote value.
Variable toISOString : W → value.

Lemma read_error k o e : read k o = Throw e → e = TypeError.
Proof. unfold read. destruct (get k o); [done|]. by intros [= <-]. Qed.

Lemma read0_error o e : read0 o = Throw e → e = TypeError.
Proof.
  destruct o as [| | | | [|c s] | [|x l] | fs]; cbn; try done; by intros [= <-].
Qed.

Lemma candidate_text_error data e : candidate_text data = Throw e → e = TypeError.
Proof.
  unfold candidate_text.
  destruct (read (lit "candidates") data) as [c|] eqn:H1; cbn [mbind result_bind];
    [|intros [= <-]; by eapply read_error].
  destruct (read0 c) as [c0|] eqn:H2; cbn [mbind result_bind];
    [|intros [= <-]; by eapply read0_error].
  destruct (read (lit "content") c0) as [content|] eqn:H3; cbn [mbind result_bind];
    [|intros [= <-]; by eapply read_error].
  destruct (read (lit "parts") content) as [parts|] eqn:H4; cbn [mbind result_bind];
    [|intros [= <-]; by eapply read_error].
  destruct (read0 parts) as [p0|] eqn:H5; cbn [mbind result_bind];
    [|intros [= <-]; by eapply read0_error].
  apply read_error.
Qed.

(** X13. [generateBrandResearch] calls the text model once.  Whatever text
    the model returns, it succeeds, with what research parsing makes of the
    text; it fails only when the call is rejected, with that rejection, or
    when the response has no text at [candidates[0].content.parts[0].text],
    with a type error. *)
Theorem research_fails_only_on_transport brandInfo model (s : sys W) :
  let run := generateBrandResearch JSON_parse W axios_post toISOString brandInfo model s in
  calls run.1 = calls s ++ [TextModel (ResearchPrompt brandInfo)]
  ∧ match (axios_post (ResearchPrompt brandInfo) (world s)).2 with
    | Reject st => run.2 = Throw (Rejected st)
    | Answer data =>
        match candidate_text data with
        | Ok text =>
            ∃ found stamp,
              parse_research JSON_parse text = Ok found
              ∧ run.2 = Ok {| research := found;
                              metadata := VObj [(lit "model", model);
                                                (lit "timestamp", stamp);
                                                (lit "mcp", VBool true)] |}
        | Throw _ => run.2 = Throw TypeError
        end
    end.
Proof.
  cbv zeta. unfold generateBrandResearch, perform.
  destruct (axios_post (ResearchPrompt brandInfo) (world s)) as [w1 reply].
  cbn [fst snd calls world]. split; [done|]. rewrite try_catch_rethrow.
  unfold research_of_reply.
  destruct reply as [data|st]; cbn [of_remote mbind result_bind]; [|done].
  destruct (candidate_text data) as [text|e] eqn:Htext; cbn [mbind result_bind].
  - destruct (parse_research_total JSON_parse text) as [found Hfound].
    exists found. eexists. rewrite Hfound. done.
  - by rewrite (candidate_text_error _ _ Htext).
Qed.

End ResearchFacts.

(** ** Polling *)

Section PollingFacts.

Import MediaGenerator.

Variable W : Type.
Variable now : W → Z.
Variable sleep : Z → W → W.
Variable axios_get : value → W → W * remote value.

Local Abbreviation poll_loop := (MediaGenerator.poll_loop W now sleep axios_get).
Local Abbreviation pollStatus := (MediaGenerator.pollStatus W now sleep axios_get).
Local Abbreviation status_check := (MediaGenerator.status_check W now axios_get).
Local Abbreviation sleeping := (MediaGenerator.sleeping W sleep).
Local Abbreviation timer_waits := (Spec.timer_waits now sleep).
Local Abbreviation clock_monotone := (Spec.clock_monotone now axios_get).
Local Abbreviation never_settles := (Spec.never_settles axios_get).
Local Abbreviation turns_left := (Spec.turns_left now).
Local Abbreviation next_turn := (Spec.next_turn now sleep axios_get).

Lemma status_check_calls u (s : sys W) :
  calls (status_check u s).1 = calls s ++ [StatusCheck u (now (world s))].
Proof. unfold MediaGenerator.status_check, perform. destruct (axios_get u (world s)). reflexivity. Qed.

Lemma status_check_world u (s : sys W) :
  world (status_check u s).1 = (axios_get u (world s)).1.
Proof. unfold MediaGenerator.status_check, perform. destruct (axios_get u (world s)). reflexivity. Qed.

Lemma status_check_answer u (s : sys W) :
  (status_check u s).2 = (axios_get u (world s)).2.
Proof. unfold MediaGenerator.status_check, perform. destruct (axios_get u (world s)). reflexivity. Qed.

Lemma poll_loop_step fuel u interval timeout start (s : sys W) :
  poll_loop (S fuel) u interval timeout start s =
    if now (world s) - start <? timeout then
      match check_status (of_remote (status_check u s).2) with
      | Done outcome => Some ((status_check u s).1, outcome)
      | Again => poll_loop fuel u interval timeout start (sleeping interval (status_check u s).1)
      end
    else Some (s, Throw RequestTimedOut).
Proof. cbn [MediaGenerator.poll_loop]. destruct (status_check u s). reflexivity. Qed.

(** A status check never produces the timeout error itself. *)
Lemma check_status_not_timeout (r : remote value) :
  check_status (of_remote r) ≠ Done (Throw RequestTimedOut).
Proof.
  unfold check_status. destruct r as [data|st]; cbn [of_remote mbind result_bind]; [|done].
  unfold read. destruct (get (lit "status") data) as [st|]; cbn [mbind result_bind]; [|done].
  repeat case_match; done.
Qed.

Lemma check_status_completed (r : remote value) data :
  check_status (of_remote r) = Done (Ok data) →
  r = Answer data ∧ ∃ st, get (lit "status") data = Some st ∧ is_str COMPLETED st = true.
Proof.
  unfold check_status. destruct r as [d|st]; cbn [of_remote mbind result_bind]; [|done].
  unfold read. destruct (get (lit "status") d) as [st|] eqn:Hst; cbn [mbind result_bind]; [|done].
  destruct (is_str COMPLETED st) eqn:Hc; [|case_match; done].
  intros [= <-]. eauto.
Qed.

(** The timeout error is raised only once the time allowed has elapsed,
    whatever the status source does. *)
Lemma poll_loop_timeout_is_late fuel u interval timeout start (s s' : sys W) :
  poll_loop fuel u interval timeout start s = Some (s', Throw RequestTimedOut) →
  timeout ≤ now (world s') - start.
Proof.
  revert s. induction fuel as [|fuel IH]; intros s; [done|].
  rewrite poll_loop_step.
  destruct (Z.ltb_spec (now (world s) - start) timeout) as [Hlt|Hge].
  - destruct (check_status _) as [outcome|] eqn:Hc.
    + intros [= <- ->]. rewrite status_check_answer in Hc.
      by apply check_status_not_timeout in Hc.
    + apply IH.
  - intros [= <-]. done.
Qed.

Lemma turns_left_decreases u interval timeout start (s : sys W) :
  timer_waits → clock_monotone → 0 < interval →
  now (world s) - start < timeout →
  (turns_left interval timeout start (sleeping interval (status_check u s).1)
   < turns_left interval timeout start s)%nat.
Proof.
  intros Htimer Hclock Hpos Hlt. unfold Spec.turns_left.
  cbn [MediaGenerator.sleeping world]. rewrite status_check_world.
  specialize (Htimer interval (axios_get u (world s)).1).
  specialize (Hclock u (world s)).
  set (t := now (world s)) in *.
  set (t2 := now (sleep interval (axios_get u (world s)).1)) in *.
  assert ((timeout - (t2 - start) + interval - 1) / interval
          ≤ (timeout - (t - start) + interval - 1 + (-1) * interval) / interval) as Hle
    by (apply Z.div_le_mono; lia).
  rewrite Z.div_add in Hle by lia.
  assert (1 ≤ (timeout - (t - start) + interval - 1) / interval)
    by (apply Z.div_le_lower_bound; lia).
  lia.
Qed.

(** With a positive interval the loop ends, whatever the status source:
    enough fuel gives a result. *)
Lemma poll_loop_total u interval timeout start :
  timer_waits → clock_monotone → 0 < interval →
  ∀ (n : nat) (s : sys W),
    turns_left interval timeout start s = n →
    ∀ fuel, (n < fuel)%nat →
      ∃ s' r, poll_loop fuel u interval timeout start s = Some (s', r).
Proof.
  intros Htimer Hclock Hpos n.
  induction n as [n IH] using lt_wf_ind. intros s Hn [|fuel] Hfuel; [lia|].
  rewrite poll_loop_step.
  destruct (Z.ltb_spec (now (world s) - start) timeout) as [Hlt|Hge]; [|eauto].
  destruct (check_status _); [eauto|].
  pose proof (turns_left_decreases u interval timeout start s Htimer Hclock Hpos Hlt).
  eapply IH; [|reflexivity|]; lia.
Qed.

(** Against a source that never settles, the loop ends with the timeout
    error, at the first turn at which the time allowed has elapsed. *)
Lemma poll_loop_times_out u interval timeout start :
  timer_waits → clock_monotone → 0 < interval → never_settles u →
  ∀ (n : nat) (s : sys W),
    turns_left interval timeout start s = n →
    ∃ s' checks,
      (∀ fuel, (n < fuel)%nat →
         poll_loop fuel u interval timeout start s = Some (s', Throw RequestTimedOut))
      ∧ timeout ≤ now (world s') - start
      ∧ calls s' = calls s ++ checks
      ∧ Forall (check_before u (start + timeout)) checks.
Proof.
  intros Htimer Hclock Hpos Hnever n.
  induction n as [n IH] using lt_wf_ind. intros s Hn.
  destruct (Z.ltb_spec (now (world s) - start) timeout) as [Hlt|Hge].
  - pose proof (turns_left_decreases u interval timeout start s Htimer Hclock Hpos Hlt) as Hdec.
    set (s2 := sleeping interval (status_check u s).1) in *.
    destruct (IH (turns_left interval timeout start s2) ltac:(lia) s2 eq_refl)
      as (s' & checks & Hrun & Hlate & Hcalls & Hchecks).
    exists s', (StatusCheck u (now (world s)) :: checks). split; [|split; [done|split]].
    + intros [|fuel] Hfuel; [lia|]. rewrite poll_loop_step.
      destruct (Z.ltb_spec (now (world s) - start) timeout); [|lia].
      rewrite status_check_answer, Hnever. apply Hrun. lia.
    + rewrite Hcalls. subst s2. cbn [MediaGenerator.sleeping calls].
      rewrite status_check_calls, <- app_assoc. reflexivity.
    + constructor; [|done]. exists (now (world s)). split; [done|lia].
  - exists s, []. split; [|split; [lia|split; [by rewrite app_nil_r|constructor]]].
    intros [|fuel] Hfuel; [lia|]. rewrite poll_loop_step.
    destruct (Z.ltb_spec (now (world s) - start) timeout); [lia|done].
Qed.


(** With the default interval and timeout, sixteen turns are enough. *)
Lemma pollStatus_default_total u (s : sys W) fuel :
  timer_waits → clock_monotone → (15 < fuel)%nat →
  ∃ s' r, pollStatus fuel u DEFAULT_INTERVAL DEFAULT_TIMEOUT s = Some (s', r).
Proof.
  intros Htimer Hclock Hfuel.
  eapply (poll_loop_total u DEFAULT_INTERVAL DEFAULT_TIMEOUT (now (world s)));
    [done|done|done|reflexivity|].
  unfold Spec.turns_left.
  replace (DEFAULT_TIMEOUT - (now (world s) - now (world s)) + DEFAULT_INTERVAL - 1)
    with 319999 by (unfold DEFAULT_TIMEOUT, DEFAULT_INTERVAL; lia).
  unfold DEFAULT_INTERVAL. change (319999 / 20000) with 15. lia.
Qed.

(** Whatever the status source, [pollStatus] does not fail with the timeout
    error while the time elapsed is below the timeout. *)
Lemma poll_timeout_is_late fuel u interval timeout (s s' : sys W) :
  pollStatus fuel u interval timeout s = Some (s', Throw RequestTimedOut) →
  timeout ≤ now (world s') - now (world s).
Proof. apply poll_loop_timeout_is_late. Qed.

Lemma next_turn_calls u interval (s : sys W) :
  calls (next_turn u interval s) = calls s ++ [StatusCheck u (now (world s))].
Proof. unfold Spec.next_turn. cbn [MediaGenerator.sleeping calls]. apply status_check_calls. Qed.

Lemma next_turn_later u interval (s : sys W) :
  timer_waits → clock_monotone →
  now (world s) + interval ≤ now (world (next_turn u interval s)).
Proof.
  intros Htimer Hclock. unfold Spec.next_turn. cbn [MediaGenerator.sleeping world].
  rewrite status_check_world.
  specialize (Htimer interval (axios_get u (world s)).1).
  specialize (Hclock u (world s)). lia.
Qed.


(** The bound on the number of turns does not change a result. *)
Lemma poll_loop_fuel fuel1 fuel2 u interval timeout start (s : sys W) out1 out2 :
  poll_loop fuel1 u interval timeout start s = Some out1 →
  poll_loop fuel2 u interval timeout start s = Some out2 →
  out1 = out2.
Proof.
  revert fuel2 s. induction fuel1 as [|fuel1 IH]; intros [|fuel2] s; try done.
  rewrite !poll_loop_step.
  destruct (now (world s) - start <? timeout); [|congruence].
  destruct (check_status _); [congruence|]. apply IH.
Qed.

(** What a status check that ends the polling can be. *)
Lemma check_status_done (r : remote value) outcome :
  check_status (of_remote r) = Done outcome →
  match outcome with
  | Ok data =>
      r = Answer data ∧ is_str COMPLETED (get_opt (lit "status") data) = true
  | Throw (RequestFailed detail) =>
      truthy detail = true
      ∧ ∃ data,
          r = Answer data
          ∧ is_str FAILED (get_opt (lit "status") data) = true
          ∧ detail = or_else (get_opt (lit "error") data) (VStr (lit "Unknown error"))
  | Throw (Rejected st) => r = Reject st
  | Throw TypeError => ∃ data, r = Answer data ∧ get (lit "status") data = None
  | Throw _ => False
  end.
Proof.
  unfold check_status. destruct r as [d|st]; cbn [of_remote mbind result_bind].
  2: { intros [= <-]. reflexivity. }
  unfold read, get_opt.
  destruct (get (lit "status") d) as [st|] eqn:Hst; cbn [mbind result_bind].
  2: { intros [= <-]. eauto. }
  destruct (is_str COMPLETED st) eqn:Hc.
  { intros [= <-]. rewrite Hst. done. }
  destruct (is_str FAILED st) eqn:Hf; [|done].
  intros [= <-]. split.
  - unfold or_else.
    destruct (truthy (default VUndefined (get (lit "error") d))) eqn:Ht; [done|reflexivity].
  - exists d. rewrite Hst. done.
Qed.

Lemma poll_loop_outcome fuel u interval timeout start (s s' : sys W) r :
  poll_loop fuel u interval timeout start s = Some (s', r) →
  match r with
  | Ok data =>
      (∃ w, axios_get u w = (world s', Answer data))
      ∧ is_str COMPLETED (get_opt (lit "status") data) = true
  | Throw RequestTimedOut => timeout ≤ now (world s') - start
  | Throw (RequestFailed detail) =>
      truthy detail = true
      ∧ ∃ w data,
          axios_get u w = (world s', Answer data)
          ∧ is_str FAILED (get_opt (lit "status") data) = true
          ∧ detail = or_else (get_opt (lit "error") data) (VStr (lit "Unknown error"))
  | Throw (Rejected st) => ∃ w, axios_get u w = (world s', Reject st)
  | Throw TypeError =>
      ∃ w data, axios_get u w = (world s', Answer data) ∧ get (lit "status") data = None
  | Throw _ => False
  end.
Proof.
  revert s. induction fuel as [|fuel IH]; intros s; [done|].
  rewrite poll_loop_step.
  destruct (Z.ltb_spec (now (world s) - start) timeout) as [Hlt|Hge].
  - destruct (check_status _) as [outcome|] eqn:Hc; [|apply IH].
    intros [= <- <-]. apply check_status_done in Hc.
    rewrite status_check_answer in Hc. rewrite status_check_world.
    assert (∀ a, (axios_get u (world s)).2 = a →
                 axios_get u (world s) = ((axios_get u (world s)).1, a)) as Hpair
      by (intros a <-; apply surjective_pairing).
    destruct outcome as [data|e].
    + destruct Hc as [Hr Hst]. eauto.
    + destruct e; try done.
      * destruct Hc as (data & Hr & Hnone). eauto.
      * eauto.
      * destruct Hc as (Ht & data & Hr & Hst & Hd). eauto 8.
  - intros [= <- <-]. done.
Qed.

(** X1. Whatever the status source does, [pollStatus] ends in one of five
    ways: it returns the answer of a status check that reported [COMPLETED];
    it fails with [Request failed] after a check that reported [FAILED], with
    the error detail of that answer or, when the detail is missing or empty,
    with [Unknown error]; it passes on the rejection of a status request; it
    fails on an answer that is [null]; or it fails with the timeout error,
    the time allowed having elapsed.  The answer in question is that of the
    last check made. *)
Theorem poll_outcome fuel u interval timeout (s s' : sys W) r :
  pollStatus fuel u interval timeout s = Some (s', r) →
  match r with
  | Ok data =>
      (∃ w, axios_get u w = (world s', Answer data))
      ∧ is_str COMPLETED (get_opt (lit "status") data) = true
  | Throw RequestTimedOut => timeout ≤ now (world s') - now (world s)
  | Throw (RequestFailed detail) =>
      truthy detail = true
      ∧ ∃ w data,
          axios_get u w = (world s', Answer data)
          ∧ is_str FAILED (get_opt (lit "status") data) = true
          ∧ detail = or_else (get_opt (lit "error") data) (VStr (lit "Unknown error"))
  | Throw (Rejected st) => ∃ w, axios_get u w = (world s', Reject st)
  | Throw TypeError =>
      ∃ w data, axios_get u w = (world s', Answer data) ∧ get (lit "status") data = None
  | Throw _ => False
  end.
Proof. apply poll_loop_outcome. Qed.

Lemma turns_left_positive interval timeout start (s : sys W) :
  0 < interval → now (world s) - start < timeout →
  (1 ≤ turns_left interval timeout start s)%nat.
Proof.
  intros Hpos Hlt. unfold Spec.turns_left.
  assert (1 ≤ (timeout - (now (world s) - start) + interval - 1) / interval)
    by (apply Z.div_le_lower_bound; lia).
  lia.
Qed.

(** The checks of a run of the loop: there are no more of them than turns
    are left, and each is issued before the deadline. *)
Lemma poll_loop_checks fuel u interval timeout start (s s' : sys W) r :
  timer_waits → clock_monotone → 0 < interval →
  poll_loop fuel u interval timeout start s = Some (s', r) →
  ∃ checks,
    calls s' = calls s ++ checks
    ∧ (length checks ≤ turns_left interval timeout start s)%nat
    ∧ Forall (check_before u (start + timeout)) checks.
Proof.
  intros Htimer Hclock Hpos. revert s. induction fuel as [|fuel IH]; intros s; [done|].
  rewrite poll_loop_step.
  destruct (Z.ltb_spec (now (world s) - start) timeout) as [Hlt|Hge].
  - pose proof (turns_left_positive interval timeout start s Hpos Hlt) as Hone.
    assert (check_before u (start + timeout) (StatusCheck u (now (world s)))) as Hbefore
      by (exists (now (world s)); split; [done|lia]).
    destruct (check_status _) as [outcome|] eqn:Hc.
    + intros [= <- <-]. exists [StatusCheck u (now (world s))].
      split; [apply status_check_calls|]. split; [done|]. by constructor.
    + intros Hrun. apply IH in Hrun as (checks & Hcalls & Hlen & Hchecks).
      pose proof (turns_left_decreases u interval timeout start s Htimer Hclock Hpos Hlt).
      exists (StatusCheck u (now (world s)) :: checks). split; [|split].
      * rewrite Hcalls. cbn [MediaGenerator.sleeping calls].
        rewrite status_check_calls, <- app_assoc. reflexivity.
      * cbn [length]. lia.
      * by constructor.
  - intros [= <- <-]. exists []. split; [by rewrite app_nil_r|]. split; [cbn; lia|constructor].
Qed.

(** X2. With a positive interval [pollStatus] ends, whatever the status
    source does: it makes at most [ceil (timeout / interval)] status checks
    (none at all when the timeout is not positive), each of them issued
    before the deadline, and the outcome does not depend on the bound put on
    the number of turns once that bound is large enough. *)
Theorem poll_makes_bounded_checks u interval timeout (s : sys W) :
  timer_waits → clock_monotone → 0 < interval →
  ∃ s' r checks,
    (∀ fuel, (Z.to_nat ((timeout + interval - 1) / interval) < fuel)%nat →
       pollStatus fuel u interval timeout s = Some (s', r))
    ∧ calls s' = calls s ++ checks
    ∧ (length checks ≤ Z.to_nat ((timeout + interval - 1) / interval))%nat
    ∧ Forall (check_before u (now (world s) + timeout)) checks.
Proof.
  intros Htimer Hclock Hpos.
  set (bound := Z.to_nat ((timeout + interval - 1) / interval)).
  assert (turns_left interval timeout (now (world s)) s = bound) as Hturns.
  { unfold Spec.turns_left, bound.
    replace (timeout - (now (world s) - now (world s)) + interval - 1)
      with (timeout + interval - 1) by lia. done. }
  destruct (poll_loop_total u interval timeout (now (world s)) Htimer Hclock Hpos
              bound s Hturns (S bound) ltac:(lia)) as (s' & r & Hrun).
  destruct (poll_loop_checks _ _ _ _ _ _ _ _ Htimer Hclock Hpos Hrun)
    as (checks & Hcalls & Hlen & Hchecks).
  exists s', r, checks. split; [|split; [done|split; [lia|done]]].
  intros fuel Hfuel.
  destruct (poll_loop_total u interval timeout (now (world s)) Htimer Hclock Hpos
              bound s Hturns fuel Hfuel) as (s2 & r2 & Hrun2).
  unfold MediaGenerator.pollStatus. rewrite Hrun2.
  by rewrite (poll_loop_fuel _ _ _ _ _ _ _ _ _ Hrun Hrun2).
Qed.

Lemma poll_loop_spaced fuel u interval timeout start earliest (s s' : sys W) r :
  timer_waits → clock_monotone →
  earliest ≤ now (world s) →
  poll_loop fuel u interval timeout start s = Some (s', r) →
  ∃ checks, calls s' = calls s ++ checks ∧ spaced interval earliest checks.
Proof.
  intros Htimer Hclock. revert s earliest.
  induction fuel as [|fuel IH]; intros s earliest Hearly; [done|].
  rewrite poll_loop_step.
  destruct (now (world s) - start <? timeout).
  - destruct (check_status _) as [outcome|] eqn:Hc.
    + intros [= <- <-]. exists [StatusCheck u (now (world s))].
      split; [apply status_check_calls|]. cbn. done.
    + intros Hrun.
      apply (IH _ (now (world s) + interval)) in Hrun as (checks & Hcalls & Hsp).
      2: { apply (next_turn_later u interval s Htimer Hclock). }
      exists (StatusCheck u (now (world s)) :: checks). split.
      * rewrite Hcalls. cbn [MediaGenerator.sleeping calls].
        rewrite status_check_calls, <- app_assoc. reflexivity.
      * cbn [spaced]. done.
  - intros [= <- <-]. exists []. split; [by rewrite app_nil_r|done].
Qed.

(** X3. Whatever the status source does, the calls [pollStatus] makes are
    status checks, the first issued when polling starts at the earliest and
    every other at least [interval] after the one before. *)
Theorem poll_checks_are_spaced fuel u interval timeout (s s' : sys W) r :
  timer_waits → clock_monotone →
  pollStatus fuel u interval timeout s = Some (s', r) →
  ∃ checks, calls s' = calls s ++ checks ∧ spaced interval (now (world s)) checks.
Proof.
  intros Htimer Hclock. by apply poll_loop_spaced.
Qed.

End PollingFacts.

(** ** The request executor *)

Section ExecutorFacts.

Import MediaGenerator.

Variable W : Type.
Variable now : W → Z.
Variable sleep : Z → W → W.
Variable axios_get : value → W → W * remote value.
Variable fal_request : value → value → W → W * remote value.
Variable fal_subscribe : value → value → W → W * remote value.

Local Abbreviation poll_loop := (MediaGenerator.poll_loop W now sleep axios_get).
Local Abbreviation pollStatus := (MediaGenerator.pollStatus W now sleep axios_get).
Local Abbreviation settle := (MediaGenerator.settle W now sleep axios_get).
Local Abbreviation immediate :=
  (MediaGenerator.immediate W now sleep axios_get fal_request).
Local Abbreviation queued :=
  (MediaGenerator.queued W now sleep axios_get fal_subscribe).
Local Abbreviation executeModelRequest :=
  (MediaGenerator.executeModelRequest W now sleep axios_get fal_request fal_subscribe).

(** Polling makes status checks and no other call; a value it returns is a
    [COMPLETED] answer of the status endpoint. *)
Lemma poll_loop_calls fuel u interval timeout start (s s' : sys W) r :
  poll_loop fuel u interval timeout start s = Some (s', r) →
  (∃ checks, calls s' = calls s ++ checks ∧ Forall is_status_check checks)
  ∧ (∀ data, r = Ok data → ∃ w, (axios_get u w).2 = Answer data).
Proof.
  revert s. induction fuel as [|fuel IH]; intros s; [done|].
  rewrite poll_loop_step.
  destruct (now (world s) - start <? timeout).
  - destruct (check_status _) as [outcome|] eqn:Hc.
    + intros [= <- <-]. split.
      * exists [StatusCheck u (now (world s))].
        split; [apply status_check_calls | repeat constructor; by eexists _, _].
      * intros data ->. rewrite status_check_answer in Hc.
        apply check_status_completed in Hc as [Hc _]. eauto.
    + intros Hrun. apply IH in Hrun as [(checks & Hcalls & Hchecks) Hdata].
      split; [|done].
      exists (StatusCheck u (now (world s)) :: checks). split.
      * rewrite Hcalls. cbn [MediaGenerator.sleeping calls].
        rewrite status_check_calls, <- app_assoc. reflexivity.
      * constructor; [by eexists _, _|done].
  - intros [= <- <-]. split; [|done]. exists []. by rewrite app_nil_r.
Qed.

(** How a provider response is settled. *)
Lemma settle_spec fuel (r : remote value) (s s' : sys W) out :
  settle fuel (of_remote r) s = Some (s', out) →
  (∃ checks, calls s' = calls s ++ checks ∧ Forall is_status_check checks)
  ∧ (∀ v, out = Ok v →
       (∃ response finalStatus w,
           r = Answer response
           ∧ truthy (get_opt (lit "status_url") response) = true
           ∧ (axios_get (get_opt (lit "status_url") response) w).2 = Answer finalStatus
           ∧ v = normalized (get_opt (lit "output") finalStatus)
                   (get_opt (lit "request_id") response))
       ∨ (r = Answer v ∧ truthy (get_opt (lit "status_url") v) = false)).
Proof.
  unfold MediaGenerator.settle, read, get_opt.
  destruct r as [response|st]; cbn [of_remote mbind result_bind].
  2: { intros [= <- <-]. split; [|done]. exists []. by rewrite app_nil_r. }
  destruct (get (lit "status_url") response) as [url|] eqn:Hurl;
    cbn [mbind result_bind default from_option].
  2: { intros [= <- <-]. split; [|done]. exists []. by rewrite app_nil_r. }
  destruct (truthy url) eqn:Htruthy.
  - destruct (pollStatus fuel url DEFAULT_INTERVAL DEFAULT_TIMEOUT s)
      as [[s2 polled]|] eqn:Hpoll; cbn [mbind option_bind]; [|done].
    intros [= <- <-].
    apply poll_loop_calls in Hpoll as [Hcalls Hdata]. split; [done|].
    intros v Hv. left.
    destruct polled as [finalStatus|]; cbn [mbind result_bind] in Hv; [|done].
    destruct (Hdata finalStatus eq_refl) as [w Hw].
    destruct (get (lit "output") finalStatus) as [output|] eqn:Hout;
      cbn [mbind result_bind] in Hv; [|done].
    destruct (get (lit "request_id") response) as [rid|] eqn:Hrid;
      cbn [mbind result_bind] in Hv; [|done].
    injection Hv as <-.
    exists response, finalStatus, w. by rewrite Hurl, Hout, Hrid.
  - intros [= <- <-]. split; [exists []; by rewrite app_nil_r|].
    intros v [= <-]. right. by rewrite Hurl.
Qed.

Lemma immediate_calls fuel m i (s s1 : sys W) r1 :
  immediate fuel m i s = Some (s1, r1) →
  ∃ checks, calls s1 = calls s ++ FalRequest m i :: checks
            ∧ Forall is_status_check checks.
Proof.
  unfold MediaGenerator.immediate, perform.
  destruct (fal_request m i (world s)) as [w1 r]. intros Hs.
  apply settle_spec in Hs as [(checks & Hcalls & Hchecks) _].
  exists checks. cbn [calls] in Hcalls. by rewrite Hcalls, <- app_assoc.
Qed.

Lemma queued_calls fuel m i (s s1 : sys W) r1 :
  queued fuel m i s = Some (s1, r1) →
  ∃ checks, calls s1 = calls s ++ FalSubscribe m i :: checks
            ∧ Forall is_status_check checks.
Proof.
  unfold MediaGenerator.queued, perform.
  destruct (fal_subscribe m i (world s)) as [w1 r]. intros Hs.
  apply settle_spec in Hs as [(checks & Hcalls & Hchecks) _].
  exists checks. cbn [calls] in Hcalls. by rewrite Hcalls, <- app_assoc.
Qed.

Lemma status_check_not_subscribe checks :
  Forall is_status_check checks → ¬ Exists is_subscribe checks.
Proof.
  intros Hall Hex. apply Exists_exists in Hex as (c & Hin & m & i & ->).
  rewrite Forall_forall in Hall. destruct (Hall _ Hin) as (u & t & [=]).
Qed.

(** Enough fuel gives the result: with the default polling parameters sixteen
    turns per poll suffice. *)
Lemma settle_total fuel (r : result value) (s : sys W) :
  Spec.timer_waits now sleep → Spec.clock_monotone now axios_get → (15 < fuel)%nat →
  ∃ s' out, settle fuel r s = Some (s', out).
Proof.
  intros Htimer Hclock Hfuel. unfold MediaGenerator.settle.
  destruct (_ ≫= _) as [[response url]|]; [|eauto].
  destruct (truthy url); [|eauto].
  destruct (pollStatus_default_total W now sleep axios_get url s fuel Htimer Hclock Hfuel)
    as (s' & polled & ->).
  cbn [mbind option_bind]. eauto.
Qed.

Lemma executeModelRequest_total fuel m i (s : sys W) :
  Spec.timer_waits now sleep → Spec.clock_monotone now axios_get → (15 < fuel)%nat →
  ∃ s' r, executeModelRequest fuel m i s = Some (s', r).
Proof.
  intros Htimer Hclock Hfuel.
  unfold MediaGenerator.executeModelRequest, MediaGenerator.immediate,
    MediaGenerator.queued, perform.
  destruct (fal_request m i (world s)) as [w1 r1].
  destruct (settle_total fuel (of_remote r1)
              {| world := w1; calls := calls s ++ [FalRequest m i] |} Htimer Hclock Hfuel)
    as (s1 & out & ->).
  destruct out; [eauto|].
  destruct (fal_subscribe m i (world s1)) as [w2 r2].
  apply settle_total; done.
Qed.

(** The two paths of [executeModelRequest] and the calls they make. *)
Lemma executeModelRequest_paths fuel m i (s s' : sys W) r :
  executeModelRequest fuel m i s = Some (s', r) →
  ∃ s1 r1 made,
    immediate fuel m i s = Some (s1, r1)
    ∧ calls s' = calls s ++ made
    ∧ (Exists is_subscribe made ↔ ∃ error, r1 = Throw error)
    ∧ (∀ response, r1 = Ok response → s' = s1 ∧ r = Ok response)
    ∧ (∀ error, r1 = Throw error → queued fuel m i s1 = Some (s', r)).
Proof.
  unfold MediaGenerator.executeModelRequest.
  destruct (immediate fuel m i s) as [[s1 r1]|] eqn:Him; [|done].
  destruct (immediate_calls _ _ _ _ _ _ Him) as (checks & Hcalls & Hchecks).
  destruct r1 as [response|error].
  - intros [= <- <-]. exists s1, (Ok response), (FalRequest m i :: checks).
    split; [done|]. split; [done|]. split; [|split; [intros ? [= <-]; done|done]].
    split; [|intros [? [=]]].
    intros Hex. apply Exists_cons in Hex as [(? & ? & [=])|Hex].
    by apply status_check_not_subscribe in Hex.
  - intros Hq. destruct (queued_calls _ _ _ _ _ _ Hq) as (checks' & Hcalls' & Hchecks').
    exists s1, (Throw error), (FalRequest m i :: checks ++ FalSubscribe m i :: checks').
    split; [done|]. split.
    { rewrite Hcalls', Hcalls, <- app_assoc. reflexivity. }
    split; [|split; [done|intros ? _; done]].
    split; [eauto|]. intros _. apply Exists_cons_tl, Exists_app. right.
    apply Exists_cons_hd. by eexists _, _.
Qed.

(** Where a successful result comes from. *)
Lemma executeModelRequest_result fuel m i (s s' : sys W) v :
  executeModelRequest fuel m i s = Some (s', Ok v) →
  (∃ response finalStatus w1 w2,
      ((fal_request m i w1).2 = Answer response
       ∨ (fal_subscribe m i w1).2 = Answer response)
      ∧ truthy (get_opt (lit "status_url") response) = true
      ∧ (axios_get (get_opt (lit "status_url") response) w2).2 = Answer finalStatus
      ∧ v = normalized (get_opt (lit "output") finalStatus)
              (get_opt (lit "request_id") response))
  ∨ (∃ w1,
      ((fal_request m i w1).2 = Answer v ∨ (fal_subscribe m i w1).2 = Answer v)
      ∧ truthy (get_opt (lit "status_url") v) = false).
Proof.
  unfold MediaGenerator.executeModelRequest.
  destruct (immediate fuel m i s) as [[s1 r1]|] eqn:Him; [|done].
  assert (∀ (f : value → value → W → W * remote value) c (s0 s2 : sys W),
            (let '(s3, r) := perform c (f m i) s0 in settle fuel (of_remote r) s3)
            = Some (s2, Ok v) →
            (∃ response finalStatus w1 w2,
                (f m i w1).2 = Answer response
                ∧ truthy (get_opt (lit "status_url") response) = true
                ∧ (axios_get (get_opt (lit "status_url") response) w2).2
                  = Answer finalStatus
                ∧ v = normalized (get_opt (lit "output") finalStatus)
                        (get_opt (lit "request_id") response))
            ∨ (∃ w1, (f m i w1).2 = Answer v
                     ∧ truthy (get_opt (lit "status_url") v) = false)) as Hpath.
  { intros f c s0 s2. unfold perform.
    destruct (f m i (world s0)) as [w1 r0] eqn:Hf. intros Hs.
    apply settle_spec in Hs as [_ Hv].
    destruct (Hv v eq_refl) as [(response & finalStatus & w2 & -> & Hurl & Hget & ->)
                               |[-> Hurl]].
    - left. exists response, finalStatus, (world s0), w2. by rewrite Hf.
    - right. exists (world s0). by rewrite Hf. }
  destruct r1 as [response|error].
  - intros [= <- <-].
    destruct (Hpath _ _ _ _ Him)
      as [(resp & fin & w1 & w2 & H1 & H2 & H3 & H4)|(w1 & H1 & H2)];
      [left; exists resp, fin, w1, w2 | right; exists w1]; eauto 6.
  - intros Hq.
    destruct (Hpath _ _ _ _ Hq)
      as [(resp & fin & w1 & w2 & H1 & H2 & H3 & H4)|(w1 & H1 & H2)];
      [left; exists resp, fin, w1, w2 | right; exists w1]; eauto 6.
Qed.

(** A result without a [data] field is refused by [generateImage]: this is
    what becomes of a provider response returned as it is when it does not
    have the shape [{ data, requestId }]. *)
Lemma generateImage_needs_data ToString fuel prompt style mood specs (s s1 : sys W)
    v data :
  let fullPrompt :=
    ToString prompt ++ lit " Style: " ++ ToString (param style "photorealistic")
    ++ lit ". Mood: " ++ ToString (param mood "professional") ++ lit ". "
    ++ ToString (param specs "high quality, detailed") in
  executeModelRequest fuel MODEL_IMAGE (VObj [(lit "prompt", VStr fullPrompt)]) s
  = Some (s1, Ok v) →
  get (lit "data") v = Some data →
  truthy data = false →
  MediaGenerator.generateImage W now sleep axios_get fal_request fal_subscribe ToString
    fuel prompt style mood specs s
  = Some (s1, Throw (FailedToGenerateImage NoDataReceived)).
Proof.
  intros fullPrompt Hrun Hget Hdata. unfold MediaGenerator.generateImage.
  fold fullPrompt. rewrite Hrun. cbn [mbind option_bind result_bind].
  unfold read. rewrite Hget. cbn [mbind result_bind]. rewrite Hdata. reflexivity.
Qed.


(** C7, as amended. [executeModelRequest] returns, and a successful result
    is the record [{ data, requestId }] built from the output of the final
    status response and the request id of the provider response whenever that
    response carried a status handle, on the immediate and on the queued path
    alike; a provider response without a status handle is returned as it
    is. *)
Theorem result_is_normalized_or_raw fuel m i (s : sys W) :
  Spec.timer_waits now sleep → Spec.clock_monotone now axios_get → (15 < fuel)%nat →
  (∃ s' r, executeModelRequest fuel m i s = Some (s', r))
  ∧ (∀ s' v,
       executeModelRequest fuel m i s = Some (s', Ok v) →
       (∃ response finalStatus w1 w2,
           ((fal_request m i w1).2 = Answer response
            ∨ (fal_subscribe m i w1).2 = Answer response)
           ∧ truthy (get_opt (lit "status_url") response) = true
           ∧ (axios_get (get_opt (lit "status_url") response) w2).2 = Answer finalStatus
           ∧ v = normalized (get_opt (lit "output") finalStatus)
                   (get_opt (lit "request_id") response))
       ∨ (∃ w1,
           ((fal_request m i w1).2 = Answer v ∨ (fal_subscribe m i w1).2 = Answer v)
           ∧ truthy (get_opt (lit "status_url") v) = false)).
Proof.
  intros Htimer Hclock Hfuel. split.
  - by apply executeModelRequest_total.
  - apply executeModelRequest_result.
Qed.

Lemma check_before_is_status_check u deadline c :
  check_before u deadline c → is_status_check c.
Proof. intros (t & -> & _). by eexists _, _. Qed.

(** The status checks that settling a provider response takes: with the
    default interval and timeout there are fifteen at most. *)
Lemma settle_budget fuel (r : remote value) (s s' : sys W) out :
  Spec.timer_waits now sleep → Spec.clock_monotone now axios_get →
  settle fuel (of_remote r) s = Some (s', out) →
  ∃ checks,
    calls s' = calls s ++ checks
    ∧ Forall is_status_check checks ∧ (length checks ≤ 15)%nat.
Proof.
  intros Htimer Hclock. unfold MediaGenerator.settle.
  destruct (_ ≫= _) as [[response url]|].
  2: { intros [= <- <-]. exists []. rewrite app_nil_r. split; [done|]. split; [done|cbn; lia]. }
  destruct (truthy url).
  2: { intros [= <- <-]. exists []. rewrite app_nil_r. split; [done|]. split; [done|cbn; lia]. }
  destruct (pollStatus fuel url DEFAULT_INTERVAL DEFAULT_TIMEOUT s)
    as [[s2 polled]|] eqn:Hpoll; cbn [mbind option_bind]; [|done].
  intros [= <- <-].
  apply (poll_loop_checks W now sleep axios_get) in Hpoll
    as (checks & Hcalls & Hlen & Hchecks); [|done|done|done].
  exists checks. split; [done|]. split.
  - eapply Forall_impl; [exact Hchecks|]. intros c. apply check_before_is_status_check.
  - unfold Spec.turns_left in Hlen.
    replace (DEFAULT_TIMEOUT - (now (world s) - now (world s)) + DEFAULT_INTERVAL - 1)
      with 319999 in Hlen by (unfold DEFAULT_TIMEOUT, DEFAULT_INTERVAL; lia).
    unfold DEFAULT_INTERVAL in Hlen. change (319999 / 20000) with 15 in Hlen. lia.
Qed.


End ExecutorFacts.

(** ** The image and video generators *)

Section GeneratorFacts.

Import MediaGenerator.

Variable W : Type.
Variable now : W → Z.
Variable sleep : Z → W → W.
Variable axios_get : value → W → W * remote value.
Variable fal_request : value → value → W → W * remote value.
Variable fal_subscribe : value → value → W → W * remote value.
Variable ToString : value → jsstring.
Variable JSON_stringify : value → jsstring.

Local Abbreviation executeModelRequest :=
  (MediaGenerator.executeModelRequest W now sleep axios_get fal_request fal_subscribe).
Local Abbreviation generateImage :=
  (MediaGenerator.generateImage W now sleep axios_get fal_request fal_subscribe ToString).
Local Abbreviation generateVideo :=
  (MediaGenerator.generateVideo W now sleep axios_get fal_request fal_subscribe ToString
     JSON_stringify).

(** X5. [generateImage] ends; it either returns an image whose [url] is
    truthy, which is the [url] of the first entry of [data.images] of the
    result of the model request, together with the style, mood and technical
    specifications it applied (the defaults where none were given), or it
    raises [Failed to generate image], whatever went wrong: no other error
    leaves it. *)
Theorem generateImage_outcomes fuel prompt style mood specs (s : sys W) :
  Spec.timer_waits now sleep → Spec.clock_monotone now axios_get → (15 < fuel)%nat →
  ∃ s' r,
    generateImage fuel prompt style mood specs s = Some (s', r)
    ∧ match r with
      | Ok image =>
          truthy (get_opt (lit "url") image) = true
          ∧ (∃ input v,
               executeModelRequest fuel MODEL_IMAGE input s = Some (s', Ok v)
               ∧ get_opt (lit "url") image
                 = get_opt (lit "url")
                     (read0_opt (get_opt (lit "images") (get_opt (lit "data") v))))
          ∧ get_opt (lit "metadata") image
            = VObj [(lit "style", param style "photorealistic");
                    (lit "mood", param mood "professional");
                    (lit "technicalSpecs", param specs "high quality, detailed")]
      | Throw e => ∃ cause, e = FailedToGenerateImage cause
      end.
Proof.
  intros Htimer Hclock Hfuel. unfold MediaGenerator.generateImage.
  match goal with
  | |- context [MediaGenerator.executeModelRequest _ _ _ _ _ _ _ _ ?i _] => set (input := i)
  end.
  destruct (executeModelRequest_total W now sleep axios_get fal_request fal_subscribe
              fuel MODEL_IMAGE input s Htimer Hclock Hfuel) as (s' & r & Hrun).
  rewrite Hrun. cbn [mbind option_bind]. eexists _, _. split; [reflexivity|].
  destruct r as [v|e]; cbn [mbind result_bind try_catch]; [|eauto].
  unfold read.
  destruct (get (lit "data") v) as [data|] eqn:Hdata;
    cbn [mbind result_bind try_catch]; [|eauto].
  destruct (truthy data); cbn [negb try_catch]; [|eauto].
  destruct (truthy (get_opt (lit "url") _)) eqn:Hurl; cbn [negb try_catch]; [|eauto].
  split; [exact Hurl|]. split; [|reflexivity].
  exists input, v. split; [done|].
  replace (get_opt (lit "data") v) with data by (unfold get_opt; by rewrite Hdata).
  reflexivity.
Qed.

(** X6. [generateVideo] ends; it either returns a video whose [url] is
    truthy, which is [data.video_url] of the result of the model request
    when that is truthy and [data.video.url] otherwise, or it raises
    [Failed to generate video], whatever went wrong. *)
Theorem generateVideo_outcomes fuel prompt style duration transition (s : sys W) :
  Spec.timer_waits now sleep → Spec.clock_monotone now axios_get → (15 < fuel)%nat →
  ∃ s' r,
    generateVideo fuel prompt style duration transition s = Some (s', r)
    ∧ match r with
      | Ok video =>
          truthy (get_opt (lit "url") video) = true
          ∧ ∃ input v,
              executeModelRequest fuel MODEL_VIDEO input s = Some (s', Ok v)
              ∧ get_opt (lit "url") video
                = or_else (get_opt (lit "video_url") (get_opt (lit "data") v))
                    (get_opt (lit "url")
                       (get_opt (lit "video") (get_opt (lit "data") v)))
      | Throw e => ∃ cause, e = FailedToGenerateVideo cause
      end.
Proof.
  intros Htimer Hclock Hfuel. unfold MediaGenerator.generateVideo.
  match goal with
  | |- context [MediaGenerator.executeModelRequest _ _ _ _ _ _ _ _ ?i _] => set (input := i)
  end.
  destruct (executeModelRequest_total W now sleep axios_get fal_request fal_subscribe
              fuel MODEL_VIDEO input s Htimer Hclock Hfuel) as (s' & r & Hrun).
  rewrite Hrun. cbn [mbind option_bind]. eexists _, _. split; [reflexivity|].
  destruct r as [v|e]; cbn [mbind result_bind try_catch]; [|eauto].
  unfold read.
  destruct (get (lit "data") v) as [data|] eqn:Hdata;
    cbn [mbind result_bind try_catch]; [|eauto].
  destruct (truthy data); cbn [negb try_catch]; [|eauto].
  destruct (truthy (or_else _ _)) eqn:Hurl; cbn [negb try_catch]; [|eauto].
  split; [exact Hurl|].
  exists input, v. split; [done|].
  replace (get_opt (lit "data") v) with data by (unfold get_opt; by rewrite Hdata).
  reflexivity.
Qed.

(** X7. A provider response that carries neither a status handle nor a
    [data] field (the direct answer [{ images: [..] }], say) is taken by
    [executeModelRequest] for a success and returned as it is, and
    [generateImage] then refuses it: after the single immediate request, with
    no status check and no queued submission, it raises
    [Failed to generate image: No data received from Fal.ai]. *)
Theorem direct_response_without_data_is_refused fuel prompt style mood specs
    (s : sys W) w1 v url :
  (∀ input, fal_request MODEL_IMAGE input (world s) = (w1, Answer v)) →
  get (lit "status_url") v = Some url →
  truthy url = false →
  truthy (get_opt (lit "data") v) = false →
  ∃ input,
    generateImage fuel prompt style mood specs s
    = Some ({| world := w1; calls := calls s ++ [FalRequest MODEL_IMAGE input] |},
            Throw (FailedToGenerateImage NoDataReceived)).
Proof.
  intros Hreq Hurl Hfalsy Hdata. unfold MediaGenerator.generateImage.
  match goal with
  | |- context [MediaGenerator.executeModelRequest _ _ _ _ _ _ _ _ ?i _] => set (input := i)
  end.
  exists input.
  unfold MediaGenerator.executeModelRequest, MediaGenerator.immediate, perform.
  rewrite Hreq. unfold MediaGenerator.settle, read.
  cbn [of_remote mbind result_bind]. rewrite Hurl. cbn [mbind result_bind].
  rewrite Hfalsy. cbn [mbind option_bind result_bind].
  unfold get_opt in Hdata.
  destruct (get (lit "data") v) as [data|] eqn:Hget.
  - cbn [default from_option id] in Hdata. cbn [mbind result_bind]. rewrite Hdata.
    reflexivity.
  - destruct v; done.
Qed.

Lemma url_needs_output output :
  truthy (get_opt (lit "url") (read0_opt (get_opt (lit "images") output))) = true →
  truthy output = true.
Proof. by destruct output. Qed.

(** X29. The image of a job that completes.  When [fal.request] answers
    with a status handle and the first check of that handle reports
    [COMPLETED] with an output whose first image has a truthy [url],
    [generateImage] returns that url, with the style, mood and technical
    specifications it applied, after exactly two calls: the request and one
    status check, issued at once. *)
Theorem image_of_completed_job fuel prompt style mood specs (s : sys W)
    w1 response u w2 final :
  (∀ input, fal_request MODEL_IMAGE input (world s) = (w1, Answer response)) →
  get_opt (lit "status_url") response = u →
  truthy u = true →
  axios_get u w1 = (w2, Answer final) →
  get (lit "status") final = Some (VStr COMPLETED) →
  truthy (get_opt (lit "url")
            (read0_opt (get_opt (lit "images") (get_opt (lit "output") final)))) = true →
  ∃ input,
    generateImage (S fuel) prompt style mood specs s
    = Some ({| world := w2;
               calls := calls s ++ [FalRequest MODEL_IMAGE input] ++ [StatusCheck u (now w1)] |},
            Ok (VObj [(lit "url",
                         get_opt (lit "url")
                           (read0_opt (get_opt (lit "images")
                                         (get_opt (lit "output") final))));
                      (lit "metadata",
                         VObj [(lit "style", param style "photorealistic");
                               (lit "mood", param mood "professional");
                               (lit "technicalSpecs",
                                  param specs "high quality, detailed")])])).
Proof.
  intros Hreq Hhandle Hu Hcheck Hstatus Hurl. unfold MediaGenerator.generateImage.
  match goal with
  | |- context [MediaGenerator.executeModelRequest _ _ _ _ _ _ _ _ ?i _] => set (input := i)
  end.
  exists input.
  assert (get (lit "status_url") response = Some u) as Hget.
  { unfold get_opt in Hhandle. destruct (get (lit "status_url") response); [by subst|].
    subst u. done. }
  assert (∃ rid, get (lit "request_id") response = Some rid) as [rid Hrid].
  { destruct response; try done; by eexists. }
  assert (get (lit "output") final = Some (get_opt (lit "output") final)) as Hout.
  { destruct final; done. }
  assert (executeModelRequest (S fuel) MODEL_IMAGE input s
          = Some ({| world := w2;
                     calls := (calls s ++ [FalRequest MODEL_IMAGE input])
                              ++ [StatusCheck u (now w1)] |},
                  Ok (normalized (get_opt (lit "output") final) rid))) as Hexec.
  { unfold MediaGenerator.executeModelRequest, MediaGenerator.immediate, perform.
    rewrite Hreq. unfold MediaGenerator.settle, read.
    cbn [of_remote mbind result_bind]. rewrite Hget. cbn [mbind result_bind]. rewrite Hu.
    unfold MediaGenerator.pollStatus.
    rewrite (poll_loop_step W now sleep axios_get). cbn [world].
    rewrite Z.sub_diag. change (0 <? DEFAULT_TIMEOUT) with true. cbv iota.
    unfold MediaGenerator.status_check, perform. cbn [world calls]. rewrite Hcheck.
    cbn [fst snd of_remote]. unfold check_status, read.
    cbn [mbind result_bind]. rewrite Hstatus. cbn [mbind result_bind].
    change (is_str COMPLETED (VStr COMPLETED)) with true. cbv iota.
    cbn [mbind option_bind result_bind]. rewrite Hout, Hrid. reflexivity. }
  rewrite Hexec. cbn [mbind option_bind result_bind]. rewrite <- app_assoc.
  unfold read.
  change (get (lit "data") (normalized (get_opt (lit "output") final) rid))
    with (Some (get_opt (lit "output") final)).
  cbn [mbind result_bind]. rewrite (url_needs_output _ Hurl). cbn [negb].
  rewrite Hurl. reflexivity.
Qed.

End GeneratorFacts.

(** ** Media prompts *)

Section MediaPromptFacts.

Import MediaPromptGenerator.

Variable toLowerCase : jsstring → jsstring.

Local Abbreviation add_element := (MediaPromptGenerator.add_element toLowerCase).
Local Abbreviation add_section := (MediaPromptGenerator.add_section toLowerCase).
Local Abbreviation add_sections := (MediaPromptGenerator.add_sections toLowerCase).
Local Abbreviation generateMediaPrompts :=
  (MediaPromptGenerator.generateMediaPrompts toLowerCase).

Lemma add_section_readable vp section :
  readable_section section → ∃ vp', add_section vp section = Ok vp'.
Proof.
  intros (ve & Hget & Hshape). unfold MediaPromptGenerator.add_section, read.
  rewrite Hget. cbn [mbind result_bind].
  destruct Hshape as [-> | Harr]; [eauto|].
  destruct ve; try done. destruct (truthy _); eauto.
Qed.

Lemma add_sections_readable sections :
  Forall readable_section sections →
  ∀ vp, ∃ vp', add_sections vp sections = Ok vp'.
Proof.
  induction 1 as [|section sections Hsec _ IH]; intros vp; [by eexists|].
  cbn [MediaPromptGenerator.add_sections].
  destruct (add_section_readable vp section Hsec) as [vp1 ->].
  cbn [mbind result_bind]. apply IH.
Qed.

Lemma ensure_one_each_nonempty vp :
  images (ensure_one_each vp) ≠ [] ∧ animations (ensure_one_each vp) ≠ [].
Proof.
  unfold ensure_one_each.
  destruct vp as [[|i imgs] [|a anims]]; cbn; split; done.
Qed.

(** C10, as amended. For a [null] script, a script whose [sections] field
    is missing or not an array, and a script whose sections are objects with
    visual elements that are absent or an array, [generateMediaPrompts]
    succeeds and returns at least one image prompt and at least one animation
    prompt. *)
Theorem media_prompts_never_empty (script model timestamp : value) :
  readable_script script →
  ∃ mp metadata,
    generateMediaPrompts script model timestamp = MediaOk mp metadata
    ∧ images (visualPrompts mp) ≠ []
    ∧ animations (visualPrompts mp) ≠ [].
Proof.
  intros Hscript.
  assert (∃ vp, extract_prompts toLowerCase script = Ok vp) as [vp Hvp].
  { unfold extract_prompts. unfold readable_script in Hscript.
    destruct (get_opt (lit "sections") script); eauto using add_sections_readable. }
  unfold MediaPromptGenerator.generateMediaPrompts. rewrite Hvp.
  eexists _, _. split; [reflexivity|]. cbn [visualPrompts].
  apply ensure_one_each_nonempty.
Qed.

Local Abbreviation moving := (Spec.moving toLowerCase).

Lemma add_element_texts section vp e :
  prompt_texts (images (add_element section vp e))
  = prompt_texts (images vp) ++ (if is_string e && negb (moving e) then [e] else [])
  ∧ prompt_texts (animations (add_element section vp e))
    = prompt_texts (animations vp) ++ (if is_string e && moving e then [e] else []).
Proof.
  unfold prompt_texts.
  destruct e; cbn [MediaPromptGenerator.add_element is_string andb];
    rewrite ?app_nil_r; try done.
  cbn [Spec.moving]. destruct (mentions_motion toLowerCase s);
    cbn [negb images animations push_image push_animation];
    rewrite ?fmap_app, ?app_nil_r; done.
Qed.

Lemma add_elements_texts section es vp :
  prompt_texts (images (foldl (add_element section) vp es))
  = prompt_texts (images vp)
    ++ filter (λ e, moving e = false) (filter (λ e, is_string e = true) es)
  ∧ prompt_texts (animations (foldl (add_element section) vp es))
    = prompt_texts (animations vp)
      ++ filter (λ e, moving e = true) (filter (λ e, is_string e = true) es).
Proof.
  revert vp. induction es as [|e es IH]; intros vp.
  { cbn. by rewrite !app_nil_r. }
  cbn [foldl]. destruct (IH (add_element section vp e)) as [-> ->].
  destruct (add_element_texts section vp e) as [-> ->].
  rewrite (filter_cons (λ e, is_string e = true)).
  destruct (is_string e) eqn:Hs; cbn [andb].
  - rewrite decide_True by done. rewrite !filter_cons.
    destruct (moving e); cbn [negb].
    + rewrite decide_False, decide_True by done. by rewrite app_nil_r, <- app_assoc.
    + rewrite decide_True, decide_False by done. by rewrite app_nil_r, <- app_assoc.
  - rewrite decide_False by done. by rewrite !app_nil_r.
Qed.

Lemma add_section_texts vp section vp' :
  add_section vp section = Ok vp' →
  prompt_texts (images vp')
  = prompt_texts (images vp) ++ filter (λ e, moving e = false) (string_elements section)
  ∧ prompt_texts (animations vp')
    = prompt_texts (animations vp)
      ++ filter (λ e, moving e = true) (string_elements section).
Proof.
  unfold MediaPromptGenerator.add_section, read, string_elements, get_opt.
  destruct (get (lit "visualElements") section) as [ve|]; cbn [mbind result_bind]; [|done].
  cbn [default from_option id]. destruct (truthy ve) eqn:Ht.
  - destruct ve; try done. intros [= <-]. apply add_elements_texts.
  - intros [= <-]. destruct ve; try done; by rewrite !app_nil_r.
Qed.

Lemma add_sections_texts sections vp vp' :
  add_sections vp sections = Ok vp' →
  prompt_texts (images vp')
  = prompt_texts (images vp)
    ++ filter (λ e, moving e = false) (sections ≫= string_elements)
  ∧ prompt_texts (animations vp')
    = prompt_texts (animations vp)
      ++ filter (λ e, moving e = true) (sections ≫= string_elements).
Proof.
  revert vp. induction sections as [|section sections IH]; intros vp.
  { intros [= <-]. cbn. by rewrite !app_nil_r. }
  cbn [MediaPromptGenerator.add_sections].
  destruct (add_section vp section) as [vp1|] eqn:H1; cbn [mbind result_bind]; [|done].
  intros H2. apply add_section_texts in H1 as [Hi1 Ha1]. apply IH in H2 as [Hi2 Ha2].
  rewrite Hi2, Ha2, Hi1, Ha1, bind_cons, !filter_app, <- !app_assoc. done.
Qed.

(** X14. For a script with an array of sections, the prompts that
    [generateMediaPrompts] returns are the visual elements of the sections
    that are strings, in the order of the script, each used once: those that
    mention animation, motion or transition as animation prompts, the others
    as image prompts.  Elements that are not strings yield nothing.  A
    default prompt is put in exactly when a list would be empty. *)
Theorem prompts_follow_string_elements script sections model timestamp mp metadata :
  get_opt (lit "sections") script = VArr sections →
  generateMediaPrompts script model timestamp = MediaOk mp metadata →
  let stills := filter (λ e, moving e = false) (sections ≫= string_elements) in
  let motions := filter (λ e, moving e = true) (sections ≫= string_elements) in
  (stills ≠ [] → prompt_texts (images (visualPrompts mp)) = stills)
  ∧ (stills = [] →
     prompt_texts (images (visualPrompts mp))
     = [str "Dynamic brand showcase with modern aesthetic"])
  ∧ (motions ≠ [] → prompt_texts (animations (visualPrompts mp)) = motions)
  ∧ (motions = [] →
     prompt_texts (animations (visualPrompts mp)) = [str "Smooth brand logo animation"]).
Proof.
  intros Hsections. unfold MediaPromptGenerator.generateMediaPrompts, extract_prompts.
  rewrite Hsections.
  destruct (add_sections no_prompts sections) as [vp|] eqn:Hvp; [|done].
  intros [= <- _]. cbn [visualPrompts].
  apply add_sections_texts in Hvp as [Hi Ha].
  change (prompt_texts (images no_prompts)) with (@nil value) in Hi.
  change (prompt_texts (animations no_prompts)) with (@nil value) in Ha.
  cbn [app] in Hi, Ha. cbv zeta. rewrite <- Hi, <- Ha. clear Hi Ha.
  unfold ensure_one_each, prompt_texts.
  destruct vp as [[|i imgs] [|a anims]]; cbn; repeat split; done.
Qed.

End MediaPromptFacts.

(** ** Storage *)

Section StorageFacts.

Import StorageService.

Variable W : Type.
Variable createOrGetFolder : value → value → W → W * remote value.
Variable upload : asset → value → W → W * remote value.

Lemma save_each_saved target (assets : list asset) (w : W) :
  (saved_kind <$> (save_each W upload target assets w).2) `sublist_of` (kind <$> assets)
  ∧ Forall (λ a, folder a = target) (save_each W upload target assets w).2
  ∧ ((∀ a w0, ∃ f, (upload a target w0).2 = Answer f) →
     saved_kind <$> (save_each W upload target assets w).2 = kind <$> assets).
Proof.
  revert w. induction assets as [|a assets IH]; intros w.
  { cbn. split; [constructor|]. split; [constructor|done]. }
  cbn [save_each]. destruct (upload a target w) as [w1 r] eqn:Hup.
  destruct (IH w1) as (Hsub & Hall & Hfull).
  destruct (save_each W upload target assets w1) as [w2 saved]. cbn [snd] in *.
  destruct r as [f|st]; cbn [snd fmap list_fmap]; (split; [|split]).
  - by constructor.
  - by constructor.
  - intros Hanswers. cbn. by rewrite (Hfull Hanswers).
  - by constructor.
  - done.
  - intros Hanswers. destruct (Hanswers a w) as [f Hf]. rewrite Hup in Hf. done.
Qed.

Lemma save_each_world target (assets : list asset) (w : W) :
  (save_each W upload target assets w).1 = world_after (λ a, upload a target) assets w.
Proof.
  revert w. induction assets as [|a assets IH]; intros w; [done|].
  cbn [save_each world_after]. specialize (IH (upload a target w).1).
  destruct (upload a target w) as [w1 r]. cbn [fst] in *.
  destruct (save_each W upload target assets w1) as [w2 saved]. cbn [fst] in IH.
  by destruct r.
Qed.

(** The batch as a whole: what is saved is what is kept of the uploads. *)
Lemma save_each_kept target (assets : list asset) (w : W) :
  (save_each W upload target assets w).2
  = kept (λ a, upload a target) (saved_upload target) assets w.
Proof.
  revert w. induction assets as [|a assets IH]; intros w; [done|].
  cbn [save_each]. unfold kept. cbn [outcomes zip zip_with omap list_omap fst snd].
  specialize (IH (upload a target w).1). unfold kept in IH.
  destruct (upload a target w) as [w1 r]. cbn [fst snd] in *.
  destruct (save_each W upload target assets w1) as [w2 saved]. cbn [snd] in IH.
  rewrite <- IH. by destruct r.
Qed.

(** X15. [saveAssetsToDrive] fails only when the folder cannot be had, with
    the error of the folder request and before any upload.  Otherwise every
    asset of the batch is uploaded into that folder, one after the other, and
    the result lists exactly the assets whose upload succeeded, in the order
    of the batch, each as the file that its upload returned, with the type of
    the asset and the folder: an upload that fails costs its own asset only,
    neither those saved before it nor those uploaded after it.  When every
    upload succeeds, every asset of the batch is saved. *)
Theorem drive_batch_outcome assets brand sessionId (w : W) :
  let run := saveAssetsToDrive W createOrGetFolder upload assets brand sessionId w in
  match (createOrGetFolder brand sessionId w).2 with
  | Reject st => run = ((createOrGetFolder brand sessionId w).1, Throw (Rejected st))
  | Answer target =>
      ∃ saved,
        run.2 = Ok saved
        ∧ (saved_kind <$> saved) `sublist_of` (kind <$> assets)
        ∧ Forall (λ a, folder a = target) saved
        ∧ ((∀ a w0, ∃ f, (upload a target w0).2 = Answer f) →
           saved_kind <$> saved = kind <$> assets)
        ∧ saved
          = kept (λ a, upload a target) (saved_upload target) assets
              (createOrGetFolder brand sessionId w).1
        ∧ run.1
          = world_after (λ a, upload a target) assets
              (createOrGetFolder brand sessionId w).1
  end.
Proof.
  cbv zeta. unfold saveAssetsToDrive.
  destruct (createOrGetFolder brand sessionId w) as [w1 [target|st]];
    cbn [fst snd of_remote]; [|done].
  pose proof (save_each_saved target assets w1) as (H1 & H2 & H3).
  pose proof (save_each_kept target assets w1) as H4.
  pose proof (save_each_world target assets w1) as H5.
  destruct (save_each W upload target assets w1) as [w2 saved]. by exists saved.
Qed.

End StorageFacts.

(** ** The folders of the sessions *)

Section FolderFacts.

Import StorageService.

Variable W : Type.
Variable ToString : value → jsstring.
Variable toISOString : W → jsstring.
Variable files_list : jsstring → W → W * remote (list value).
Variable files_create : jsstring → W → W * remote value.
Variable permissions_create : value → W → W * remote unit.

Local Abbreviation createOrGetFolder :=
  (StorageService.createOrGetFolder W ToString toISOString files_list files_create
     permissions_create).

(** The three ways in which a call can end. *)
Lemma createOrGetFolder_cases brand sessionId (d : drive_state W) :
  (∃ folder,
      sessionFolders d !! sessionKey ToString brand sessionId = Some folder
      ∧ createOrGetFolder brand sessionId d = (d, Ok folder))
  ∨ (sessionFolders d !! sessionKey ToString brand sessionId = None
     ∧ ((∃ w error, createOrGetFolder brand sessionId d = (on_drive W d w, Throw error))
        ∨ (∃ w folderInfo,
              createOrGetFolder brand sessionId d
              = ({| drive := w;
                    sessionFolders :=
                      <[sessionKey ToString brand sessionId := folderInfo]>
                        (sessionFolders d) |},
                 Ok folderInfo)))).
Proof.
  unfold StorageService.createOrGetFolder.
  destruct (sessionFolders d !! sessionKey ToString brand sessionId) as [folder|];
    [left; by exists folder|right; split; [done|]].
  destruct (find_or_create W files_list files_create _ (drive d)) as [w2 found].
  destruct (_ ≫= _) as [[folder id]|error]; [|left; by eexists _, _].
  destruct (permissions_create id w2) as [w3 [[]|status]];
    [right|left]; by eexists _, _.
Qed.

(** X24. A session keeps its folder.  Once [createOrGetFolder] has returned
    a folder for a brand and a session, asking again for the same brand and
    session returns that folder and leaves everything as it is: the drive is
    not called.  A call never changes or removes the folder of any session,
    and a call that fails records nothing, so that the next call tries
    again. *)
Theorem session_folder_is_kept brand sessionId (d : drive_state W) :
  let run := createOrGetFolder brand sessionId d in
  (∀ k f, sessionFolders d !! k = Some f → sessionFolders run.1 !! k = Some f)
  ∧ match run.2 with
    | Ok folder => createOrGetFolder brand sessionId run.1 = (run.1, Ok folder)
    | Throw _ => sessionFolders run.1 = sessionFolders d
    end.
Proof.
  cbv zeta.
  destruct (createOrGetFolder_cases brand sessionId d)
    as [(folder & Hkey & Hrun)|[Hkey [(w & error & Hrun)|(w & folderInfo & Hrun)]]].
  - rewrite Hrun. cbn [fst snd]. by rewrite Hrun.
  - rewrite Hrun. done.
  - rewrite Hrun. cbn [fst snd sessionFolders]. unfold folders in *. split.
    + intros k f Hk. rewrite lookup_insert_ne; [done|]. congruence.
    + unfold StorageService.createOrGetFolder. cbn [sessionFolders].
      unfold folders. by rewrite lookup_insert_eq.
Qed.

End FolderFacts.

(** ** The extraction of media elements *)

Section MediaElementFacts.

Import MediaPromptGenerator.

Lemma falsy_has_no_field k section :
  truthy section = false → get_opt k section = VUndefined.
Proof. by destruct section. Qed.

Lemma push_spread_items k section acc :
  spreadable (get_opt (lit k) section) →
  push_spread k section acc = Ok (acc ++ items_of k section).
Proof.
  unfold push_spread, items_of, spreadable.
  destruct (get_opt (lit k) section) as [| | | |s|items|fs]; cbn [length_of truthy];
    rewrite ?app_nil_r; try done.
  - destruct s; [by rewrite app_nil_r|done].
  - destruct items; [by rewrite app_nil_r|done].
  - by intros ->.
Qed.

Lemma push_truthy_field k section acc :
  push_truthy k section acc = acc ++ truthy_field k section.
Proof.
  unfold push_truthy, truthy_field. destruct (truthy _); [done|by rewrite app_nil_r].
Qed.

Lemma extract_section_tidy me section :
  tidy_section section →
  extract_section me section
  = Ok {| visualElements := visualElements me ++ items_of "visualElements" section;
          experientialElements :=
            experientialElements me ++ items_of "experientialElements" section;
          motionTransitions :=
            motionTransitions me ++ truthy_field "motionTransitions" section;
          craftAndDesign := craftAndDesign me ++ truthy_field "craftAndDesign" section;
          brandAlignmentNotes :=
            brandAlignmentNotes me ++ truthy_field "brandAlignmentNotes" section |}.
Proof.
  intros [Hvisual Hexperiential]. unfold extract_section.
  destruct (truthy section) eqn:Hsection; cbn [negb].
  - rewrite (push_spread_items _ _ _ Hvisual), (push_spread_items _ _ _ Hexperiential).
    cbn [mbind result_bind]. by rewrite !push_truthy_field.
  - unfold items_of, truthy_field. rewrite !(falsy_has_no_field _ _ Hsection).
    cbn [truthy]. rewrite !app_nil_r. by destruct me.
Qed.

Lemma extract_sections_tidy sections me :
  Forall tidy_section sections →
  extract_sections me sections
  = Ok {| visualElements := visualElements me ++ (sections ≫= items_of "visualElements");
          experientialElements :=
            experientialElements me ++ (sections ≫= items_of "experientialElements");
          motionTransitions :=
            motionTransitions me ++ (sections ≫= truthy_field "motionTransitions");
          craftAndDesign :=
            craftAndDesign me ++ (sections ≫= truthy_field "craftAndDesign");
          brandAlignmentNotes :=
            brandAlignmentNotes me
            ++ (sections ≫= truthy_field "brandAlignmentNotes") |}.
Proof.
  intros Htidy. revert me. induction Htidy as [|section sections Hsection _ IH]; intros me.
  { cbn. rewrite !app_nil_r. by destruct me. }
  cbn [extract_sections]. rewrite (extract_section_tidy _ _ Hsection).
  cbn [mbind result_bind]. rewrite IH.
  cbn [visualElements experientialElements motionTransitions craftAndDesign
       brandAlignmentNotes].
  by rewrite !bind_cons, <- !app_assoc.
Qed.

(** X20. [extractMediaElements] of the media-prompt generator, on an array
    of sections none of which gives its visual or experiential elements as an
    object with a length: it raises no error and returns, in the order of the
    sections, the visual and the experiential elements of all sections (the
    elements of an array; of a string, its characters) and the truthy
    [motionTransitions], [craftAndDesign] and [brandAlignmentNotes] fields.
    Sections that are [null] or otherwise falsy are passed over. *)
Theorem extractMediaElements_collects (sections : list value) :
  Forall tidy_section sections →
  extractMediaElements (VArr sections)
  = Ok {| visualElements := sections ≫= items_of "visualElements";
          experientialElements := sections ≫= items_of "experientialElements";
          motionTransitions := sections ≫= truthy_field "motionTransitions";
          craftAndDesign := sections ≫= truthy_field "craftAndDesign";
          brandAlignmentNotes := sections ≫= truthy_field "brandAlignmentNotes" |}.
Proof. intros Htidy. apply (extract_sections_tidy sections no_elements Htidy). Qed.

Lemma extract_section_shared me section me' :
  extract_section me section = Ok me' →
  ScriptGenerator.extract_section (shared_fields me) section = Ok (shared_fields me').
Proof.
  unfold extract_section, ScriptGenerator.extract_section.
  destruct (negb (truthy section)); [by intros [= <-]|].
  cbn [shared_fields ScriptGenerator.visualElements ScriptGenerator.motionTransitions].
  destruct (push_spread "visualElements" section (visualElements me)) as [visual|];
    cbn [mbind result_bind]; [|done].
  destruct (push_spread "experientialElements" section (experientialElements me));
    cbn [mbind result_bind]; [|done].
  by intros [= <-].
Qed.

Lemma extract_sections_shared sections me me' :
  extract_sections me sections = Ok me' →
  ScriptGenerator.extract_sections (shared_fields me) sections = Ok (shared_fields me').
Proof.
  revert me. induction sections as [|section sections IH]; intros me; [by intros [= <-]|].
  cbn [extract_sections ScriptGenerator.extract_sections].
  destruct (extract_section me section) as [me1|] eqn:H1; cbn [mbind result_bind]; [|done].
  rewrite (extract_section_shared _ _ _ H1). cbn [mbind result_bind]. apply IH.
Qed.

(** X21. The two extractors agree: whenever [extractMediaElements] of the
    media-prompt generator returns, that of the script generator returns as
    well, with the same visual elements and the same motion transitions. *)
Theorem extractors_agree (sections : value) me :
  extractMediaElements sections = Ok me →
  ScriptGenerator.extractMediaElements sections = Ok (shared_fields me).
Proof.
  destruct sections; try (by intros [= <-]).
  apply (extract_sections_shared items no_elements).
Qed.

End MediaElementFacts.

(** ** The history of the media prompts *)

Section HistoryFacts.

Import MediaPromptGenerator.

Variable toLowerCase : jsstring → jsstring.
Variable ToString : value → jsstring.

Local Abbreviation generateMediaPrompts_filing :=
  (MediaPromptGenerator.generateMediaPrompts_filing toLowerCase ToString).
Local Abbreviation getMediaPrompts := (MediaPromptGenerator.getMediaPrompts ToString).

(** X22. Prompts filed under a brand name are read back under it: after
    [generateMediaPrompts] has succeeded for a truthy brand name,
    [getMediaPrompts] of that name returns the prompts of that run, and what
    it returns for a name with another string form is what it returned
    before.  A run that fails leaves the history as it was. *)
Theorem media_prompts_round_trip script model brandName filed_at timestamp (h : history) :
  truthy brandName = true →
  let run := generateMediaPrompts_filing script model brandName filed_at timestamp h in
  match run.2 with
  | MediaOk mp _ =>
      getMediaPrompts brandName run.1 = Some mp
      ∧ ∀ other,
          template ToString other ≠ template ToString brandName →
          getMediaPrompts other run.1 = getMediaPrompts other h
  | MediaFailed _ => run.1 = h
  end.
Proof.
  intros Hname. cbv zeta.
  unfold MediaPromptGenerator.generateMediaPrompts_filing,
    MediaPromptGenerator.getMediaPrompts, storageKey, or_else, history in *.
  rewrite Hname. cbv beta iota.
  destruct (generateMediaPrompts toLowerCase script model timestamp) as [mp metadata|];
    cbn [fst snd]; [|done].
  split.
  - by rewrite lookup_insert_eq.
  - intros other Hother. rewrite lookup_insert_ne; [done|].
    intros Heq. apply app_inv_head in Heq. congruence.
Qed.

(** X23. Prompts generated without a brand name cannot be read back without
    one: for a brand name that is [undefined], [null], [false] or the empty
    string the prompts are filed under [default]; [getMediaPrompts] of
    [default] returns them, and [getMediaPrompts] of the brand name as it was
    given returns what it returned before. *)
Theorem unnamed_prompts_are_filed_under_default script model brandName filed_at timestamp
    (h : history) :
  truthy brandName = false →
  (∀ n, brandName ≠ VNum n) →
  let run := generateMediaPrompts_filing script model brandName filed_at timestamp h in
  match run.2 with
  | MediaOk mp _ =>
      getMediaPrompts (str "default") run.1 = Some mp
      ∧ getMediaPrompts brandName run.1 = getMediaPrompts brandName h
  | MediaFailed _ => run.1 = h
  end.
Proof.
  intros Hname Hnumber. cbv zeta.
  unfold MediaPromptGenerator.generateMediaPrompts_filing,
    MediaPromptGenerator.getMediaPrompts, storageKey, or_else, history in *.
  rewrite Hname. cbv beta iota.
  destruct (generateMediaPrompts toLowerCase script model timestamp) as [mp metadata|];
    cbn [fst snd]; [|done].
  split.
  - by rewrite lookup_insert_eq.
  - rewrite lookup_insert_ne; [done|].
    intros Heq. apply app_inv_head in Heq.
    destruct brandName as [| |[|]|n|[|c t]| |]; try done.
    by destruct (Hnumber n).
Qed.

End HistoryFacts.

(** ** The pipeline handlers *)

Section ServerFacts.

Import StorageService MediaPromptGenerator Server.

Context {W : Type} (E : env W).

Lemma image_step_spec guidelines (acc : sys W * list asset) p :
  calls (image_step E guidelines acc p).1 = calls acc.1 ++ [image_call guidelines p]
  ∧ (length (image_step E guidelines acc p).2 ≤ S (length acc.2))%nat.
Proof.
  destruct acc as [o assets]. unfold image_step, perform.
  destruct (generateImage E _ _ _ (world o)) as [w1 [image|]];
    [destruct (truthy image)|]; cbn [fst snd calls];
    rewrite ?length_app; cbn [length]; split; (done || lia).
Qed.

Lemma animation_step_spec guidelines (acc : sys W * list asset) p :
  calls (animation_step E guidelines acc p).1 = calls acc.1 ++ [video_call guidelines p]
  ∧ (length (animation_step E guidelines acc p).2 ≤ S (length acc.2))%nat.
Proof.
  destruct acc as [o assets]. unfold animation_step, perform.
  destruct (generateVideo E _ _ (world o)) as [w1 [animation|]];
    [destruct (truthy animation)|]; cbn [fst snd calls];
    rewrite ?length_app; cbn [length]; split; (done || lia).
Qed.

(** A loop whose every step makes one call and adds at most one asset. *)
Lemma asset_loop (step : sys W * list asset → value → sys W * list asset)
    (the_call : value → call) :
  (∀ acc p, calls (step acc p).1 = calls acc.1 ++ [the_call p]
            ∧ (length (step acc p).2 ≤ S (length acc.2))%nat) →
  ∀ (l : list value) acc,
    calls (foldl step acc l).1 = calls acc.1 ++ (the_call <$> l)
    ∧ (length (foldl step acc l).2 ≤ length acc.2 + length l)%nat.
Proof.
  intros Hstep l. induction l as [|p l IH]; intros acc.
  { cbn. rewrite app_nil_r. split; [done|lia]. }
  cbn [foldl]. destruct (IH (step acc p)) as [Hcalls Hlen].
  destruct (Hstep acc p) as [Hc1 Hl1].
  rewrite Hcalls, Hc1, <- app_assoc. split; [done|]. cbn [length]. lia.
Qed.

(** The asset phase calls the image generator for the first two image
    prompts, then the video generator for the first animation prompt, and
    nothing else; it raises no error. *)
Lemma generate_assets_spec (mp : media_prompts) (o : sys W) :
  calls (generate_assets E mp o).1
  = calls o
    ++ (image_call (craftGuidelines mp) <$> take 2 (images (visualPrompts mp)))
    ++ (video_call (craftGuidelines mp) <$> take 1 (animations (visualPrompts mp)))
  ∧ (length (generate_assets E mp o).2 ≤ 3)%nat.
Proof.
  unfold generate_assets.
  destruct (asset_loop _ _ (image_step_spec (craftGuidelines mp))
              (take 2 (images (visualPrompts mp))) (o, [])) as [Hc1 Hl1].
  destruct (asset_loop _ _ (animation_step_spec (craftGuidelines mp))
              (take 1 (animations (visualPrompts mp)))
              (foldl (image_step E (craftGuidelines mp)) (o, [])
                 (take 2 (images (visualPrompts mp))))) as [Hc2 Hl2].
  rewrite Hc2, Hc1, <- app_assoc. split; [done|].
  pose proof (length_take_le (images (visualPrompts mp)) 2).
  pose proof (length_take_le (animations (visualPrompts mp)) 1).
  cbn [snd length] in *.
  assert (length (take 2 (images (visualPrompts mp))) ≤ 2)%nat
    by (rewrite length_take; lia).
  assert (length (take 1 (animations (visualPrompts mp))) ≤ 1)%nat
    by (rewrite length_take; lia).
  lia.
Qed.

Lemma save_each_length folder (assets : list asset) (w : W) :
  (length (save_each W (upload E) folder assets w).2 ≤ length assets)%nat.
Proof.
  revert w. induction assets as [|a assets IH]; intros w; [done|].
  cbn [save_each]. destruct (upload E a folder w) as [w1 r].
  specialize (IH w1). destruct (save_each _ _ _ _ w1) as [w2 saved].
  destruct r; cbn [snd length] in *; lia.
Qed.

Lemma saveAssetsToDrive_length assets brand sessionId (w w' : W) saved :
  saveAssetsToDrive W (createOrGetFolder E) (upload E) assets brand sessionId w
  = (w', Ok saved) →
  (length saved ≤ length assets)%nat.
Proof.
  unfold saveAssetsToDrive.
  destruct (createOrGetFolder E brand sessionId w) as [w1 [folder|st]];
    cbn [of_remote]; [|done].
  pose proof (save_each_length folder assets w1) as Hlen.
  destruct (save_each _ _ _ _ w1) as [w2 saved']. intros [= <- <-]. done.
Qed.

Lemma generateScript_calls inputs (o o1 : sys W) r :
  ScriptGenerator.generateScript (JSON_parse E) W (fetch E) inputs o = (o1, r) →
  (calls o1 = calls o ∧ ∃ error, r = Throw error)
  ∨ calls o1 = calls o ++ [TextModel (ScriptGenerator.script_prompt inputs)].
Proof.
  unfold ScriptGenerator.generateScript, ScriptGenerator.generateScriptContent, perform.
  destruct (negb _); [intros [= <- <-]; eauto|].
  destruct (negb _); [intros [= <- <-]; eauto|].
  destruct (fetch E _ (world o)) as [w1 reply]. intros [= <- <-]. right. reflexivity.
Qed.

Lemma kind_names_differ : kind_name Image ≠ kind_name Animation.
Proof. intros H. vm_compute in H. discriminate. Qed.

(** [assetTypes] lists a type once, in the order of first appearance. *)
Lemma distinct_kinds_spec seen_image seen_animation (l : list saved_asset) :
  NoDup (distinct_kinds seen_image seen_animation l)
  ∧ ∀ v, v ∈ distinct_kinds seen_image seen_animation l ↔
         (v = kind_name Image ∧ seen_image = false
          ∧ Exists (λ a, saved_kind a = Image) l)
         ∨ (v = kind_name Animation ∧ seen_animation = false
            ∧ Exists (λ a, saved_kind a = Animation) l).
Proof.
  revert seen_image seen_animation.
  induction l as [|a l IH]; intros si sa.
  { split; [constructor|]. intros v. cbn. rewrite elem_of_nil, !Exists_nil. tauto. }
  cbn [distinct_kinds]. pose proof kind_names_differ as Hne.
  destruct (saved_kind a) eqn:Hk.
  - destruct (IH true sa) as [Hnd Hin]. destruct si.
    + split; [done|]. intros v. rewrite Hin, !Exists_cons, Hk.
      intuition (subst; (congruence || eauto)).
    + split.
      * constructor; [|done]. rewrite Hin. intuition (subst; (congruence || eauto)).
      * intros v. rewrite elem_of_cons, Hin, !Exists_cons, Hk.
        intuition (subst; (congruence || eauto)).
  - destruct (IH si true) as [Hnd Hin]. destruct sa.
    + split; [done|]. intros v. rewrite Hin, !Exists_cons, Hk.
      intuition (subst; (congruence || eauto)).
    + split.
      * constructor; [|done]. rewrite Hin. intuition (subst; (congruence || eauto)).
      * intros v. rewrite elem_of_cons, Hin, !Exists_cons, Hk.
        intuition (subst; (congruence || eauto)).
Qed.

Lemma assetTypes_spec (saved : list saved_asset) :
  NoDup (distinct_kinds false false saved)
  ∧ (∀ k, kind_name k ∈ distinct_kinds false false saved
          ↔ Exists (λ a, saved_kind a = k) saved)
  ∧ Forall (λ v, ∃ k, v = kind_name k) (distinct_kinds false false saved).
Proof.
  destruct (distinct_kinds_spec false false saved) as [Hnd Hin].
  split; [done|]. split.
  - intros k. rewrite Hin. pose proof kind_names_differ as Hne.
    destruct k; intuition (subst; (congruence || eauto)).
  - apply Forall_forall. intros v Hv. apply Hin in Hv as [[-> _]|[-> _]]; by eexists.
Qed.

Lemma saveAssetsToDrive_throw assets brand sessionId (w w' : W) error :
  saveAssetsToDrive W (createOrGetFolder E) (upload E) assets brand sessionId w
  = (w', Throw error) →
  ∃ st, error = Rejected st.
Proof.
  unfold saveAssetsToDrive.
  destruct (createOrGetFolder E brand sessionId w) as [w1 [folder|st]];
    cbn [of_remote]; [|intros [= _ <-]; by eexists].
  by destruct (save_each _ _ _ _ w1).
Qed.

(** The ways in which a script request can run: it is turned down or fails
    before a generator is called, having made no call or the one to the text
    model; or it calls the text model, the generators for the capped prompts
    and the drive. *)
Lemma post_script_cases body (s s' : server W) resp :
  post_script E body s = (s', resp) →
  (((∃ e, resp = BadRequest e) ∨ (∃ e, resp = InternalError e))
   ∧ (calls (outside s') = calls (outside s)
      ∨ ∃ p, calls (outside s') = calls (outside s) ++ [TextModel p]))
  ∨ ∃ p mp n,
      calls (outside s')
      = calls (outside s) ++ [TextModel p]
        ++ (image_call (craftGuidelines mp) <$> take 2 (images (visualPrompts mp)))
        ++ (video_call (craftGuidelines mp) <$> take 1 (animations (visualPrompts mp)))
        ++ [SaveAssets n]
      ∧ (n ≤ 3)%nat
      ∧ ((∃ st, resp = InternalError (Some (Rejected st)))
         ∨ ∃ script saved model timestamp,
             resp = ScriptDone script mp saved (script_metadata model timestamp saved)
             ∧ (length saved ≤ n)%nat).
Proof.
  unfold post_script.
  destruct (get (lit "sessionId") body) as [sessionId|];
    [|intros [= <- <-]; left; split; [right; by eexists|by left]].
  destruct (_ || _); [intros [= <- <-]; left; split; [left; by eexists|by left]|].
  destruct (Map_get sessionId (researchStore s)) as [research|];
    [|intros [= <- <-]; left; split; [left; by eexists|by left]].
  destruct (ScriptGenerator.generateScript _ _ _ _ _) as [o1 r] eqn:Hscript.
  apply generateScript_calls in Hscript.
  destruct r as [script0|error].
  2:{ intros [= <- <-]. left. split; [right; by eexists|]. cbn [outside with_outside].
      destruct Hscript as [[Hc _]|Hc]; [by left|right; by eexists]. }
  destruct Hscript as [[_ [? [=]]]|Hc1].
  destruct (negb (truthy script0));
    [intros [= <- <-]; left; split; [right; by eexists|right; by eexists]|].
  destruct (generateMediaPrompts _ _ _ _) as [mp0 meta|];
    [|intros [= <- <-]; left; split; [right; by eexists|right; by eexists]].
  pose proof (generate_assets_spec mp0 o1) as [Hc2 Hlen].
  destruct (generate_assets E mp0 o1) as [o2 assets]. cbn [fst snd] in *.
  unfold perform.
  destruct (saveAssetsToDrive _ _ _ _ _ _ _) as [w3 saved0] eqn:Hsave.
  destruct saved0 as [savedAssets|error]; intros [= <- <-]; right;
    eexists _, mp0, (length assets); cbn [outside with_outside calls];
    (split; [by rewrite Hc2, Hc1, <- !app_assoc|]); (split; [done|]).
  - right. apply saveAssetsToDrive_length in Hsave. by eexists _, _, _, _.
  - left. apply saveAssetsToDrive_throw in Hsave as [st ->]. by eexists.
Qed.


(** The key of a structured brand record is its name. *)
Lemma researchKey_structured fields :
  researchKey (VObj fields) = Ok (get_opt (lit "name") (VObj fields)).
Proof. reflexivity. Qed.

Lemma same_key_string n : same_key (VStr n) (VStr n) = true.
Proof. cbn. by apply bool_decide_eq_true. Qed.

Lemma with_outside_same (s : server W) : with_outside s (outside s) = s.
Proof. by destruct s. Qed.

(** A script with an array of sections is truthy. *)
Lemma script_with_sections_truthy script :
  isArray (get_opt (lit "sections") script) = true → truthy script = true.
Proof. by destruct script. Qed.

(** C9, as amended. Script generation is gated by stored research, and by
    what is stored.  (1) A script request whose key has no stored research is
    answered with a validation error (status 400) and changes nothing: no
    call is made, in particular none to the text model; when the request
    carries the required fields the error is [No research found].  (2) A
    research request for a structured brand record named [n], once the text
    model has answered, stores the research and the brand record under the
    key [n], which is also the session id it returns.  (3) A script request
    with a key under which research is stored, and with the required fields,
    is not answered with a validation error; when the stored brand has a
    truthy name and the stored research is truthy the text model is called
    with them.  (4) A script request succeeds only if research is stored
    under its key.  (5) When the stored brand has no truthy name, such a
    request is answered with the internal error [Brand name is required], and
    (6) when the name is truthy and the stored research is not (the text
    model had answered [null], say), with the internal error [Research data
    is required]; in both cases nothing changes: the text model is not
    called.  (7) When name and research are truthy, the text model answers
    with a text that is, once cleaned, JSON with an array of readable
    sections, and the drive gives out folders, such a request succeeds, with
    the parsed script. *)
Theorem research_gates_script :
  (∀ fields (s : server W),
     Map_get (get_opt (lit "sessionId") (VObj fields)) (researchStore s) = None →
     ∃ error,
       post_script E (VObj fields) s = (s, BadRequest error)
       ∧ (truthy (get_opt (lit "sessionId") (VObj fields)) = true →
          truthy (get_opt (lit "campaignGoals") (VObj fields)) = true →
          truthy (get_opt (lit "targetAudience") (VObj fields)) = true →
          error = lit "No research found"))
  ∧ (∀ body (s : server W) brand n w' data researchText,
       get (lit "brandInfo") body = Some (VObj brand) →
       get_opt (lit "name") (VObj brand) = VStr n →
       axios_post E (ResearchPrompt (VObj brand)) (world (outside s)) = (w', Answer data) →
       ScriptGenerator.candidate_text data = Ok researchText →
       ∃ s' research metadata stamp,
         post_research E body s = (s', ResearchDone research (VStr n) metadata)
         ∧ Map_get (VStr n) (researchStore s')
           = Some {| stored_research := research; stored_brandInfo := VObj brand;
                     stored_timestamp := stamp |})
  ∧ (∀ fields (s s' : server W) research resp,
       Map_get (get_opt (lit "sessionId") (VObj fields)) (researchStore s) = Some research →
       truthy (get_opt (lit "sessionId") (VObj fields)) = true →
       truthy (get_opt (lit "campaignGoals") (VObj fields)) = true →
       truthy (get_opt (lit "targetAudience") (VObj fields)) = true →
       post_script E (VObj fields) s = (s', resp) →
       status resp ≠ 400
       ∧ (truthy (get_opt (lit "name") (stored_brandInfo research)) = true →
          truthy (stored_research research) = true →
          ∃ more,
            calls (outside s')
            = calls (outside s)
              ++ TextModel (ScriptPrompt (stored_brandInfo research)
                              (stored_research research)
                              (get_opt (lit "campaignGoals") (VObj fields))
                              (get_opt (lit "targetAudience") (VObj fields))
                              (get_opt (lit "creativeDirection") (VObj fields))
                              (field_or (lit "model") DEFAULT_MODEL (VObj fields)))
                 :: more))
  ∧ (∀ body (s s' : server W) script mp saved metadata,
       post_script E body s = (s', ScriptDone script mp saved metadata) →
       is_Some (Map_get (get_opt (lit "sessionId") body) (researchStore s)))
  ∧ (∀ fields (s : server W) research,
       Map_get (get_opt (lit "sessionId") (VObj fields)) (researchStore s) = Some research →
       truthy (get_opt (lit "sessionId") (VObj fields)) = true →
       truthy (get_opt (lit "campaignGoals") (VObj fields)) = true →
       truthy (get_opt (lit "targetAudience") (VObj fields)) = true →
       truthy (get_opt (lit "name") (stored_brandInfo research)) = false →
       post_script E (VObj fields) s = (s, InternalError (Some BrandNameRequired)))
  ∧ (∀ fields (s : server W) research,
       Map_get (get_opt (lit "sessionId") (VObj fields)) (researchStore s) = Some research →
       truthy (get_opt (lit "sessionId") (VObj fields)) = true →
       truthy (get_opt (lit "campaignGoals") (VObj fields)) = true →
       truthy (get_opt (lit "targetAudience") (VObj fields)) = true →
       truthy (get_opt (lit "name") (stored_brandInfo research)) = true →
       truthy (stored_research research) = false →
       post_script E (VObj fields) s = (s, InternalError (Some ResearchDataRequired)))
  ∧ (∀ fields (s : server W) research w1 answered data content script,
       Map_get (get_opt (lit "sessionId") (VObj fields)) (researchStore s) = Some research →
       truthy (get_opt (lit "sessionId") (VObj fields)) = true →
       truthy (get_opt (lit "campaignGoals") (VObj fields)) = true →
       truthy (get_opt (lit "targetAudience") (VObj fields)) = true →
       truthy (get_opt (lit "name") (stored_brandInfo research)) = true →
       truthy (stored_research research) = true →
       fetch E (ScriptPrompt (stored_brandInfo research) (stored_research research)
                  (get_opt (lit "campaignGoals") (VObj fields))
                  (get_opt (lit "targetAudience") (VObj fields))
                  (get_opt (lit "creativeDirection") (VObj fields))
                  (field_or (lit "model") DEFAULT_MODEL (VObj fields)))
         (world (outside s))
       = (w1, ScriptGenerator.FetchResponse true answered (Ok data)) →
       ScriptGenerator.candidate_text_opt data = Ok (VStr content) →
       content ≠ [] →
       JSON_parse E (ScriptGenerator.clean_script content) = Some script →
       isArray (get_opt (lit "sections") script) = true →
       readable_script script →
       (∀ brand sessionId w, ∃ f, (createOrGetFolder E brand sessionId w).2 = Answer f) →
       ∃ s' mp saved metadata,
         post_script E (VObj fields) s = (s', ScriptDone script mp saved metadata)).
Proof.
  split; [|split; [|split; [|split; [|split; [|split]]]]].
  - intros fields s Hnone. unfold post_script.
    change (get (lit "sessionId") (VObj fields))
      with (Some (get_opt (lit "sessionId") (VObj fields))).
    cbv beta iota. destruct (_ || _) eqn:Hreq.
    + eexists. split; [reflexivity|]. intros H1 H2 H3.
      rewrite H1, H2, H3 in Hreq. done.
    + rewrite Hnone. eexists. split; [reflexivity|done].
  - intros body s brand n w' data researchText Hbrand Hname Hpost Htext.
    unfold post_research. rewrite Hbrand. cbn [truthy negb].
    rewrite researchKey_structured, Hname.
    unfold ScriptGenerator.generateBrandResearch, perform. rewrite Hpost.
    cbn [world]. rewrite try_catch_rethrow.
    unfold ScriptGenerator.research_of_reply. cbn [of_remote mbind result_bind].
    rewrite Htext. cbn [mbind result_bind].
    destruct (parse_research_total (JSON_parse E) researchText) as [research ->].
    cbn [mbind result_bind ScriptGenerator.research ScriptGenerator.metadata].
    eexists _, _, _, _. split; [reflexivity|].
    cbn [researchStore Map_set Map_get]. rewrite same_key_string. reflexivity.
  - intros fields s s' research resp Hget H1 H2 H3. unfold post_script.
    change (get (lit "sessionId") (VObj fields))
      with (Some (get_opt (lit "sessionId") (VObj fields))).
    cbv beta iota. rewrite H1, H2, H3, Hget. cbn [negb orb].
    destruct (ScriptGenerator.generateScript _ _ _ _ _) as [o1 r] eqn:Hscript.
    intros Hrun.
    assert (status resp ≠ 400 ∧ ∃ more, calls (outside s') = calls o1 ++ more)
      as [Hstatus [more Hmore]].
    { destruct r as [script|]; [|injection Hrun as <- <-; split; [done|by exists []; rewrite app_nil_r]].
      destruct (negb (truthy script));
        [injection Hrun as <- <-; split; [done|by exists []; rewrite app_nil_r]|].
      destruct (generateMediaPrompts _ _ _ _) as [mp meta|];
        [|injection Hrun as <- <-; split; [done|by exists []; rewrite app_nil_r]].
      pose proof (generate_assets_spec mp o1) as [Hc2 _].
      destruct (generate_assets E mp o1) as [o2 assets]. cbn [fst] in Hc2.
      unfold perform in Hrun.
      destruct (saveAssetsToDrive _ _ _ _ _ _ _) as [w3 saved].
      destruct saved; injection Hrun as <- <-; (split; [done|]);
        cbn [outside with_outside calls]; rewrite Hc2, <- app_assoc; by eexists. }
    split; [done|]. intros Hn Hr.
    revert Hscript. unfold ScriptGenerator.generateScript.
    cbn [ScriptGenerator.brandInfo ScriptGenerator.research_in].
    rewrite Hn, Hr. cbn [negb].
    unfold ScriptGenerator.generateScriptContent, perform.
    destruct (fetch E _ (world (outside s))) as [w1 reply]. intros [= <- _].
    cbn [calls] in Hmore. rewrite Hmore, <- app_assoc. by eexists.
  - intros body s s' script mp saved metadata. unfold post_script, get_opt.
    destruct (get (lit "sessionId") body) as [sessionId|]; [|done].
    cbn [default from_option id]. destruct (_ || _); [done|].
    destruct (Map_get sessionId (researchStore s)) as [e|]; [|done].
    intros _. exists e. reflexivity.
  - intros fields s research Hget H1 H2 H3 Hn. unfold post_script.
    change (get (lit "sessionId") (VObj fields))
      with (Some (get_opt (lit "sessionId") (VObj fields))).
    cbv beta iota. rewrite H1, H2, H3, Hget. cbn [negb orb].
    unfold ScriptGenerator.generateScript.
    cbn [ScriptGenerator.brandInfo ScriptGenerator.research_in].
    rewrite Hn. cbn [negb]. by rewrite with_outside_same.
  - intros fields s research Hget H1 H2 H3 Hn Hr. unfold post_script.
    change (get (lit "sessionId") (VObj fields))
      with (Some (get_opt (lit "sessionId") (VObj fields))).
    cbv beta iota. rewrite H1, H2, H3, Hget. cbn [negb orb].
    unfold ScriptGenerator.generateScript.
    cbn [ScriptGenerator.brandInfo ScriptGenerator.research_in].
    rewrite Hn, Hr. cbn [negb]. by rewrite with_outside_same.
  - intros fields s research w1 answered data content script Hget H1 H2 H3 Hn Hr
      Hfetch Htext Hne Hparse Harr Hread Hfolder.
    unfold post_script.
    change (get (lit "sessionId") (VObj fields))
      with (Some (get_opt (lit "sessionId") (VObj fields))).
    cbv beta iota. rewrite H1, H2, H3, Hget. cbn [negb orb].
    unfold ScriptGenerator.generateScript.
    cbn [ScriptGenerator.brandInfo ScriptGenerator.research_in].
    rewrite Hn, Hr. cbn [negb].
    pose proof (generateScriptContent_text (JSON_parse E) W (fetch E) _ (outside s) w1
                  answered data content Hfetch Htext Hne) as Hcontent.
    rewrite (proj2 (parse_script_ok (JSON_parse E) _ script) (conj Hparse Harr))
      in Hcontent.
    unfold ScriptGenerator.script_prompt in *.
    cbn [ScriptGenerator.brandInfo ScriptGenerator.research_in
         ScriptGenerator.campaignGoals ScriptGenerator.targetAudience
         ScriptGenerator.creativeDirection ScriptGenerator.model] in *.
    destruct (ScriptGenerator.generateScriptContent _ _ _ _ _) as [o1 r].
    cbn [snd] in Hcontent. subst r.
    rewrite (script_with_sections_truthy script Harr). cbn [negb].
    assert (∃ vp, extract_prompts (toLowerCase E) script = Ok vp) as [vp Hvp].
    { unfold extract_prompts. unfold readable_script in Hread.
      destruct (get_opt (lit "sections") script); eauto using add_sections_readable. }
    unfold generateMediaPrompts. rewrite Hvp.
    destruct (generate_assets E _ o1) as [o2 assets].
    unfold perform, saveAssetsToDrive.
    destruct (Hfolder (get_opt (lit "name") (stored_brandInfo research))
                (get_opt (lit "sessionId") (VObj fields)) (world o2)) as [f Hf].
    destruct (createOrGetFolder E _ _ (world o2)) as [w3 answer]. cbn [snd] in Hf.
    subst answer. cbn [of_remote].
    destruct (save_each _ _ _ _ w3) as [w4 saved]. by eexists _, _, _, _.
Qed.

(** X16. Research for a brand given as free text is filed under the first
    word of the text, and no script can be had for it: the script request
    for that session is answered with an internal error, [Brand name is
    required], without a call to the text model, a free text having no
    [name]. *)
Theorem free_text_brand_gets_no_script body (s s1 : server W) text research key
    metadata fields :
  get (lit "brandInfo") body = Some (VStr text) →
  post_research E body s = (s1, ResearchDone research key metadata) →
  get_opt (lit "sessionId") (VObj fields) = key →
  truthy key = true →
  truthy (get_opt (lit "campaignGoals") (VObj fields)) = true →
  truthy (get_opt (lit "targetAudience") (VObj fields)) = true →
  key = VStr (first_word text)
  ∧ post_script E (VObj fields) s1 = (s1, InternalError (Some BrandNameRequired)).
Proof.
  intros Hbrand Hrun Hsession Hkey Hgoals Haudience.
  unfold post_research in Hrun. rewrite Hbrand in Hrun.
  destruct (negb (truthy (VStr text))) eqn:Htext; [done|].
  cbn [researchKey] in Hrun.
  destruct (ScriptGenerator.generateBrandResearch _ _ _ _ _ _ _) as [o1 [result|]];
    [|done].
  injection Hrun as <- <- <- <-. split; [done|].
  unfold post_script.
  change (get (lit "sessionId") (VObj fields))
    with (Some (get_opt (lit "sessionId") (VObj fields))).
  cbv beta iota. rewrite Hsession, Hkey, Hgoals, Haudience. cbn [negb orb].
  cbn [researchStore Map_set Map_get]. rewrite same_key_string.
  unfold ScriptGenerator.generateScript.
  cbn [ScriptGenerator.brandInfo stored_brandInfo get_opt get default from_option id truthy negb].
  by rewrite with_outside_same.
Qed.

(** X17. What a research request does to the process.  A request that is
    turned down (status 400) changes nothing and calls nothing.  The store is
    changed only by a request that succeeds, and then only under the session
    key it returns: what is stored under any other key stays.  The text model
    is called once at most, with the brand information of the request. *)
Theorem research_store_discipline body (s s' : server W) resp :
  post_research E body s = (s', resp) →
  (status resp = 400 → s' = s)
  ∧ (status resp ≠ 200 → researchStore s' = researchStore s)
  ∧ (calls (outside s') = calls (outside s)
     ∨ ∃ brandInfo,
         get (lit "brandInfo") body = Some brandInfo
         ∧ calls (outside s') = calls (outside s) ++ [TextModel (ResearchPrompt brandInfo)])
  ∧ (∀ k,
       (∀ research key metadata,
          resp = ResearchDone research key metadata → same_key key k = false) →
       Map_get k (researchStore s') = Map_get k (researchStore s)).
Proof.
  unfold post_research.
  destruct (get (lit "brandInfo") body) as [brandInfo|] eqn:Hbrand.
  2: { intros [= <- <-]. repeat split; auto. }
  destruct (negb (truthy brandInfo)).
  { intros [= <- <-]. repeat split; auto. }
  destruct (researchKey brandInfo) as [key|].
  2: { intros [= <- <-]. repeat split; auto. }
  unfold ScriptGenerator.generateBrandResearch, perform.
  destruct (axios_post E (ResearchPrompt brandInfo) (world (outside s))) as [w1 reply].
  destruct (try_catch _ _) as [result|error]; intros [= <- <-];
    cbn [status outside researchStore with_outside calls].
  - split; [done|]. split; [done|]. split; [right; eauto|].
    intros k Hk. cbn [Map_set Map_get]. by rewrite (Hk _ _ _ eq_refl).
  - split; [done|]. split; [done|]. split; [right; eauto|done].
Qed.

Lemma image_step_failing guidelines (acc : sys W * list asset) p :
  (∀ p st m w, ∃ e, (generateImage E p st m w).2 = Throw e) →
  (image_step E guidelines acc p).2 = acc.2.
Proof.
  intros Hfail. destruct acc as [o assets]. unfold image_step, perform.
  destruct (Hfail (get_opt (lit "prompt") p) (get_opt (lit "visualStyle") guidelines)
              (str "professional") (world o)) as [e He].
  destruct (generateImage E _ _ _ (world o)) as [w1 r]. cbn [snd] in He. by subst r.
Qed.

Lemma animation_step_failing guidelines (acc : sys W * list asset) p :
  (∀ p st w, ∃ e, (generateVideo E p st w).2 = Throw e) →
  (animation_step E guidelines acc p).2 = acc.2.
Proof.
  intros Hfail. destruct acc as [o assets]. unfold animation_step, perform.
  destruct (Hfail (get_opt (lit "prompt") p) (get_opt (lit "animationStyle") guidelines)
              (world o)) as [e He].
  destruct (generateVideo E _ _ (world o)) as [w1 r]. cbn [snd] in He. by subst r.
Qed.

Lemma failing_loop (step : sys W * list asset → value → sys W * list asset) :
  (∀ acc p, (step acc p).2 = acc.2) →
  ∀ (l : list value) acc, (foldl step acc l).2 = acc.2.
Proof.
  intros Hstep l. induction l as [|p l IH]; intros acc; [done|].
  cbn [foldl]. by rewrite IH, Hstep.
Qed.

Lemma generate_assets_failing (mp : media_prompts) (o : sys W) :
  (∀ p st m w, ∃ e, (generateImage E p st m w).2 = Throw e) →
  (∀ p st w, ∃ e, (generateVideo E p st w).2 = Throw e) →
  (generate_assets E mp o).2 = [].
Proof.
  intros Himage Hvideo. unfold generate_assets.
  rewrite (failing_loop _ (λ acc p, animation_step_failing _ acc p Hvideo)).
  by rewrite (failing_loop _ (λ acc p, image_step_failing _ acc p Himage)).
Qed.

Lemma not_generation_text p : ¬ is_generation (TextModel p).
Proof. intros [(? & ? & ? & [=])|(? & ? & [=])]. Qed.

(** X18. Failed generation is no error of the script request.  When every
    call of the image and of the video generator fails, and the drive gives
    out folders, a script request that got as far as calling a generator is
    answered with a success that lists no asset: an empty batch is taken to
    the drive, and the metadata report zero assets. *)
Theorem failed_generation_is_no_error body (s s' : server W) resp made :
  (∀ p st m w, ∃ e, (generateImage E p st m w).2 = Throw e) →
  (∀ p st w, ∃ e, (generateVideo E p st w).2 = Throw e) →
  (∀ brand sessionId w, ∃ f, (createOrGetFolder E brand sessionId w).2 = Answer f) →
  post_script E body s = (s', resp) →
  calls (outside s') = calls (outside s) ++ made →
  Exists is_generation made →
  status resp = 200
  ∧ ∃ script mp metadata,
      resp = ScriptDone script mp [] metadata
      ∧ get (lit "totalAssets") metadata = Some (VNum 0)
      ∧ SaveAssets 0 ∈ made.
Proof.
  intros Himage Hvideo Hfolder Hrun Hmade Hgen.
  assert (∀ o : sys W, calls (outside s') = calls o → calls o = calls (outside s) → False)
    as Hnone.
  { intros o H1 H2. rewrite H1, H2 in Hmade.
    rewrite <- (app_nil_r (calls (outside s))) in Hmade at 1.
    apply app_inv_head in Hmade. subst made. by apply Exists_nil in Hgen. }
  assert (∀ (o : sys W) p, calls (outside s') = calls o →
            calls o = calls (outside s) ++ [TextModel p] → False) as Hone.
  { intros o p H1 H2. rewrite H1, H2 in Hmade. apply app_inv_head in Hmade. subst made.
    apply Exists_cons in Hgen as [Hgen|Hgen];
      [by apply not_generation_text in Hgen|by apply Exists_nil in Hgen]. }
  assert (∀ (o : sys W) error, (s', resp) = (with_outside s o, InternalError error) →
            calls o = calls (outside s)
            ∨ (∃ p, calls o = calls (outside s) ++ [TextModel p]) → False) as Hearly.
  { intros o error [= -> ->] [H|[p H]]; [by eapply Hnone|by eapply Hone]. }
  unfold post_script in Hrun.
  destruct (get (lit "sessionId") body) as [sessionId|];
    [|injection Hrun as <- <-; by destruct (Hnone (outside s))].
  destruct (_ || _); [injection Hrun as <- <-; by destruct (Hnone (outside s))|].
  destruct (Map_get sessionId (researchStore s)) as [research|];
    [|injection Hrun as <- <-; by destruct (Hnone (outside s))].
  destruct (ScriptGenerator.generateScript _ _ _ _ _) as [o1 r] eqn:Hscript.
  apply generateScript_calls in Hscript.
  assert (calls o1 = calls (outside s)
          ∨ ∃ p, calls o1 = calls (outside s) ++ [TextModel p]) as Hc1
    by (destruct Hscript as [[? _]|?]; eauto).
  destruct r as [script|error]; [|by destruct (Hearly _ _ (eq_sym Hrun))].
  destruct (negb (truthy script)); [by destruct (Hearly _ _ (eq_sym Hrun))|].
  destruct (generateMediaPrompts _ _ _ _) as [mp meta|];
    [|by destruct (Hearly _ _ (eq_sym Hrun))].
  pose proof (generate_assets_spec mp o1) as [Hc2 _].
  pose proof (generate_assets_failing mp o1 Himage Hvideo) as Hassets.
  destruct (generate_assets E mp o1) as [o2 assets]. cbn [fst snd] in Hassets, Hc2.
  subst assets.
  assert (∃ before, calls o2 = calls (outside s) ++ before) as [before Hbefore].
  { rewrite Hc2. destruct Hc1 as [->|[p ->]]; [by eexists|].
    rewrite <- app_assoc. by eexists. }
  unfold perform, saveAssetsToDrive in Hrun.
  destruct (Hfolder (get_opt (lit "name") (stored_brandInfo research)) sessionId (world o2))
    as [f Hf].
  destruct (createOrGetFolder E _ _ (world o2)) as [w3 answer]. cbn [snd] in Hf. subst answer.
  cbn [of_remote save_each] in Hrun. injection Hrun as <- <-.
  split; [done|]. eexists _, _, _. split; [reflexivity|]. split; [reflexivity|].
  cbn [outside with_outside calls length] in Hmade.
  rewrite Hbefore, <- app_assoc in Hmade. apply app_inv_head in Hmade. subst made.
  apply elem_of_app. right. apply list_elem_of_here.
Qed.

(** A loop whose every step adds at most the asset of its prompt. *)
Lemma asset_loop_prompts (k : asset_kind)
    (step : sys W * list asset → value → sys W * list asset) :
  (∀ acc p, (step acc p).2 = acc.2
            ∨ ∃ a, (step acc p).2 = acc.2 ++ [a]
                   ∧ kind a = k ∧ StorageService.prompt a = p) →
  ∀ (l : list value) acc,
    ∃ new, (foldl step acc l).2 = acc.2 ++ new
           ∧ Forall (λ a, kind a = k) new
           ∧ (StorageService.prompt <$> new) `sublist_of` l.
Proof.
  intros Hstep l. induction l as [|p l IH]; intros acc.
  { exists []. rewrite app_nil_r. split; [done|]. split; constructor. }
  cbn [foldl]. destruct (IH (step acc p)) as (new & Hnew & Hkind & Hsub).
  destruct (Hstep acc p) as [Hsame|(a & Hadd & Hk & Hp)].
  - exists new. rewrite Hnew, Hsame. split; [done|]. split; [done|by constructor].
  - exists (a :: new). rewrite Hnew, Hadd, <- app_assoc. split; [done|].
    split; [by constructor|]. cbn [fmap list_fmap]. rewrite Hp. by constructor.
Qed.

Lemma image_step_asset guidelines (acc : sys W * list asset) p :
  (image_step E guidelines acc p).2 = acc.2
  ∨ ∃ a, (image_step E guidelines acc p).2 = acc.2 ++ [a]
         ∧ kind a = Image ∧ StorageService.prompt a = p.
Proof.
  destruct acc as [o assets]. unfold image_step, perform.
  destruct (generateImage E _ _ _ (world o)) as [w1 [image|]]; [|by left].
  destruct (truthy image); [|by left]. right. by eexists.
Qed.

Lemma animation_step_asset guidelines (acc : sys W * list asset) p :
  (animation_step E guidelines acc p).2 = acc.2
  ∨ ∃ a, (animation_step E guidelines acc p).2 = acc.2 ++ [a]
         ∧ kind a = Animation ∧ StorageService.prompt a = p.
Proof.
  destruct acc as [o assets]. unfold animation_step, perform.
  destruct (generateVideo E _ _ (world o)) as [w1 [animation|]]; [|by left].
  destruct (truthy animation); [|by left]. right. by eexists.
Qed.

(** A loop whose every step serves its prompt and adds what is kept of the
    outcome. *)
Lemma asset_loop_kept (step : sys W * list asset → value → sys W * list asset)
    (serve : value → W → W * result value) (keep : value → result value → option asset) :
  (∀ acc p, world (step acc p).1 = (serve p (world acc.1)).1
            ∧ (step acc p).2
              = acc.2 ++ option_list (keep p (serve p (world acc.1)).2)) →
  ∀ (l : list value) acc,
    world (foldl step acc l).1 = world_after serve l (world acc.1)
    ∧ (foldl step acc l).2 = acc.2 ++ kept serve keep l (world acc.1).
Proof.
  intros Hstep l. induction l as [|p l IH]; intros acc.
  { cbn. by rewrite app_nil_r. }
  cbn [foldl world_after]. destruct (IH (step acc p)) as [Hworld Hassets].
  destruct (Hstep acc p) as [Hw Ha]. rewrite Hworld, Hassets, Hw, Ha, <- app_assoc.
  split; [done|]. f_equal. unfold kept.
  cbn [outcomes zip zip_with omap list_omap fst snd].
  by destruct (keep p (serve p (world acc.1)).2).
Qed.

Lemma image_step_kept guidelines (acc : sys W * list asset) p :
  let serve p :=
    generateImage E (get_opt (lit "prompt") p) (get_opt (lit "visualStyle") guidelines)
      (str "professional") in
  world (image_step E guidelines acc p).1 = (serve p (world acc.1)).1
  ∧ (image_step E guidelines acc p).2
    = acc.2 ++ option_list (generated_asset Image (image_metadata guidelines) p
                              (serve p (world acc.1)).2).
Proof.
  destruct acc as [o assets]. cbv zeta. unfold image_step, perform. cbn [fst snd].
  destruct (generateImage E _ _ _ (world o)) as [w1 [image|]]; cbn [fst snd generated_asset];
    [destruct (truthy image)|]; cbn [fst snd world option_list];
    by rewrite ?app_nil_r.
Qed.

Lemma animation_step_kept guidelines (acc : sys W * list asset) p :
  let serve p :=
    generateVideo E (get_opt (lit "prompt") p) (get_opt (lit "animationStyle") guidelines) in
  world (animation_step E guidelines acc p).1 = (serve p (world acc.1)).1
  ∧ (animation_step E guidelines acc p).2
    = acc.2 ++ option_list (generated_asset Animation (animation_metadata guidelines) p
                              (serve p (world acc.1)).2).
Proof.
  destruct acc as [o assets]. cbv zeta. unfold animation_step, perform. cbn [fst snd].
  destruct (generateVideo E _ _ (world o)) as [w1 [animation|]];
    cbn [fst snd generated_asset];
    [destruct (truthy animation)|]; cbn [fst snd world option_list];
    by rewrite ?app_nil_r.
Qed.

(** X19. The assets of a script run.  The image generator is called for
    each of the first two image prompts and then the video generator for the
    first animation prompt, whatever the outcomes of the calls before.  The
    assets are first the images, then the animations: exactly one asset for
    each of these prompts whose generation returned a result (a truthy one),
    in the order of the prompts, made of the [url] of that result, the prompt
    object and the style metadata; a prompt whose generation fails or yields
    nothing is passed over, and it costs neither the assets before it nor
    those of the prompts after it. *)
Theorem assets_follow_capped_prompts (mp : media_prompts) (o : sys W) :
  let guidelines := craftGuidelines mp in
  let image_of p :=
    generateImage E (get_opt (lit "prompt") p) (get_opt (lit "visualStyle") guidelines)
      (str "professional") in
  let video_of p :=
    generateVideo E (get_opt (lit "prompt") p) (get_opt (lit "animationStyle") guidelines) in
  let first_images := take 2 (images (visualPrompts mp)) in
  let first_animations := take 1 (animations (visualPrompts mp)) in
  ∃ imgs anims,
    (generate_assets E mp o).2 = imgs ++ anims
    ∧ Forall (λ a, kind a = Image) imgs
    ∧ Forall (λ a, kind a = Animation) anims
    ∧ (StorageService.prompt <$> imgs) `sublist_of` take 2 (images (visualPrompts mp))
    ∧ (StorageService.prompt <$> anims) `sublist_of` take 1 (animations (visualPrompts mp))
    ∧ imgs
      = kept image_of (generated_asset Image (image_metadata guidelines)) first_images
          (world o)
    ∧ anims
      = kept video_of (generated_asset Animation (animation_metadata guidelines))
          first_animations (world_after image_of first_images (world o))
    ∧ calls (generate_assets E mp o).1
      = calls o ++ (image_call guidelines <$> first_images)
        ++ (video_call guidelines <$> first_animations).
Proof.
  cbv zeta. pose proof (generate_assets_spec mp o) as [Hcalls _].
  unfold generate_assets in *.
  destruct (asset_loop_prompts Image _ (image_step_asset (craftGuidelines mp))
              (take 2 (images (visualPrompts mp))) (o, []))
    as (imgs & Himgs & Hk1 & Hs1).
  destruct (asset_loop_prompts Animation _ (animation_step_asset (craftGuidelines mp))
              (take 1 (animations (visualPrompts mp)))
              (foldl (image_step E (craftGuidelines mp)) (o, [])
                 (take 2 (images (visualPrompts mp)))))
    as (anims & Hanims & Hk2 & Hs2).
  destruct (asset_loop_kept _ _ _ (image_step_kept (craftGuidelines mp))
              (take 2 (images (visualPrompts mp))) (o, [])) as [Hw1 Hkept1].
  destruct (asset_loop_kept _ _ _ (animation_step_kept (craftGuidelines mp))
              (take 1 (animations (visualPrompts mp)))
              (foldl (image_step E (craftGuidelines mp)) (o, [])
                 (take 2 (images (visualPrompts mp))))) as [_ Hkept2].
  rewrite Hw1 in Hkept2. cbn [fst snd] in Hw1, Hkept1, Himgs.
  rewrite Himgs in Hkept1. apply app_inv_head in Hkept1.
  rewrite Hanims in Hkept2. apply app_inv_head in Hkept2.
  exists imgs, anims. rewrite Hanims, Himgs. done.
Qed.

(** X30. Research for a brand record without a name cannot be used either:
    the research request succeeds, but the session id it returns is the
    [name] of the record, which is not truthy, and a script request with that
    session id is turned down with [Missing required fields], whatever else
    it carries. *)
Theorem nameless_brand_gets_no_script body (s s1 : server W) brand research key metadata
    fields :
  get (lit "brandInfo") body = Some (VObj brand) →
  truthy (get_opt (lit "name") (VObj brand)) = false →
  post_research E body s = (s1, ResearchDone research key metadata) →
  get_opt (lit "sessionId") (VObj fields) = key →
  key = get_opt (lit "name") (VObj brand)
  ∧ post_script E (VObj fields) s1 = (s1, BadRequest (lit "Missing required fields")).
Proof.
  intros Hbrand Hname Hrun Hsession.
  unfold post_research in Hrun. rewrite Hbrand in Hrun. cbn [truthy negb] in Hrun.
  rewrite researchKey_structured in Hrun.
  destruct (ScriptGenerator.generateBrandResearch _ _ _ _ _ _ _) as [o1 [result|]];
    [|done].
  injection Hrun as <- <- <- <-. split; [done|].
  unfold post_script.
  change (get (lit "sessionId") (VObj fields))
    with (Some (get_opt (lit "sessionId") (VObj fields))).
  cbv beta iota. by rewrite Hsession, Hname.
Qed.

End ServerFacts.

(** ** The media handler *)

Section MediaHandlerFacts.

Import MediaPromptGenerator Server.

Context {W : Type}.
Variable generateImage : value → value → value → value → W → W * result value.
Variable generateVideo : value → W → W * result value.
Variable toISOString : W → value.

Local Abbreviation media_images := (Server.media_images generateImage generateVideo).
Local Abbreviation post_media := (Server.post_media generateImage generateVideo toISOString).
Local Abbreviation media_answer := (Server.media_answer toISOString).

Lemma media_images_spec params (prompts : list value) (run : media_run) :
  Forall (λ p, get (lit "prompt") p ≠ None) prompts →
  (media_images params prompts run).2 = Ok ()
  ∧ requested (media_images params prompts run).1
    = requested run ++ (image_request params <$> prompts)
  ∧ ∃ new,
      assets_so_far (media_images params prompts run).1 = assets_so_far run ++ new
      ∧ (length new ≤ length prompts)%nat
      ∧ ((∀ p st m sp w, ∃ e, (generateImage p st m sp w).2 = Throw e) → new = []).
Proof.
  intros Hprompts. revert run.
  induction Hprompts as [|p prompts Hp _ IH]; intros run.
  { cbn. rewrite app_nil_r. split; [done|]. split; [done|]. exists [].
    rewrite app_nil_r. split; [done|]. split; [cbn; lia|done]. }
  cbn [Server.media_images]. unfold read.
  destruct (get (lit "prompt") p) as [text|] eqn:Hget; [|done].
  destruct (perform_generation generateImage generateVideo (image_request params p)
              (media_world run)) as [w1 r] eqn:Hgen.
  match goal with
  | |- context [Server.media_images _ _ _ _ ?next] => set (run1 := next)
  end.
  destruct (IH run1) as (Hok & Hreq & new & Hnew & Hlen & Hfail).
  split; [done|]. split.
  { rewrite Hreq. subst run1. cbn [requested fmap list_fmap]. by rewrite <- app_assoc. }
  destruct r as [imageUrl|error].
  - eexists (_ :: new). split.
    + rewrite Hnew. subst run1. cbn [assets_so_far]. by rewrite <- app_assoc.
    + split; [cbn [length]; lia|].
      intros Hall. unfold perform_generation, image_request in Hgen.
      match type of Hgen with
      | generateImage ?a ?b ?c ?d ?w = _ => destruct (Hall a b c d w) as [e He]
      end.
      rewrite Hgen in He. done.
  - exists new. split; [by rewrite Hnew|]. split; [cbn [length]; lia|done].
Qed.

(** What the loop has recorded: what is kept of the generations. *)
Lemma media_images_kept params (prompts : list value) (run : media_run) :
  Forall (λ p, get (lit "prompt") p ≠ None) prompts →
  assets_so_far (media_images params prompts run).1
  = assets_so_far run
    ++ kept (λ p, perform_generation generateImage generateVideo (image_request params p))
         generated_image prompts (media_world run).
Proof.
  intros Hprompts. revert run.
  induction Hprompts as [|p prompts Hp _ IH]; intros run.
  { cbn. by rewrite app_nil_r. }
  cbn [Server.media_images]. unfold read.
  destruct (get (lit "prompt") p) as [text|] eqn:Hget; [|done].
  unfold kept. cbn [outcomes zip zip_with omap list_omap fst snd].
  destruct (perform_generation generateImage generateVideo (image_request params p)
              (media_world run)) as [w1 r] eqn:Hgen.
  rewrite IH. cbn [assets_so_far media_world fst snd]. unfold kept.
  destruct r as [imageUrl|error]; cbn [generated_image]; [|done].
  by rewrite <- app_assoc.
Qed.

Lemma kept_images_succeeded (serve : value → W → W * result value) prompts (w : W) :
  kept serve generated_image prompts w ≠ [] ↔ Exists succeeded (outcomes serve prompts w).
Proof.
  revert w. induction prompts as [|p prompts IH]; intros w.
  { cbn. split; [done|]. intros H. by apply Exists_nil in H. }
  unfold kept in *. cbn [outcomes zip zip_with omap list_omap fst snd].
  rewrite Exists_cons. destruct (serve p w) as [w1 [v|e]]; cbn [fst snd generated_image].
  - split; [|done]. intros _. left. by exists v.
  - rewrite IH. split; [by right|]. by intros [[v [=]]|H].
Qed.

(** X25. An image request to [POST /generate/media] serves every prompt:
    when the prompts are an array none of whose entries is [null], the image
    generator is asked once for each of them, in their order and however many
    there are, a failed generation not keeping the later ones from being
    tried.  The images recorded are exactly those of the generations that
    succeeded, in the order of the prompts, each with the result of the
    generator and its prompt object.  The answer is a success exactly when an
    image was generated, and then it lists these images, with
    [totalGenerated] their number, no more than there are prompts; when none
    was, and so when every generation fails, it is the internal error [No
    assets were generated successfully]. *)
Theorem media_request_serves_every_prompt body params prompts (w : W) :
  get (lit "type") body = Some (str "image") →
  get_opt (lit "params") body = params →
  get_opt (lit "prompts") params = VArr prompts →
  Forall (λ p, get (lit "prompt") p ≠ None) prompts →
  let run := post_media body w in
  let serve p := perform_generation generateImage generateVideo (image_request params p) in
  requested run.1 = image_request params <$> prompts
  ∧ match run.2 with
    | MediaGenerated assets metadata =>
        assets = assets_so_far run.1 ∧ assets ≠ []
        ∧ (length assets ≤ length prompts)%nat
        ∧ get (lit "totalGenerated") metadata = Some (VNum (Z.of_nat (length assets)))
    | MediaFailure None => assets_so_far run.1 = []
    | _ => False
    end
  ∧ ((∀ p st m sp w0, ∃ e, (generateImage p st m sp w0).2 = Throw e) →
     run.2 = MediaFailure None)
  ∧ assets_so_far run.1 = kept serve generated_image prompts w
  ∧ (media_status run.2 = 200 ↔ Exists succeeded (outcomes serve prompts w))
  ∧ (Exists succeeded (outcomes serve prompts w) →
     ∃ metadata,
       run.2 = MediaGenerated (kept serve generated_image prompts w) metadata).
Proof.
  intros Htype Hparams Hprompts Hall. cbv zeta. unfold Server.post_media.
  rewrite Htype, Hparams, Hprompts.
  assert (truthy params = true) as -> by (by destruct params).
  change (truthy (str "image")) with true.
  change (is_str (lit "image") (str "image")) with true. cbn [negb orb].
  match goal with
  | |- context [Server.media_images _ _ _ _ ?start] => set (run0 := start)
  end.
  destruct (media_images_spec params prompts run0 Hall)
    as (Hok & Hreq & new & Hnew & Hlen & Hfail).
  pose proof (media_images_kept params prompts run0 Hall) as Hkept.
  pose proof (kept_images_succeeded
                (λ p, perform_generation generateImage generateVideo (image_request params p))
                prompts w) as Hsome.
  destruct (media_images params prompts run0) as [run r]. cbn [fst snd] in *.
  subst r. cbn [fst snd]. split; [done|].
  rewrite Hnew in Hkept. apply app_inv_head in Hkept. subst new.
  unfold Server.media_answer. rewrite Hnew. cbn [assets_so_far run0 app media_world] in *.
  split; [|split; [|split; [|split]]].
  - by destruct (kept _ _ _ _).
  - intros Hnone. by rewrite (Hfail Hnone).
  - done.
  - rewrite <- Hsome. by destruct (kept _ _ _ _).
  - rewrite <- Hsome. destruct (kept _ _ _ _); [done|]. intros _. by eexists.
Qed.

Lemma media_images_null params before p after (run : media_run) :
  Forall (λ p, get (lit "prompt") p ≠ None) before →
  get (lit "prompt") p = None →
  media_images params (before ++ p :: after) run
  = ((media_images params before run).1, Throw TypeError).
Proof.
  intros Hbefore Hnull. revert run.
  induction Hbefore as [|q before Hq _ IH]; intros run.
  - cbn [app Server.media_images]. unfold read. by rewrite Hnull.
  - cbn [app Server.media_images]. unfold read.
    destruct (get (lit "prompt") q); [|done].
    destruct (perform_generation _ _ _ _) as [w1 r]. apply IH.
Qed.

(** X26. A [null] entry among the prompts fails the whole image request:
    the prompts before it have been served, it and those after it are not,
    and the answer is an internal error, a type error, whatever had been
    generated. *)
Theorem null_prompt_fails_media_request body params before p after (w : W) :
  get (lit "type") body = Some (str "image") →
  get_opt (lit "params") body = params →
  get_opt (lit "prompts") params = VArr (before ++ p :: after) →
  Forall (λ p, get (lit "prompt") p ≠ None) before →
  get (lit "prompt") p = None →
  let run := post_media body w in
  run.2 = MediaFailure (Some TypeError)
  ∧ requested run.1 = image_request params <$> before.
Proof.
  intros Htype Hparams Hprompts Hbefore Hnull. cbv zeta. unfold Server.post_media.
  rewrite Htype, Hparams, Hprompts.
  assert (truthy params = true) as -> by (by destruct params).
  change (truthy (str "image")) with true.
  change (is_str (lit "image") (str "image")) with true. cbn [negb orb].
  match goal with
  | |- context [Server.media_images _ _ _ _ ?start] => set (run0 := start)
  end.
  rewrite (media_images_null params before p after _ Hbefore Hnull). cbn [fst snd].
  split; [done|].
  destruct (media_images_spec params before run0 Hbefore) as (_ & Hreq & _).
  by rewrite Hreq.
Qed.

End MediaHandlerFacts.

(** ** The retrieval of scripts and prompts *)

Section RetrievalFacts.

Import MediaPromptGenerator Retrieval.

Variable ToString : value → jsstring.

Local Abbreviation built := (Retrieval.built ToString).
Local Abbreviation getStoredScript := (Retrieval.getStoredScript ToString).

(** No entry of a history that the module has built holds media prompts. *)
Lemma built_has_no_prompts (h : history) k :
  built h → get_opt (lit "mediaElements") (Retrieval.Map_get k h) = VUndefined.
Proof.
  induction 1 as [|brandInfo research timestamp h _ IH|name script timestamp h _ IH];
    [done| |]; cbn [Retrieval.Map_get file_research file_script];
    destruct (Server.same_key _ k); done.
Qed.

Lemma getStoredScript_mediaPrompts (h : history) brandName :
  built h → get_opt (lit "mediaPrompts") (getStoredScript brandName h) = VUndefined.
Proof.
  intros Hbuilt. unfold Retrieval.getStoredScript.
  destruct (negb (truthy brandName)); [done|].
  destruct (_ && _); [done|].
  change (get_opt (lit "mediaPrompts") (VObj ?fs))
    with (default VUndefined (assoc (lit "mediaPrompts") fs)).
  cbn [assoc]. rewrite bool_decide_eq_false_2 by done.
  rewrite bool_decide_eq_true_2 by done. cbn [default from_option id].
  by apply built_has_no_prompts.
Qed.

(** X27. [getStoredScript] never has media prompts to give: the script
    generator files research and scripts in its history and nothing else,
    the prompts being kept by the media-prompt generator in a history of its
    own.  So the route of routes/mediaPrompts.js, which asks the stored
    script first, always falls through to [getMediaPrompts], and answers as
    the handler [GET /generate/media-prompts] of index.js does. *)
Theorem media_prompt_routes_agree brand (scripts : history)
    (prompts : MediaPromptGenerator.history) :
  built scripts →
  get_opt (lit "mediaPrompts") (getStoredScript brand scripts) = VUndefined
  ∧ route_media_prompts ToString brand scripts prompts
    = get_media_prompts ToString brand prompts.
Proof.
  intros Hbuilt. split; [by apply getStoredScript_mediaPrompts|].
  unfold route_media_prompts, get_media_prompts.
  destruct (negb (truthy brand)); [done|].
  by rewrite (getStoredScript_mediaPrompts _ _ Hbuilt).
Qed.

Variable JSON_parse : jsstring → option value.
Variable W : Type.
Variable fetch : prompt → W → W * ScriptGenerator.fetch_reply.
Variable toISOString : W → value.

(** The two writers keep the history one that the module has built. *)
Lemma research_filing_is_built axios_post brandInfo model (s : sys W) (h : history) :
  built h →
  built (generateBrandResearch_filing JSON_parse W axios_post toISOString
           brandInfo model s h).1.2.
Proof.
  intros Hbuilt. unfold generateBrandResearch_filing.
  destruct (ScriptGenerator.generateBrandResearch _ _ _ _ _ _ _) as [s1 [found|error]];
    cbn [fst snd]; [by constructor|done].
Qed.

(** X28. A script that [generateScript] returns can be read back: it has
    been filed under the name of the brand, and [getStoredScript] of that
    name returns it.  A call that fails files nothing.  Either way the
    history is still one that the module has built. *)
Theorem stored_script_round_trip inputs (s : sys W) (h : history) :
  built h →
  let run := generateScript_filing ToString JSON_parse W fetch toISOString inputs s h in
  let name := get_opt (lit "name") (ScriptGenerator.brandInfo inputs) in
  built run.1.2
  ∧ match run.2 with
    | Ok script =>
        truthy name = true
        ∧ get_opt (lit "script") (getStoredScript name run.1.2) = script
        ∧ get_opt (lit "brandName") (getStoredScript name run.1.2) = name
    | Throw _ => run.1.2 = h
    end.
Proof.
  intros Hbuilt. cbv zeta. unfold generateScript_filing.
  destruct (ScriptGenerator.generateScript JSON_parse W fetch inputs s) as [s1 r] eqn:Hrun.
  destruct r as [script|error]; cbn [fst snd]; [|done].
  split; [by constructor|].
  assert (truthy (get_opt (lit "name") (ScriptGenerator.brandInfo inputs)) = true) as Hname.
  { unfold ScriptGenerator.generateScript in Hrun.
    destruct (truthy (get_opt (lit "name") (ScriptGenerator.brandInfo inputs))); [done|].
    cbn [negb] in Hrun. congruence. }
  split; [done|].
  unfold Retrieval.getStoredScript. rewrite Hname. cbn [negb].
  cbn [Retrieval.Map_get file_script Server.same_key].
  rewrite bool_decide_eq_true_2 by done. cbn [truthy negb andb].
  split; reflexivity.
Qed.

End RetrievalFacts.

(** ** The properties on the scripted services *)

Section OnScriptedServices.

Import MediaGenerator MediaPromptGenerator StorageService Server.

(** C1 on a prose answer. *)
Lemma research_parse_degrades_witness :
  ∃ research,
    ScriptGenerator.parse_research Reference.JSON_parse (VStr Demo.prose) = Ok research
    ∧ Forall (has_section research) required_sections
    ∧ get (lit "rawResponse") research = Some (VStr Demo.prose).
Proof.
  apply (research_parse_degrades Reference.JSON_parse Demo.prose); vm_compute; reflexivity.
Defined.

(** C5 on a tagged fenced block. *)
Lemma fenced_json_round_trip_witness :
  ScriptGenerator.parse_research Reference.JSON_parse
    (VStr (fenced true Demo.research_json))
  = Ok (VObj [(lit "brandEssence", VObj [(lit "coreStory", str "Built to last")]);
              (lit "score", VNum 7)]).
Proof.
  apply (fenced_json_round_trip Reference.JSON_parse true Demo.research_json);
    vm_compute; reflexivity.
Defined.

(** C4 on a script whose [sections] field is a string. *)
Lemma script_without_sections_is_rejected_witness :
  ∃ cause,
    (ScriptGenerator.generateScriptContent Reference.JSON_parse Demo.timeline
       (Demo.fetch_text Demo.script_without_sections)
       (ResearchPrompt VNull) Demo.initial).2
    = Throw (FailedToParseScript cause).
Proof.
  refine (proj1 (script_without_sections_is_rejected Reference.JSON_parse Demo.timeline
            (Demo.fetch_text Demo.script_without_sections) (ResearchPrompt VNull)
            Demo.initial _ 200 _ Demo.script_without_sections eq_refl eq_refl _) _).
  - vm_compute. discriminate.
  - right. eexists. split; vm_compute; reflexivity.
Defined.

Local Abbreviation demo_poll answers :=
  (pollStatus Demo.timeline Demo.now Demo.sleep (Demo.scripted answers)).

Local Abbreviation demo_execute answers request subscribe :=
  (executeModelRequest Demo.timeline Demo.now Demo.sleep (Demo.scripted answers)
     (Demo.always request) (Demo.always subscribe)).

Lemma demo_timer_waits : timer_waits Demo.now Demo.sleep.
Proof. intros d [t k]. unfold Demo.now, Demo.sleep. cbn. lia. Defined.

Lemma demo_clock_monotone answers :
  clock_monotone Demo.now (Demo.scripted answers).
Proof. intros u [t k]. unfold Demo.now, Demo.scripted. cbn. lia. Defined.






(** C7 fails as stated: a provider response [{ output }] without a status
    handle is returned as it is; it has neither [data] nor [requestId]. *)
Lemma raw_result_counterexample :
  demo_execute [] (Answer Demo.raw_output) (Answer Demo.queued_result) 16
    Demo.modelId Demo.input Demo.initial
  = Some ({| world := {| Demo.clock := 0; Demo.checks := 0 |};
             calls := [FalRequest Demo.modelId Demo.input] |},
          Ok Demo.raw_output)
  ∧ get (lit "data") Demo.raw_output = Some VUndefined
  ∧ get (lit "requestId") Demo.raw_output = Some VUndefined
  ∧ ¬ ∃ data requestId, Demo.raw_output = normalized data requestId.
Proof.
  repeat split; try reflexivity. intros (data & requestId & H). discriminate.
Qed.

(** C7, as amended, on a run that polls a status handle to completion. *)
Lemma result_is_normalized_or_raw_witness :
  (∃ response finalStatus w1 w2,
      ((Demo.always (Answer Demo.handle) Demo.modelId Demo.input w1).2 = Answer response
       ∨ (Demo.always (Answer Demo.queued_result) Demo.modelId Demo.input w1).2
         = Answer response)
      ∧ truthy (get_opt (lit "status_url") response) = true
      ∧ (Demo.scripted Demo.three_answers (get_opt (lit "status_url") response) w2).2
        = Answer finalStatus
      ∧ normalized Demo.output (str "req-1")
        = normalized (get_opt (lit "output") finalStatus)
            (get_opt (lit "request_id") response))
  ∨ (∃ w1,
      ((Demo.always (Answer Demo.handle) Demo.modelId Demo.input w1).2
       = Answer (normalized Demo.output (str "req-1"))
       ∨ (Demo.always (Answer Demo.queued_result) Demo.modelId Demo.input w1).2
         = Answer (normalized Demo.output (str "req-1")))
      ∧ truthy (get_opt (lit "status_url") (normalized Demo.output (str "req-1"))) = false).
Proof.
  refine (proj2 (result_is_normalized_or_raw Demo.timeline Demo.now Demo.sleep
            (Demo.scripted Demo.three_answers) (Demo.always (Answer Demo.handle))
            (Demo.always (Answer Demo.queued_result)) 16 Demo.modelId Demo.input
            Demo.initial demo_timer_waits (demo_clock_monotone _) _)
            Demo.after_three_checks (normalized Demo.output (str "req-1")) _).
  - lia.
  - reflexivity.
Defined.



(** C9 fails as stated: research for the brand record named Acme, to which
    the text model answers with the text [null], succeeds and stores a session
    under Acme; the script request for Acme is then answered with the internal
    error [Research data is required], and nothing changes: the text model is
    not called.  Research for a brand record whose name is the empty string
    succeeds too, and returns a session id with which a script request is
    turned down. *)
Lemma research_gate_counterexample :
  (∃ metadata,
     post_research Demo.env_null Demo.research_body Demo.server0
     = (Demo.after_null_research, ResearchDone VNull (str "Acme") metadata))
  ∧ (∃ stamp,
       Map_get (str "Acme") (researchStore Demo.after_null_research)
       = Some {| stored_research := VNull; stored_brandInfo := VObj Demo.acme;
                 stored_timestamp := stamp |})
  ∧ post_script Demo.env_null (VObj (Demo.script_fields "Acme")) Demo.after_null_research
    = (Demo.after_null_research, InternalError (Some ResearchDataRequired))
  ∧ (∃ metadata research,
       post_research Demo.env (VObj [(lit "brandInfo", VObj Demo.unnamed)]) Demo.server0
       = (Demo.after_unnamed, ResearchDone research (VStr []) metadata))
  ∧ post_script Demo.env
      (VObj [(lit "sessionId", VStr []); (lit "campaignGoals", str "Awareness");
             (lit "targetAudience", str "Coyotes")])
      Demo.after_unnamed
    = (Demo.after_unnamed, BadRequest (lit "Missing required fields")).
Proof.
  split; [eexists; vm_compute; reflexivity|].
  split; [eexists; vm_compute; reflexivity|].
  split; [vm_compute; reflexivity|].
  split; [eexists _, _; vm_compute; reflexivity|].
  vm_compute; reflexivity.
Qed.

(** C9, as amended, on Acme: research for the brand record named Acme
    stores a session under that name, a script request for Acme then succeeds
    with the script of the text model, and one for an unknown key is turned
    down; after research to which the text model answered [null], the script
    request for Acme is answered with [Research data is required]. *)
Lemma research_gates_script_witness :
  (∃ error,
     post_script Demo.env (VObj (Demo.script_fields "Unknown")) Demo.after_research
     = (Demo.after_research, BadRequest error)
     ∧ error = lit "No research found")
  ∧ (∃ s' research metadata stamp,
       post_research Demo.env Demo.research_body Demo.server0
       = (s', ResearchDone research (str "Acme") metadata)
       ∧ Map_get (str "Acme") (researchStore s')
         = Some {| stored_research := research; stored_brandInfo := VObj Demo.acme;
                   stored_timestamp := stamp |})
  ∧ status Demo.acme_run.2 ≠ 400
  ∧ (∃ s' mp saved metadata,
       post_script Demo.env (VObj (Demo.script_fields "Acme")) Demo.after_research
       = (s', ScriptDone Demo.pitch_script mp saved metadata))
  ∧ post_script Demo.env_null (VObj (Demo.script_fields "Acme")) Demo.after_null_research
    = (Demo.after_null_research, InternalError (Some ResearchDataRequired)).
Proof.
  destruct (research_gates_script Demo.env)
    as (Hmissing & Hstore & Hpass & _ & _ & _ & Hsuccess).
  destruct (research_gates_script Demo.env_null) as (_ & _ & _ & _ & _ & Hnull & _).
  split; [|split; [|split; [|split]]].
  - destruct (Hmissing (Demo.script_fields "Unknown") Demo.after_research)
      as (error & Hrun & Herror); [vm_compute; reflexivity|].
    exists error. split; [exact Hrun|]. apply Herror; vm_compute; reflexivity.
  - apply (Hstore Demo.research_body Demo.server0 Demo.acme (lit "Acme")
             (world Demo.initial) (Demo.candidates Demo.prose) (VStr Demo.prose));
      vm_compute; reflexivity.
  - refine (proj1 (Hpass (Demo.script_fields "Acme") Demo.after_research Demo.acme_run.1
                     _ Demo.acme_run.2 _ _ _ _ _));
      [vm_compute; reflexivity ..| apply surjective_pairing].
  - refine (Hsuccess (Demo.script_fields "Acme") Demo.after_research _
              (world Demo.initial) 200 (Demo.candidates Demo.script_text)
              Demo.script_text Demo.pitch_script _ _ _ _ _ _ _ _ _ _ _ _ _).
    + vm_compute. reflexivity.
    + reflexivity.
    + reflexivity.
    + reflexivity.
    + vm_compute. reflexivity.
    + vm_compute. reflexivity.
    + reflexivity.
    + reflexivity.
    + intros H. vm_compute in H. discriminate.
    + vm_compute. reflexivity.
    + vm_compute. reflexivity.
    + vm_compute. repeat constructor. eexists. split; [reflexivity|]. right. reflexivity.
    + intros brand sessionId w. by eexists.
  - refine (Hnull (Demo.script_fields "Acme") Demo.after_null_research _ _ _ _ _ _ _);
      vm_compute; reflexivity.
Defined.

(** C10 fails as stated: a section whose visual elements are given as one
    string, or a [null] section, makes [generateMediaPrompts] answer
    [ok: false]. *)
Lemma media_prompts_counterexample :
  ok (generateMediaPrompts Reference.toLowerCase Demo.script_with_string_visuals
        DEFAULT_MODEL (str "2025-01-01T00:00:00.000Z")) = false
  ∧ ok (generateMediaPrompts Reference.toLowerCase Demo.script_with_null_section
          DEFAULT_MODEL (str "2025-01-01T00:00:00.000Z")) = false.
Proof. split; reflexivity. Qed.

(** C10, as amended, on a script with one still visual: the animation
    prompt is the default one. *)
Lemma media_prompts_never_empty_witness :
  ∃ mp metadata,
    generateMediaPrompts Reference.toLowerCase Demo.script_with_one_visual
      DEFAULT_MODEL (str "2025-01-01T00:00:00.000Z") = MediaOk mp metadata
    ∧ images (visualPrompts mp) ≠ []
    ∧ animations (visualPrompts mp) ≠ [].
Proof.
  apply (media_prompts_never_empty Reference.toLowerCase Demo.script_with_one_visual).
  repeat constructor. eexists. split; [reflexivity|]. right. reflexivity.
Defined.

(** X1 on a job that fails at the first check. *)
Lemma poll_outcome_witness :
  truthy (str "out of capacity") = true
  ∧ ∃ w data,
      Demo.scripted [Answer Demo.failed_body] Demo.statusUrl w
      = (world Demo.after_one_check, Answer data)
      ∧ is_str FAILED (get_opt (lit "status") data) = true
      ∧ str "out of capacity"
        = or_else (get_opt (lit "error") data) (VStr (lit "Unknown error")).
Proof.
  exact (poll_outcome Demo.timeline Demo.now Demo.sleep
           (Demo.scripted [Answer Demo.failed_body]) 16 Demo.statusUrl 20000 300000
           Demo.initial Demo.after_one_check
           (Throw (RequestFailed (str "out of capacity"))) eq_refl).
Defined.

(** X2 with the default interval and timeout: fifteen checks at most. *)
Lemma poll_makes_bounded_checks_witness :
  ∃ s' r checks,
    (∀ fuel, (15 < fuel)%nat →
       demo_poll Demo.three_answers fuel Demo.statusUrl 20000 300000 Demo.initial
       = Some (s', r))
    ∧ calls s' = [] ++ checks
    ∧ (length checks ≤ 15)%nat
    ∧ Forall (check_before Demo.statusUrl (0 + 300000)) checks.
Proof.
  apply (poll_makes_bounded_checks Demo.timeline Demo.now Demo.sleep
           (Demo.scripted Demo.three_answers) Demo.statusUrl 20000 300000 Demo.initial).
  - exact demo_timer_waits.
  - exact (demo_clock_monotone _).
  - lia.
Defined.

(** X3 on the run that completes on the third check. *)
Lemma poll_checks_are_spaced_witness :
  ∃ checks,
    [StatusCheck Demo.statusUrl 0; StatusCheck Demo.statusUrl 20000;
     StatusCheck Demo.statusUrl 40000] = [] ++ checks
    ∧ spaced 20000 0 checks.
Proof.
  refine (poll_checks_are_spaced Demo.timeline Demo.now Demo.sleep
            (Demo.scripted Demo.three_answers) 16 Demo.statusUrl 20000 300000 Demo.initial
            {| world := {| Demo.clock := 40000; Demo.checks := 3 |};
               calls := [StatusCheck Demo.statusUrl 0; StatusCheck Demo.statusUrl 20000;
                         StatusCheck Demo.statusUrl 40000] |}
            (Ok Demo.completed_body) demo_timer_waits (demo_clock_monotone _) _).
  reflexivity.
Defined.


Local Abbreviation demo_image answers request subscribe :=
  (MediaGenerator.generateImage Demo.timeline Demo.now Demo.sleep (Demo.scripted answers)
     (Demo.always request) (Demo.always subscribe) Demo.ToString).

Local Abbreviation demo_video answers request subscribe :=
  (MediaGenerator.generateVideo Demo.timeline Demo.now Demo.sleep (Demo.scripted answers)
     (Demo.always request) (Demo.always subscribe) Demo.ToString Demo.JSON_stringify).

(** X5 on a request whose handle completes on the third check. *)
Lemma generateImage_outcomes_witness :
  ∃ s' r,
    demo_image Demo.three_answers (Answer Demo.handle) (Answer Demo.queued_result) 16
      (str "Skyline at dawn") VUndefined VUndefined VUndefined Demo.initial
    = Some (s', r)
    ∧ match r with
      | Ok image =>
          truthy (get_opt (lit "url") image) = true
          ∧ (∃ input v,
               demo_execute Demo.three_answers (Answer Demo.handle)
                 (Answer Demo.queued_result) 16 MODEL_IMAGE input Demo.initial
               = Some (s', Ok v)
               ∧ get_opt (lit "url") image
                 = get_opt (lit "url")
                     (read0_opt (get_opt (lit "images") (get_opt (lit "data") v))))
          ∧ get_opt (lit "metadata") image
            = VObj [(lit "style", param VUndefined "photorealistic");
                    (lit "mood", param VUndefined "professional");
                    (lit "technicalSpecs", param VUndefined "high quality, detailed")]
      | Throw e => ∃ cause, e = FailedToGenerateImage cause
      end.
Proof.
  apply (generateImage_outcomes Demo.timeline Demo.now Demo.sleep
           (Demo.scripted Demo.three_answers) (Demo.always (Answer Demo.handle))
           (Demo.always (Answer Demo.queued_result)) Demo.ToString 16).
  - exact demo_timer_waits.
  - exact (demo_clock_monotone _).
  - lia.
Defined.

(** X6 on a request that is rejected on both paths. *)
Lemma generateVideo_outcomes_witness :
  ∃ s' r,
    demo_video [] (Reject (Some 404)) (Reject (Some 500)) 16
      (str "Logo animation reveal") VUndefined VUndefined VUndefined Demo.initial
    = Some (s', r)
    ∧ match r with
      | Ok video =>
          truthy (get_opt (lit "url") video) = true
          ∧ ∃ input v,
              demo_execute [] (Reject (Some 404)) (Reject (Some 500)) 16 MODEL_VIDEO
                input Demo.initial
              = Some (s', Ok v)
              ∧ get_opt (lit "url") video
                = or_else (get_opt (lit "video_url") (get_opt (lit "data") v))
                    (get_opt (lit "url")
                       (get_opt (lit "video") (get_opt (lit "data") v)))
      | Throw e => ∃ cause, e = FailedToGenerateVideo cause
      end.
Proof.
  apply (generateVideo_outcomes Demo.timeline Demo.now Demo.sleep
           (Demo.scripted []) (Demo.always (Reject (Some 404)))
           (Demo.always (Reject (Some 500))) Demo.ToString Demo.JSON_stringify 16).
  - exact demo_timer_waits.
  - exact (demo_clock_monotone _).
  - lia.
Defined.

(** X7 on the direct answer [{ images: [{ url }] }]. *)
Lemma direct_response_without_data_is_refused_witness :
  ∃ input,
    demo_image [] (Answer Demo.direct_images) (Answer Demo.queued_result) 16
      (str "Skyline at dawn") VUndefined VUndefined VUndefined Demo.initial
    = Some ({| world := world Demo.initial;
               calls := calls Demo.initial ++ [FalRequest MODEL_IMAGE input] |},
            Throw (FailedToGenerateImage NoDataReceived)).
Proof.
  apply (direct_response_without_data_is_refused Demo.timeline Demo.now Demo.sleep
           (Demo.scripted []) (Demo.always (Answer Demo.direct_images))
           (Demo.always (Answer Demo.queued_result)) Demo.ToString 16
           (str "Skyline at dawn") VUndefined VUndefined VUndefined Demo.initial
           (world Demo.initial) Demo.direct_images VUndefined).
  - intros input. reflexivity.
  - reflexivity.
  - reflexivity.
  - reflexivity.
Defined.

(** X10 on an answer that talks before and after the block. *)
Lemma text_around_fence_is_ignored_witness :
  ScriptGenerator.parse_research Reference.JSON_parse
    (VStr (Reference.text "Here you go:|" ++ fenced true Demo.research_json
           ++ Reference.text "|Anything else? ```"))
  = Ok (VObj [(lit "brandEssence", VObj [(lit "coreStory", str "Built to last")]);
              (lit "score", VNum 7)]).
Proof.
  apply (text_around_fence_is_ignored Reference.JSON_parse true
           (Reference.text "Here you go:|") Demo.research_json
           (Reference.text "|Anything else? ```")).
  - apply (bool_decide_unpack _). vm_compute. exact I.
  - vm_compute. reflexivity.
  - vm_compute. reflexivity.
Defined.

(** X11 on markers that share the line of the JSON text. *)
Lemma inline_fence_is_recovered_witness :
  ScriptGenerator.parse_research Reference.JSON_parse
    (VStr (ScriptGenerator.FENCE ++ ScriptGenerator.JSON_TAG
           ++ Reference.text "{'score': 7}" ++ ScriptGenerator.FENCE))
  = Ok (VObj [(lit "score", VNum 7)]).
Proof.
  apply (inline_fence_is_recovered Reference.JSON_parse (Reference.text "{'score': 7}")).
  - apply (bool_decide_unpack _). vm_compute. exact I.
  - vm_compute. reflexivity.
  - vm_compute. reflexivity.
Defined.

(** X12 on a bare JSON answer. *)
Lemma unfenced_json_is_parsed_witness :
  ScriptGenerator.parse_research Reference.JSON_parse (VStr Demo.research_json)
  = Ok (VObj [(lit "brandEssence", VObj [(lit "coreStory", str "Built to last")]);
              (lit "score", VNum 7)]).
Proof.
  apply (unfenced_json_is_parsed Reference.JSON_parse Demo.research_json);
    vm_compute; reflexivity.
Defined.

(** X14 on a script with one still visual. *)
Lemma prompts_follow_string_elements_witness :
  ∃ mp metadata,
    generateMediaPrompts Reference.toLowerCase Demo.script_with_one_visual
      DEFAULT_MODEL (str "2025-01-01T00:00:00.000Z") = MediaOk mp metadata
    ∧ prompt_texts (images (visualPrompts mp)) = [str "Skyline at dawn"]
    ∧ prompt_texts (animations (visualPrompts mp)) = [str "Smooth brand logo animation"].
Proof.
  eexists _, _. split; [reflexivity|].
  edestruct (prompts_follow_string_elements Reference.toLowerCase
               Demo.script_with_one_visual _ DEFAULT_MODEL
               (str "2025-01-01T00:00:00.000Z") _ _ eq_refl eq_refl)
    as (Hstills & _ & _ & Hmotions).
  split; [apply Hstills; vm_compute; discriminate|apply Hmotions; vm_compute; reflexivity].
Defined.

(** X15 on a batch of an image, an animation and an image, on a drive that
    rejects animations: the two images are saved, as the first and the third
    upload. *)
Lemma drive_batch_outcome_witness :
  (saveAssetsToDrive Demo.timeline (λ _ _ w, (w, Answer Demo.folder_1))
     Demo.numbered_upload Demo.batch (str "Acme") (str "Acme") (world Demo.initial)).2
  = Ok [{| file := VObj [(lit "id", VNum 0)]; saved_kind := Image;
           folder := Demo.folder_1 |};
        {| file := VObj [(lit "id", VNum 2)]; saved_kind := Image;
           folder := Demo.folder_1 |}].
Proof.
  destruct (drive_batch_outcome Demo.timeline (λ _ _ w, (w, Answer Demo.folder_1))
              Demo.numbered_upload Demo.batch (str "Acme") (str "Acme")
              (world Demo.initial)) as (saved & Hrun & _ & _ & _ & Hkept & _).
  rewrite Hrun, Hkept. reflexivity.
Defined.

(** X16 on a brand described in free text. *)
Lemma free_text_brand_gets_no_script_witness :
  str "Test" = VStr (first_word Demo.free_text)
  ∧ post_script Demo.env (VObj (Demo.script_fields "Test")) Demo.after_free_text
    = (Demo.after_free_text, InternalError (Some BrandNameRequired)).
Proof.
  eapply (free_text_brand_gets_no_script Demo.env Demo.free_text_body Demo.server0
            Demo.after_free_text Demo.free_text _ (str "Test") _
            (Demo.script_fields "Test")).
  - reflexivity.
  - vm_compute. reflexivity.
  - reflexivity.
  - reflexivity.
  - reflexivity.
  - reflexivity.
Defined.

(** X17 on the research request for Acme. *)
Lemma research_store_discipline_witness :
  ∃ brandInfo,
    get (lit "brandInfo") Demo.research_body = Some brandInfo
    ∧ calls (outside Demo.after_research)
      = calls (outside Demo.server0) ++ [TextModel (ResearchPrompt brandInfo)].
Proof.
  destruct (research_store_discipline Demo.env Demo.research_body Demo.server0
              Demo.after_research _ (surjective_pairing _)) as (_ & _ & [Hnone|Hcall] & _).
  - vm_compute in Hnone. discriminate.
  - exact Hcall.
Defined.

(** X18 on the script request for Acme when every generation fails. *)
Lemma failed_generation_is_no_error_witness :
  status Demo.failing_run.2 = 200
  ∧ ∃ script mp metadata,
      Demo.failing_run.2 = ScriptDone script mp [] metadata
      ∧ get (lit "totalAssets") metadata = Some (VNum 0).
Proof.
  edestruct (failed_generation_is_no_error Demo.env_failing
               (VObj (Demo.script_fields "Acme")) Demo.after_research
               Demo.failing_run.1 Demo.failing_run.2)
    as (Hstatus & script & mp & metadata & Hresp & Htotal & _).
  - intros p st m w. eexists. reflexivity.
  - intros p st w. eexists. reflexivity.
  - intros brand sessionId w. eexists. reflexivity.
  - apply surjective_pairing.
  - vm_compute. reflexivity.
  - apply Exists_cons_tl, Exists_cons_hd. left. by eexists _, _, _.
  - split; [exact Hstatus|]. by exists script, mp, metadata.
Defined.

(** X19 on three image prompts and two animation prompts, the image
    generator failing on the first: the assets are the second image and the
    first animation, the results of the second and the third call. *)
Lemma assets_follow_capped_prompts_witness :
  (generate_assets Demo.env_flaky Demo.pitch_prompts Demo.initial).2
  = [{| kind := Image; url := VNum 1;
        prompt := image_prompt (str "Team at work") (str "modern") (str "professional");
        asset_metadata :=
          VObj [(lit "style", str "Clean"); (lit "colorPalette", str "Brand colors")] |};
     {| kind := Animation; url := VNum 2;
        prompt := animation_prompt (str "Logo animation reveal") (str "cinematic")
                    (str "smooth fade");
        asset_metadata :=
          VObj [(lit "style", str "Smooth"); (lit "duration", VNum 5);
                (lit "transition", str "smooth fade")] |}].
Proof.
  destruct (assets_follow_capped_prompts Demo.env_flaky Demo.pitch_prompts Demo.initial)
    as (imgs & anims & Hassets & _ & _ & _ & _ & Himgs & Hanims & _).
  rewrite Hassets, Himgs, Hanims. reflexivity.
Defined.

(** X20 on a [null] section, a section with an array and a section with a
    string of visual elements. *)
Lemma extractMediaElements_collects_witness :
  extractMediaElements (VArr Demo.sections)
  = Ok {| visualElements := [str "Skyline at dawn"; VNum 3; str "a"; str "b"];
          experientialElements := [];
          motionTransitions := [str "fade"];
          craftAndDesign := [str "hand-drawn"];
          brandAlignmentNotes := [] |}.
Proof.
  apply (extractMediaElements_collects Demo.sections). unfold Demo.sections.
  repeat (constructor; [split; exact I|]). constructor.
Defined.

(** X21 on the same sections. *)
Lemma extractors_agree_witness :
  ScriptGenerator.extractMediaElements (VArr Demo.sections)
  = Ok {| ScriptGenerator.visualElements :=
            [str "Skyline at dawn"; VNum 3; str "a"; str "b"];
          ScriptGenerator.motionTransitions := [str "fade"] |}.
Proof.
  exact (extractors_agree (VArr Demo.sections) _ eq_refl).
Defined.

(** X22 on a run for Acme. *)
Lemma media_prompts_round_trip_witness :
  ∃ mp metadata,
    Demo.filed_for_acme.2 = MediaOk mp metadata
    ∧ getMediaPrompts Demo.ToString (str "Acme") Demo.filed_for_acme.1 = Some mp.
Proof.
  eexists _, _. split; [reflexivity|].
  exact (proj1 (media_prompts_round_trip Reference.toLowerCase Demo.ToString
                  Demo.script_with_one_visual (str "gemini-2.0-flash") (str "Acme")
                  Demo.stamp Demo.stamp ∅ eq_refl)).
Defined.

(** X23 on a run without a brand name. *)
Lemma unnamed_prompts_are_filed_under_default_witness :
  ∃ mp metadata,
    Demo.filed_unnamed.2 = MediaOk mp metadata
    ∧ getMediaPrompts Demo.ToString (str "default") Demo.filed_unnamed.1 = Some mp
    ∧ getMediaPrompts Demo.ToString VUndefined Demo.filed_unnamed.1 = None.
Proof.
  eexists _, _. split; [reflexivity|].
  exact (unnamed_prompts_are_filed_under_default Reference.toLowerCase Demo.ToString
           Demo.script_with_one_visual (str "gemini-2.0-flash") VUndefined
           Demo.stamp Demo.stamp ∅ eq_refl (λ n H, eq_ind VUndefined
             (λ v, match v with VUndefined => True | _ => False end) I _ H)).
Defined.

Local Abbreviation demo_media :=
  (post_media Demo.generateImage Demo.generateVideo (λ _, Demo.stamp)).

(** X25 on three prompts, the second of which fails: the answer lists the
    images of the first and of the third. *)
Lemma media_request_serves_every_prompt_witness :
  requested (demo_media (Demo.media_body Demo.image_prompts) (world Demo.initial)).1
  = [ImageRequest (str "Skyline at dawn") (str "bold") (str "professional")
       (str "high quality, detailed");
     ImageRequest (str "Team at work") (str "bold") (str "professional")
       (str "high quality, detailed");
     ImageRequest (str "Product close-up") (str "noir") (str "professional")
       (str "high quality, detailed")]
  ∧ (∃ assets metadata,
       (demo_media (Demo.media_body Demo.image_prompts) (world Demo.initial)).2
       = MediaGenerated assets metadata
       ∧ get (lit "totalGenerated") metadata = Some (VNum 2))
  ∧ ∃ metadata,
      (demo_media (Demo.media_body Demo.image_prompts) (world Demo.initial)).2
      = MediaGenerated
          [{| generated_type := str "image";
              generated_url := VObj [(lit "url", str "https://fal.media/files/a.png")];
              generated_from := VObj [(lit "prompt", str "Skyline at dawn")] |};
           {| generated_type := str "image";
              generated_url := VObj [(lit "url", str "https://fal.media/files/a.png")];
              generated_from :=
                VObj [(lit "prompt", str "Product close-up"); (lit "style", str "noir")] |}]
          metadata.
Proof.
  assert (Forall (λ p, get (lit "prompt") p ≠ None) Demo.image_prompts) as Hprompts.
  { unfold Demo.image_prompts. repeat (constructor; [discriminate|]). constructor. }
  destruct (media_request_serves_every_prompt Demo.generateImage Demo.generateVideo
              (λ _, Demo.stamp) (Demo.media_body Demo.image_prompts)
              (Demo.media_params Demo.image_prompts) Demo.image_prompts
              (world Demo.initial) eq_refl eq_refl eq_refl Hprompts)
    as (Hrequested & _ & _ & _ & _ & Hsuccess).
  split; [exact Hrequested|]. split; [eexists _, _; split; reflexivity|].
  apply Hsuccess. apply Exists_cons. left. by eexists.
Defined.

(** X26 on prompts whose second entry is [null]. *)
Lemma null_prompt_fails_media_request_witness :
  (demo_media (Demo.media_body Demo.prompts_with_null) (world Demo.initial)).2
  = MediaFailure (Some TypeError)
  ∧ requested (demo_media (Demo.media_body Demo.prompts_with_null) (world Demo.initial)).1
    = [ImageRequest (str "Skyline at dawn") (str "bold") (str "professional")
         (str "high quality, detailed")].
Proof.
  refine (null_prompt_fails_media_request Demo.generateImage Demo.generateVideo
            (λ _, Demo.stamp) (Demo.media_body Demo.prompts_with_null)
            (Demo.media_params Demo.prompts_with_null)
            [VObj [(lit "prompt", str "Skyline at dawn")]]
            VNull [VObj [(lit "prompt", str "Product close-up")]]
            (world Demo.initial) eq_refl eq_refl eq_refl _ eq_refl).
  repeat (constructor; [discriminate|]). constructor.
Defined.

(** X27 on the history after research for Acme. *)
Lemma media_prompt_routes_agree_witness :
  Retrieval.route_media_prompts Demo.ToString (str "Acme") Demo.researched
    Demo.filed_for_acme.1
  = Retrieval.get_media_prompts Demo.ToString (str "Acme") Demo.filed_for_acme.1.
Proof.
  apply (media_prompt_routes_agree Demo.ToString (str "Acme") Demo.researched).
  apply Retrieval.built_research, Retrieval.built_empty.
Defined.

(** X28 on a script for Acme. *)
Lemma stored_script_round_trip_witness :
  ∃ script,
    Demo.script_filed.2 = Ok script
    ∧ get_opt (lit "script")
        (Retrieval.getStoredScript Demo.ToString (str "Acme") Demo.script_filed.1.2)
      = script.
Proof.
  destruct (stored_script_round_trip Demo.ToString Reference.JSON_parse Demo.timeline
              (Demo.fetch_text Demo.script_text) (λ _, Demo.stamp) Demo.acme_inputs
              Demo.initial Demo.researched
              (Retrieval.built_research _ _ _ _ _ (Retrieval.built_empty _))) as [_ H].
  fold Demo.script_filed in H.
  destruct (Demo.script_filed.2) as [script|error] eqn:Hrun.
  - exists script. split; [reflexivity|]. exact (proj1 (proj2 H)).
  - vm_compute in Hrun. discriminate.
Defined.

(** X29 on a job that completes at the first check. *)
Lemma image_of_completed_job_witness :
  ∃ input,
    demo_image [Answer Demo.completed_body] (Answer Demo.handle)
      (Answer Demo.queued_result) 16
      (str "Skyline at dawn") VUndefined VUndefined VUndefined Demo.initial
    = Some ({| world := {| Demo.clock := 0; Demo.checks := 1 |};
               calls := [] ++ [FalRequest MODEL_IMAGE input]
                        ++ [StatusCheck Demo.statusUrl 0] |},
            Ok (VObj [(lit "url", str "https://fal.media/files/a.png");
                      (lit "metadata",
                         VObj [(lit "style", str "photorealistic");
                               (lit "mood", str "professional");
                               (lit "technicalSpecs", str "high quality, detailed")])])).
Proof.
  apply (image_of_completed_job Demo.timeline Demo.now Demo.sleep
           (Demo.scripted [Answer Demo.completed_body]) (Demo.always (Answer Demo.handle))
           (Demo.always (Answer Demo.queued_result)) Demo.ToString 15
           (str "Skyline at dawn") VUndefined VUndefined VUndefined Demo.initial
           (world Demo.initial) Demo.handle Demo.statusUrl
           {| Demo.clock := 0; Demo.checks := 1 |} Demo.completed_body).
  - intros input. reflexivity.
  - reflexivity.
  - reflexivity.
  - reflexivity.
  - reflexivity.
  - reflexivity.
Defined.

(** X30 on a brand record that has a description only. *)
Lemma nameless_brand_gets_no_script_witness :
  VUndefined = get_opt (lit "name") (VObj [(lit "description", str "Anvils and more")])
  ∧ post_script Demo.env
      (VObj [(lit "campaignGoals", str "Awareness"); (lit "targetAudience", str "Coyotes")])
      Demo.after_nameless
    = (Demo.after_nameless, BadRequest (lit "Missing required fields")).
Proof.
  eapply (nameless_brand_gets_no_script Demo.env Demo.nameless_body Demo.server0
            Demo.after_nameless [(lit "description", str "Anvils and more")] _ VUndefined _
            [(lit "campaignGoals", str "Awareness"); (lit "targetAudience", str "Coyotes")]).
  - reflexivity.
  - reflexivity.
  - vm_compute. reflexivity.
  - reflexivity.
Defined.

End OnScriptedServices.
